(** * KVR (KeyVault Registry): the authentication and authorization core

    A shallow embedding of the credential-validation code of the backend
    (auth.config.js, auth.middleware.js, tah-auth.middleware.js,
    api-key.middleware.js, api-keys.routes.js, tenant-context.js) and the
    properties of it that the specification states.

    Conventions.
    - JavaScript strings are [string], in UTF-8; [trim] removes the white
      space JavaScript removes, and the case conversions are those of
      JavaScript for characters up to U+00FF.
    - Instants are milliseconds since the epoch, in [Z].
    - A value that may be [undefined] or [null] is an [option].
    - Library calls whose code is outside the repository (SHA-256,
      jsonwebtoken, crypto, fetch) are parameters of the functions that
      use them.
    - A call on the store may throw; the middlewares that catch such an
      exception take the calls that throw as a parameter.
    - An Express handler maps the request to an [Outcome]: either a response
      that ends the request, or [next()] with the context it attached. *)

From Stdlib Require Import ZArith Lia List String Ascii Bool.
From stdpp Require Import base option list strings gmap.
Import ListNotations.
Open Scope string_scope.

(** ** JavaScript primitives used by the code *)
Module Js.

(** Truthiness of a string: every string but the empty one. *)
Definition truthy (s : string) : bool :=
  match s with EmptyString => false | String _ _ => true end.

(** Truthiness of a possibly undefined string. *)
Definition truthyO (o : option string) : bool :=
  match o with Some s => truthy s | None => false end.

(** [a || b] on possibly undefined strings. *)
Definition orElse (a b : option string) : option string :=
  if truthyO a then a else b.

(** [a || d] where [d] is a string literal. *)
Definition orDefault (a : option string) (d : string) : string :=
  match a with
  | Some s => if truthy s then s else d
  | None => d
  end.

(** [s.startsWith(p)] *)
Fixpoint startsWith (s p : string) {struct p} : bool :=
  match p with
  | EmptyString => true
  | String c p' =>
      match s with
      | EmptyString => false
      | String d s' => Ascii.eqb c d && startsWith s' p'
      end
  end.

(** [s.substring(n)] *)
Fixpoint substringFrom (n : nat) (s : string) : string :=
  match n, s with
  | O, _ => s
  | S _, EmptyString => EmptyString
  | S n', String _ s' => substringFrom n' s'
  end.

(** [s.substring(0, n)] *)
Fixpoint substringTo (n : nat) (s : string) : string :=
  match n, s with
  | O, _ => EmptyString
  | S _, EmptyString => EmptyString
  | S n', String c s' => String c (substringTo n' s')
  end.

(** The value of a byte. *)
Definition code (c : ascii) : nat := nat_of_ascii c.

Definition isAsciiChar (c : ascii) : bool := (code c <? 128)%nat.

(** The string has no character beyond U+007F. *)
Fixpoint isAscii (s : string) : bool :=
  match s with
  | EmptyString => true
  | String c s' => isAsciiChar c && isAscii s'
  end.

Definition isUpperAscii (c : ascii) : bool :=
  let k := code c in (65 <=? k)%nat && (k <=? 90)%nat.

Definition isLowerAscii (c : ascii) : bool :=
  let k := code c in (97 <=? k)%nat && (k <=? 122)%nat.

Definition lowerChar (c : ascii) : ascii :=
  if isUpperAscii c then ascii_of_nat (code c + 32) else c.

Definition upperChar (c : ascii) : ascii :=
  if isLowerAscii c then ascii_of_nat (code c - 32) else c.

(** The second byte of the capital letters U+00C0 to U+00DE (the
    multiplication sign U+00D7 is not one), after the first byte 0xC3. *)
Definition isUpperLatin1 (d : ascii) : bool :=
  let k := code d in
  (128 <=? k)%nat && (k <=? 158)%nat && negb (k =? 151)%nat.

(** The second byte of the small letters U+00E0 to U+00FE (the division
    sign U+00F7 is not one), after the first byte 0xC3. *)
Definition isLowerLatin1 (d : ascii) : bool :=
  let k := code d in
  (160 <=? k)%nat && (k <=? 190)%nat && negb (k =? 183)%nat.

(** [s.toLowerCase()], exact for strings of characters up to U+00FF: the
    letters A to Z and U+00C0 to U+00DE are replaced by their small forms.
    Characters beyond U+00FF are left as they are. *)
Fixpoint toLowerCase (s : string) : string :=
  match s with
  | EmptyString => EmptyString
  | String c s1 =>
      if (code c =? 195)%nat
      then match s1 with
           | String d s2 =>
               if isUpperLatin1 d
               then String c (String (ascii_of_nat (code d + 32))
                                (toLowerCase s2))
               else String c (toLowerCase s1)
           | EmptyString => String c EmptyString
           end
      else String (lowerChar c) (toLowerCase s1)
  end.

(** [s.toUpperCase()], exact for strings of characters up to U+00FF: the
    letters a to z and U+00E0 to U+00FE are replaced by their capital
    forms, the sharp s U+00DF by [SS], U+00FF by U+0178 and the micro sign
    U+00B5 by U+039C. Characters beyond U+00FF are left as they are. *)
Fixpoint toUpperCase (s : string) : string :=
  match s with
  | EmptyString => EmptyString
  | String c s1 =>
      if (code c =? 195)%nat
      then match s1 with
           | String d s2 =>
               if isLowerLatin1 d
               then String c (String (ascii_of_nat (code d - 32))
                                (toUpperCase s2))
               else if (code d =? 159)%nat
               then String "S" (String "S" (toUpperCase s2))
               else if (code d =? 191)%nat
               then String (ascii_of_nat 197) (String (ascii_of_nat 184)
                                                 (toUpperCase s2))
               else String c (toUpperCase s1)
           | EmptyString => String c EmptyString
           end
      else if (code c =? 194)%nat
      then match s1 with
           | String d s2 =>
               if (code d =? 181)%nat
               then String (ascii_of_nat 206) (String (ascii_of_nat 156)
                                                 (toUpperCase s2))
               else String c (toUpperCase s1)
           | EmptyString => String c EmptyString
           end
      else String (upperChar c) (toUpperCase s1)
  end.

(** The number of bytes of the white space or line terminator the string
    starts with, 0 when it starts with none: U+0009 to U+000D, U+0020,
    U+00A0, U+1680, U+2000 to U+200A, U+2028, U+2029, U+202F, U+205F,
    U+3000 and U+FEFF. *)
Definition spaceWidth (s : string) : nat :=
  match s with
  | EmptyString => 0
  | String a s1 =>
      let x := code a in
      if ((9 <=? x)%nat && (x <=? 13)%nat) || (x =? 32)%nat then 1
      else
        match s1 with
        | EmptyString => 0
        | String b s2 =>
            let y := code b in
            if (x =? 194)%nat && (y =? 160)%nat then 2
            else
              match s2 with
              | EmptyString => 0
              | String c _ =>
                  let z := code c in
                  if ((x =? 225)%nat && (y =? 154)%nat && (z =? 128)%nat)
                     || ((x =? 226)%nat && (y =? 128)%nat &&
                         (((128 <=? z)%nat && (z <=? 138)%nat)
                          || (z =? 168)%nat || (z =? 169)%nat
                          || (z =? 175)%nat))
                     || ((x =? 226)%nat && (y =? 129)%nat && (z =? 159)%nat)
                     || ((x =? 227)%nat && (y =? 128)%nat && (z =? 128)%nat)
                     || ((x =? 239)%nat && (y =? 187)%nat && (z =? 191)%nat)
                  then 3 else 0
              end
        end
  end.

Fixpoint trimStartFrom (fuel : nat) (s : string) : string :=
  match fuel with
  | O => s
  | S fuel' =>
      match spaceWidth s with
      | O => s
      | w => trimStartFrom fuel' (substringFrom w s)
      end
  end.

(** [s.trimStart()] *)
Definition trimStart (s : string) : string := trimStartFrom (String.length s) s.

(** The string is empty or made of white space only. *)
Definition allSpace (s : string) : bool :=
  match trimStart s with EmptyString => true | String _ _ => false end.

(** [s.trimEnd()] *)
Fixpoint trimEnd (s : string) : string :=
  match s with
  | EmptyString => EmptyString
  | String c s' => if allSpace s then EmptyString else String c (trimEnd s')
  end.

(** [s.trim()] *)
Definition trim (s : string) : string := trimEnd (trimStart s).

(** [s.split(sep)] for a one-character separator: never the empty list. *)
Fixpoint split (sep : ascii) (s : string) : list string :=
  match s with
  | EmptyString => [EmptyString]
  | String c s' =>
      if Ascii.eqb c sep then EmptyString :: split sep s'
      else match split sep s' with
           | h :: t => String c h :: t
           | [] => [String c EmptyString]
           end
  end.

(** [const [a] = xs]: the first element. *)
Definition first (xs : list string) : option string := head xs.

(** [const [_, b] = xs]: the second element. *)
Definition second (xs : list string) : option string := head (tail xs).

(** [xs.includes(x)] on an array of strings. *)
Definition includes (xs : list string) (x : string) : bool :=
  existsb (String.eqb x) xs.

(** [a === b] where [a] may be undefined and [b] is a string. *)
Definition strictEqO (a : option string) (b : string) : bool :=
  match a with Some s => String.eqb s b | None => false end.

End Js.

(** ** config/auth.config.js *)
Module AuthConfig.

(** The own properties of the object literal [TAH_ROLE_MAPPING], in
    source order. *)
Definition TAH_ROLE_MAPPING : list (string * string) :=
  [ ("administrador", "ADMIN");
    ("proprietario", "OWNER");
    ("proprietário", "OWNER");
    ("desenvolvedor", "DEVELOPER");
    ("usuario", "USER");
    ("usuário", "USER");
    ("visualizador", "VIEWER");
    ("gerente", "ADMIN");
    ("gestor", "ADMIN");
    ("admin", "ADMIN");
    ("administrator", "ADMIN");
    ("superadmin", "ADMIN");
    ("super_admin", "ADMIN");
    ("super-admin", "ADMIN");
    ("sysadmin", "ADMIN");
    ("owner", "OWNER");
    ("developer", "DEVELOPER");
    ("dev", "DEVELOPER");
    ("user", "USER");
    ("viewer", "VIEWER");
    ("member", "USER");
    ("editor", "DEVELOPER");
    ("manager", "ADMIN");
    ("moderator", "ADMIN") ].

(** The members every object literal inherits from [Object.prototype]:
    [TAH_ROLE_MAPPING[k]] finds them when [k] is not an own property. *)
Definition objectPrototypeMembers : list string :=
  [ "constructor"; "__proto__"; "hasOwnProperty"; "isPrototypeOf";
    "propertyIsEnumerable"; "toLocaleString"; "toString"; "valueOf";
    "__defineGetter__"; "__defineSetter__";
    "__lookupGetter__"; "__lookupSetter__" ].

(** The values [mapTahRole] handles: a role string, [undefined], or a
    member of [Object.prototype] (a function or an object, never a
    string; every one of them is truthy). *)
Inductive RoleValue : Type :=
| RUndefined
| RString (s : string)
| RPrototypeMember (name : string).

(** Bracket lookup [obj[k]] on an object literal with the given own
    properties: own properties first, then the prototype. *)
Fixpoint ownProperty (tbl : list (string * string)) (k : string) : option string :=
  match tbl with
  | [] => None
  | (k', v) :: rest => if String.eqb k k' then Some v else ownProperty rest k
  end.

Definition getProperty (tbl : list (string * string)) (k : string) : RoleValue :=
  match ownProperty tbl k with
  | Some v => RString v
  | None => if Js.includes objectPrototypeMembers k then RPrototypeMember k
            else RUndefined
  end.

Definition truthyValue (v : RoleValue) : bool :=
  match v with
  | RUndefined => false
  | RString s => Js.truthy s
  | RPrototypeMember _ => true
  end.

(** [mapTahRole(tahRole)]; [None] is the TypeError of calling
    [toLowerCase] on a value that has no such method. *)
Definition mapTahRole (tahRole : RoleValue) : option RoleValue :=
  if negb (truthyValue tahRole) then Some (RString "USER")
  else match tahRole with
       | RString r =>
           let normalizedRole := Js.trim (Js.toLowerCase r) in
           let mapped := getProperty TAH_ROLE_MAPPING normalizedRole in
           if truthyValue mapped then Some mapped
           else Some (RString (Js.toUpperCase r))
       | _ => None
       end.

(** [AUTH_MODE], [TAH_CONFIG] as read from the environment. *)
Record TahConfig : Type := mkTahConfig {
  enabled : bool;
  issuer : string;
  jwksUrl : string;
  audience : string;
  publicKey : option string;
  appId : string;
  jwksCacheTtl : Z;
  clockTolerance : Z
}.

Record Config : Type := mkConfig {
  AUTH_MODE : string;
  TAH_CONFIG : TahConfig;
  logAuthEvents : bool
}.

Definition isTahEnabled (c : Config) : bool :=
  enabled (TAH_CONFIG c) &&
  (String.eqb (AUTH_MODE c) "tah" || String.eqb (AUTH_MODE c) "dual").

Definition isLocalEnabled (c : Config) : bool :=
  String.eqb (AUTH_MODE c) "local" || String.eqb (AUTH_MODE c) "dual".

End AuthConfig.

(** ** Requests, request context and middleware outcomes *)
Module Http.

(** [req.user]: the fields the middlewares attach; a field a middleware
    does not set is [None]. *)
Record User : Type := mkUser {
  id : option string;
  userId : option string;
  tahUserId : option string;
  email : option string;
  name : option string;
  fullName : option string;
  role : option string;
  roles : list string;
  perfis : list string;
  orgId : option string;
  orgName : option string;
  orgIds : list string;
  orgRole : option string;
  permissions : option (list string);
  authSource : option string
}.

(** [req.apiKey] *)
Record ApiKeyInfo : Type := mkApiKeyInfo {
  keyId : string;
  keyName : string;
  scopes : list string;
  projectIds : list string;
  workflowIds : list string;
  keyOrgId : option string
}.

(** What the middlewares attach to the request: [req.user], [req.apiKey],
    [req.authMethod], [req.org.orgId], [req.tenantContext]. *)
Record Context : Type := mkContext {
  user : option User;
  apiKey : option ApiKeyInfo;
  authMethod : option string;
  org : option string;
  tenantContext : option (option string * string)
}.

Definition emptyContext : Context := mkContext None None None None None.

Record Request : Type := mkRequest {
  headers : gmap string string;
  params : gmap string string;
  query : gmap string string;
  ip : option string;
  ctx : Context
}.

(** The JSON body of a rejection: [{success: false, error, ...}] with the
    further fields as text. *)
Record ErrorBody : Type := mkErrorBody {
  error : string;
  fields : list (string * string)
}.

Inductive Outcome : Type :=
| Respond (status : nat) (body : ErrorBody)
| Next (c : Context).

Definition reject (status : nat) (msg : string) : Outcome :=
  Respond status (mkErrorBody msg []).

End Http.

(** ** middleware/tah-auth.middleware.js *)
Module TahAuth.
Import AuthConfig.

#[local] Set Warnings "-register-all".

(** A parsed JSON value; an object holds its members once each. *)
Inductive Json : Type :=
| JNull
| JBool (b : bool)
| JNum (z : Z)
| JStr (s : string)
| JArr (items : list Json)
| JObj (members : list (string * Json)).

Fixpoint member (ms : list (string * Json)) (k : string) : option Json :=
  match ms with
  | [] => None
  | (k', v) :: rest => if String.eqb k k' then Some v else member rest k
  end.

(** [v.k] for a claim name [k]: [None] is the TypeError of reading a
    property of [null]; [Some None] is [undefined]. *)
Definition getProp (v : Json) (k : string) : option (option Json) :=
  match v with
  | JNull => None
  | JObj ms => Some (member ms k)
  | _ => Some None
  end.

(** [x === s] for a string [s]. *)
Definition isString (x : option Json) (s : string) : bool :=
  match x with
  | Some (JStr t) => String.eqb t s
  | _ => false
  end.

(** [Array.isArray(x) && x.includes(s)] *)
Definition arrayIncludes (x : option Json) (s : string) : bool :=
  match x with
  | Some (JArr items) => existsb (fun i => isString (Some i) s) items
  | _ => false
  end.

(** What [jwt.decode(token, {complete: true})] does: it throws, returns
    [null], or returns the unverified header and payload. *)
Inductive Decoded : Type :=
| DecodeThrows
| DecodeNull
| DecodeOk (header payload : Json).

(** The body of the [try] of [isTahToken]; [None] is an exception. *)
Definition isTahTokenTry (cfg : TahConfig) (decoded : Decoded) : option bool :=
  match decoded with
  | DecodeThrows => None
  | DecodeNull => Some false
  | DecodeOk _ payload =>
      match getProp payload "iss" with
      | None => None
      | Some iss =>
          if isString iss (issuer cfg) then Some true
          else match getProp payload "aud" with
               | None => None
               | Some aud =>
                   if arrayIncludes aud (audience cfg) then Some true
                   else Some false
               end
      end
  end.

(** [isTahToken]: the [catch] returns [false]. *)
Definition isTahTokenOf (cfg : TahConfig) (decoded : Decoded) : bool :=
  match isTahTokenTry cfg decoded with
  | Some b => b
  | None => false
  end.

Definition isTahToken (decode : string -> Decoded) (cfg : TahConfig)
    (token : string) : bool :=
  isTahTokenOf cfg (decode token).

(** *** JWKS *)

Record Jwk : Type := mkJwk {
  kid : option string;
  kty : option string;
  x5c : option (list string);
  n : option string;
  e : option string
}.

(** The member [keys] of a key-set document: absent ([undefined] or
    [null]), an array of key objects, or any other value (which has no
    method [find]). A document that is itself an array is of the last
    kind, its [keys] being a function. *)
Inductive Keys : Type :=
| KeysAbsent
| KeysArray (ks : list Jwk)
| KeysOther.

(** A key-set document: a truthy JSON value. *)
Record Jwks : Type := mkJwks { keys : Keys }.

(** What [response.json()] resolves to, and what the cache holds: [null],
    another falsy value ([false], [0], the empty string), or a truthy
    value, the document. *)
Inductive JwksBody : Type :=
| BodyNull
| BodyFalsy
| BodyDoc (doc : Jwks).

Definition truthyBody (body : JwksBody) : bool :=
  match body with BodyDoc _ => true | _ => false end.

Inductive TahError : Type :=
| FetchError (msg : string)
| TypeError
| SigningKeyNotFound (k : option string)
| UnsupportedKeyType (t : option string)
| CryptoError (msg : string).

(** [jwk.x5c && jwk.x5c[0]] when it is truthy. *)
Definition firstCertificate (jwk : Jwk) : option string :=
  match x5c jwk with
  | Some (c :: _) => if Js.truthy c then Some c else None
  | _ => None
  end.

(** The text [jwkToPem] builds around a certificate. *)
Definition certificatePem (c : string) : string :=
  "-----BEGIN CERTIFICATE-----" +:+ String "010" c +:+
  String "010" "-----END CERTIFICATE-----".

(** [jwkToPem]; [rsaToPem n e] is [crypto.createPublicKey] followed by
    [export], which gives the PEM text or throws. *)
Definition jwkToPem (rsaToPem : string -> string -> string + string)
    (jwk : Jwk) : TahError + string :=
  match firstCertificate jwk with
  | Some c => inr (certificatePem c)
  | None =>
      if Js.strictEqO (kty jwk) "RSA" && Js.truthyO (n jwk) && Js.truthyO (e jwk)
      then match rsaToPem (default "" (n jwk)) (default "" (e jwk)) with
           | inl msg => inl (CryptoError msg)
           | inr pem => inr pem
           end
      else inl (UnsupportedKeyType (kty jwk))
  end.

(** The module-level variables [jwksCache] and [jwksCacheExpiry]. *)
Record JwksState : Type := mkJwksState {
  jwksCache : JwksBody;
  jwksCacheExpiry : Z
}.

Definition initialJwksState : JwksState := mkJwksState BodyNull 0%Z.

(** What [fetch(url)] followed by [response.json()] does: the request is
    rejected, or a response arrives with its [ok] flag and status, whose
    body parses to a JSON value or does not. *)
Inductive FetchResult : Type :=
| FetchRejected (msg : string)
| FetchResponse (ok : bool) (status : string) (json : string + JwksBody).

(** A run of an asynchronous function over the cache: its result, the
    cache it leaves, and the URLs it fetched. *)
Record Run (A : Type) : Type := mkRun {
  result : TahError + A;
  after : JwksState;
  fetched : list string
}.
Arguments mkRun {A} _ _ _.
Arguments result {A} _.
Arguments after {A} _.
Arguments fetched {A} _.

(** The [catch] of [fetchJwks]: the stale cache when it is truthy. *)
Definition fetchJwksCatch (st : JwksState) (url : string) (msg : string)
    : Run JwksBody :=
  if truthyBody (jwksCache st)
  then mkRun (inr (jwksCache st)) st [url]
  else mkRun (inl (FetchError msg)) st [url].

(** [jwksCache && now < jwksCacheExpiry] *)
Definition freshCache (now : Z) (st : JwksState) : bool :=
  truthyBody (jwksCache st) && (now <? jwksCacheExpiry st)%Z.

Definition fetchJwks (cfg : TahConfig) (net : string -> FetchResult)
    (now : Z) (st : JwksState) : Run JwksBody :=
  if freshCache now st
  then mkRun (inr (jwksCache st)) st []
  else
    match net (jwksUrl cfg) with
    | FetchRejected msg => fetchJwksCatch st (jwksUrl cfg) msg
    | FetchResponse false status _ =>
        fetchJwksCatch st (jwksUrl cfg) ("JWKS fetch failed: " +:+ status)
    | FetchResponse true _ (inl msg) => fetchJwksCatch st (jwksUrl cfg) msg
    | FetchResponse true _ (inr body) =>
        mkRun (inr body)
              (mkJwksState body (now + jwksCacheTtl cfg * 1000)%Z)
              [jwksUrl cfg]
    end.

(** [k.kid === kid], both possibly undefined. *)
Definition sameKid (a b : option string) : bool :=
  match a, b with
  | Some x, Some y => String.eqb x y
  | None, None => true
  | _, _ => false
  end.

(** [jwks.keys?.find(k => k.kid === kid)]; the outer [None] is the
    TypeError of calling a [find] that is not there. *)
Definition findKey (jwks : Jwks) (k : option string) : option (option Jwk) :=
  match keys jwks with
  | KeysAbsent => Some None
  | KeysArray ks => Some (find (fun j => sameKid (kid j) k) ks)
  | KeysOther => None
  end.

(** The part of [getSigningKey] that follows the fetch, for a document. *)
Definition selectKey (rsaToPem : string -> string -> string + string)
    (jwks : Jwks) (k : option string) : TahError + string :=
  match findKey jwks k with
  | None => inl TypeError
  | Some None => inl (SigningKeyNotFound k)
  | Some (Some key) => jwkToPem rsaToPem key
  end.

(** [getSigningKey]: reading [keys] of [null] throws a TypeError, and any
    other falsy value has no [keys]. *)
Definition getSigningKey (cfg : TahConfig)
    (rsaToPem : string -> string -> string + string)
    (net : string -> FetchResult) (now : Z) (st : JwksState)
    (k : option string) : Run string :=
  if Js.truthyO (publicKey cfg)
  then mkRun (inr (default "" (publicKey cfg))) st []
  else
    let r := fetchJwks cfg net now st in
    match result r with
    | inl err => mkRun (inl err) (after r) (fetched r)
    | inr BodyNull => mkRun (inl TypeError) (after r) (fetched r)
    | inr BodyFalsy => mkRun (inl (SigningKeyNotFound k)) (after r) (fetched r)
    | inr (BodyDoc jwks) =>
        mkRun (selectKey rsaToPem jwks k) (after r) (fetched r)
    end.

(** *** checkTahPermission *)

(** [a === b], both possibly undefined. *)
Definition strictEqOO (a b : option string) : bool :=
  match a, b with
  | Some x, Some y => String.eqb x y
  | None, None => true
  | _, _ => false
  end.

(** The predicate given to [permissions.some] in [checkTahPermission]. *)
Definition tahPermissionGrants (featureId action p : string) : bool :=
  let parts := Js.split ":" p in
  let resource := Js.first parts in
  let allowedAction := Js.second parts in
  if Js.strictEqO resource "*" || Js.strictEqO allowedAction "*" then true
  else if String.eqb p (featureId +:+ ":" +:+ action) then true
  else if String.eqb p (featureId +:+ ":*") then true
  else
    let category := Js.first (Js.split "." featureId) in
    if strictEqOO resource category &&
       (Js.strictEqO allowedAction "*" || Js.strictEqO allowedAction action)
    then true
    else false.

Definition checkTahPermission (featureId action : string)
    (req : Http.Request) : Http.Outcome :=
  match Http.user (Http.ctx req) with
  | Some u =>
      if Js.strictEqO (Http.authSource u) "tah"
      then
        let permissions := default [] (Http.permissions u) in
        let hasPermission :=
          existsb (tahPermissionGrants featureId action) permissions in
        if negb hasPermission
        then Http.Respond 403
               (Http.mkErrorBody "Insufficient permissions"
                  [("feature", featureId); ("action", action);
                   ("required", featureId +:+ ":" +:+ action)])
        else Http.Next (Http.ctx req)
      else Http.Next (Http.ctx req)
  | None => Http.Next (Http.ctx req)
  end.

End TahAuth.

(** ** auth/jwt.service.js and middleware/auth.middleware.js *)
Module AuthMiddleware.
Import AuthConfig.

(** The claims the code reads from a verified local token. *)
Record LocalClaims : Type := mkLocalClaims {
  c_userId : option string;
  c_id : option string;
  c_email : option string;
  c_fullName : option string;
  c_name : option string;
  c_role : option string;
  c_roles : option (list string);
  c_perfis : option (list string);
  c_orgId : option string;
  c_orgIds : option (list string);
  c_orgRole : option string
}.

(** What [validateTahToken] returns. *)
Record TahUser : Type := mkTahUser {
  t_userId : option string;
  t_tahUserId : option string;
  t_email : option string;
  t_name : option string;
  t_fullName : option string;
  t_orgId : option string;
  t_orgName : option string;
  t_orgIds : option (list string);
  t_orgRole : option string;
  t_roles : option (list string);
  t_permissions : option (list string)
}.

(** The environment variables read when the modules load. *)
Record Env : Type := mkEnv {
  DEV_AUTH_BYPASS : option string;
  DEV_USER_ID : option string;
  DEV_USER_EMAIL : option string;
  DEV_USER_ROLE : option string;
  DEV_ORG_ID : option string;
  NODE_ENV : option string;
  JWT_SECRET : option string
}.

Definition AUTH_BYPASS_ENABLED (env : Env) : bool :=
  Js.strictEqO (DEV_AUTH_BYPASS env) "true".

Definition DEV_USER (env : Env) : Http.User :=
  {| Http.id := Some (Js.orDefault (DEV_USER_ID env) "dev-user");
     Http.userId := Some (Js.orDefault (DEV_USER_ID env) "dev-user");
     Http.tahUserId := None;
     Http.email := Some (Js.orDefault (DEV_USER_EMAIL env) "dev@example.com");
     Http.name := None;
     Http.fullName := None;
     Http.role := Some (Js.orDefault (DEV_USER_ROLE env) "DEVELOPER");
     Http.roles := [Js.orDefault (DEV_USER_ROLE env) "DEVELOPER"];
     Http.perfis := [];
     Http.orgId := Js.orElse (DEV_ORG_ID env) None;
     Http.orgName := None;
     Http.orgIds := [];
     Http.orgRole := None;
     Http.permissions := None;
     Http.authSource := Some "dev-bypass" |}.

(** [extractToken] *)
Definition extractToken (req : Http.Request) : option string :=
  match Http.headers req !! "authorization" with
  | Some authHeader =>
      if Js.truthy authHeader && Js.startsWith authHeader "Bearer "
      then Some (Js.substringFrom 7 authHeader)
      else None
  | None => None
  end.

(** [decoded.roles?.[0]] *)
Definition firstRole (rs : option (list string)) : option string :=
  match rs with
  | Some l => head l
  | None => None
  end.

(** The object [validateLocalToken] builds from the verified claims. *)
Definition localUser (decoded : LocalClaims) : Http.User :=
  {| Http.id := Js.orElse (c_userId decoded) (c_id decoded);
     Http.userId := Js.orElse (c_userId decoded) (c_id decoded);
     Http.tahUserId := None;
     Http.email := c_email decoded;
     Http.name := Js.orElse (c_fullName decoded) (c_name decoded);
     Http.fullName := c_fullName decoded;
     Http.role :=
       Some (Js.orDefault (Js.orElse (c_role decoded) (firstRole (c_roles decoded)))
                          "USER");
     Http.roles :=
       match c_roles decoded with
       | Some rs => rs
       | None => if Js.truthyO (c_role decoded)
                 then [default "" (c_role decoded)]
                 else ["USER"]
       end;
     Http.perfis := default [] (c_perfis decoded);
     Http.orgId := Js.orElse (c_orgId decoded) None;
     Http.orgName := None;
     Http.orgIds := default [] (c_orgIds decoded);
     Http.orgRole := Js.orElse (c_orgRole decoded) None;
     Http.permissions := None;
     Http.authSource := Some "local" |}.

(** The object [validateToken] builds from a validated TAH token. *)
Definition tahUserToUser (tahUser : TahUser) : Http.User :=
  {| Http.id := t_userId tahUser;
     Http.userId := t_userId tahUser;
     Http.tahUserId := t_tahUserId tahUser;
     Http.email := t_email tahUser;
     Http.name := t_name tahUser;
     Http.fullName := t_fullName tahUser;
     Http.role := Some (Js.orDefault (firstRole (t_roles tahUser)) "USER");
     Http.roles := default ["USER"] (t_roles tahUser);
     Http.perfis := [];
     Http.orgId := t_orgId tahUser;
     Http.orgName := t_orgName tahUser;
     Http.orgIds := default [] (t_orgIds tahUser);
     Http.orgRole := t_orgRole tahUser;
     Http.permissions := Some (default [] (t_permissions tahUser));
     Http.authSource := Some "tah" |}.

Section WithLibraries.
(** [jwt.verify(token, secret)]: the verified claims, or [None] when it
    throws (bad signature, malformed or expired token). *)
Variable jwtVerify : string -> string -> option LocalClaims.
(** [jwt.decode(token, {complete: true})] *)
Variable jwtDecode : string -> TahAuth.Decoded.
(** [validateTahToken]: the TAH user, or the message of the error it
    throws; it depends on the JWKS endpoint and on jsonwebtoken. *)
Variable validateTahToken : string -> string + TahUser.
Variable cfg : Config.
Variable env : Env.

(** [verifyAccessToken] of jwt.service.js *)
Definition verifyAccessToken (token : string) : string + LocalClaims :=
  match jwtVerify token (Js.orDefault (JWT_SECRET env) "your-secret-key") with
  | Some decoded => inr decoded
  | None => inl "Invalid or expired token"
  end.

(** [validateLocalToken] *)
Definition validateLocalToken (token : string) : string + Http.User :=
  match verifyAccessToken token with
  | inl msg => inl msg
  | inr decoded => inr (localUser decoded)
  end.

(** [validateToken] *)
Definition validateToken (token : string) : string + Http.User :=
  if isTahEnabled cfg && TahAuth.isTahToken jwtDecode (TAH_CONFIG cfg) token
  then match validateTahToken token with
       | inl msg => inl msg
       | inr tahUser => inr (tahUserToUser tahUser)
       end
  else if isLocalEnabled cfg then validateLocalToken token
  else inl "No valid authentication method available".

Definition withUser (c : Http.Context) (u : Http.User) : Http.Context :=
  {| Http.user := Some u;
     Http.apiKey := Http.apiKey c;
     Http.authMethod := Http.authMethod c;
     Http.org := Http.org c;
     Http.tenantContext := Http.tenantContext c |}.

(** [applyDevBypass]: [None] is its [return false]; otherwise the
    outcome of the [next()] it calls. The one-time warning it logs is
    not part of the outcome. *)
Definition applyDevBypass (req : Http.Request) : option Http.Outcome :=
  if negb (AUTH_BYPASS_ENABLED env) then None
  else Some (Http.Next (withUser (Http.ctx req) (DEV_USER env))).

(** The [details] member of the 401 body of [authenticate]. *)
Definition errorDetails (msg : string) : list (string * string) :=
  if Js.strictEqO (NODE_ENV env) "development" then [("details", msg)] else [].

(** [authenticate] *)
Definition authenticate (req : Http.Request) : Http.Outcome :=
  match extractToken req with
  | Some (String c t) =>
      match validateToken (String c t) with
      | inr u => Http.Next (withUser (Http.ctx req) u)
      | inl msg =>
          Http.Respond 401
            (Http.mkErrorBody "Invalid or expired token" (errorDetails msg))
      end
  | _ =>
      match applyDevBypass req with
      | Some out => out
      | None => Http.reject 401 "No token provided"
      end
  end.

(** [optionalAuth] *)
Definition optionalAuth (req : Http.Request) : Http.Outcome :=
  match extractToken req with
  | Some (String c t) =>
      match validateToken (String c t) with
      | inr u => Http.Next (withUser (Http.ctx req) u)
      | inl _ => Http.Next (Http.ctx req)
      end
  | _ =>
      if AUTH_BYPASS_ENABLED env
      then Http.Next (withUser (Http.ctx req) (DEV_USER env))
      else Http.Next (Http.ctx req)
  end.

End WithLibraries.

(** The predicate given to [permissions.some] in [checkPermission]. *)
Definition permissionGrants (featureId action p : string) : bool :=
  if String.eqb p "*" || String.eqb p "*:*" then true
  else if String.eqb p (featureId +:+ ":*") then true
  else if String.eqb p (featureId +:+ ":" +:+ action) then true
  else
    let category := default "" (Js.first (Js.split "." featureId)) in
    if String.eqb p (category +:+ ":*") ||
       String.eqb p (category +:+ ":" +:+ action)
    then true
    else false.

(** [checkPermission] *)
Definition checkPermission (featureId action : string)
    (req : Http.Request) : Http.Outcome :=
  match Http.user (Http.ctx req) with
  | None => Http.reject 401 "Authentication required"
  | Some u =>
      if Js.strictEqO (Http.authSource u) "tah"
      then
        let permissions := default [] (Http.permissions u) in
        let hasPermission :=
          existsb (permissionGrants featureId action) permissions in
        if negb hasPermission
        then Http.Respond 403
               (Http.mkErrorBody "Feature access denied"
                  [("feature", featureId); ("action", action)])
        else Http.Next (Http.ctx req)
      else Http.Next (Http.ctx req)
  end.

End AuthMiddleware.

(** ** utils/tenant-context.js *)
Module TenantContext.

Record TenantCtx : Type := mkTenantCtx {
  userId : option string;
  orgId : option string;
  authSource : string;
  permissions : list string
}.

(** [getTenantContext] *)
Definition getTenantContext (req : Http.Request) : TenantCtx :=
  let u := Http.user (Http.ctx req) in
  {| userId := Js.orElse (Js.orElse (u ≫= Http.id) (u ≫= Http.userId)) None;
     orgId := Js.orElse (Js.orElse (Http.org (Http.ctx req)) (u ≫= Http.orgId)) None;
     authSource := Js.orDefault (u ≫= Http.authSource) "local";
     permissions := default [] (u ≫= Http.permissions) |}.

End TenantContext.

(** ** The API-key table *)
Module Store.

(** A row of the [apiKey] table, with the columns the code reads and
    writes (the Prisma schema is shared with another application and is
    not part of the repository). *)
Record ApiKey : Type := mkApiKey {
  id : string;
  userId : string;
  orgId : option string;
  name : string;
  description : option string;
  keyHash : string;
  keyPrefix : string;
  scopes : list string;
  projectIds : list string;
  workflowIds : list string;
  rateLimit : Z;
  rateLimitUsed : Z;
  rateLimitReset : option Z;
  usageCount : Z;
  lastUsedAt : option Z;
  lastUsedIp : option string;
  expiresAt : option Z;
  isActive : bool;
  createdAt : Z;
  updatedAt : Z
}.

(** A row of the [usuario] table, as [authenticateHybrid] selects it. *)
Record Usuario : Type := mkUsuario {
  u_id : string;
  u_email : string;
  u_roles : list string;
  u_fullName : option string
}.

Record Db : Type := mkDb {
  apiKeys : list ApiKey;
  usuarios : list Usuario
}.

(** [prisma.apiKey.findUnique({ where: { keyHash } })] *)
Definition findByHash (db : Db) (h : string) : option ApiKey :=
  find (fun k => String.eqb (keyHash k) h) (apiKeys db).

(** [prisma.apiKey.findUnique({ where: { id } })] *)
Definition findById (db : Db) (i : string) : option ApiKey :=
  find (fun k => String.eqb (id k) i) (apiKeys db).

(** [prisma.usuario.findUnique({ where: { id } })] *)
Definition findUsuario (db : Db) (i : string) : option Usuario :=
  find (fun u => String.eqb (u_id u) i) (usuarios db).

(** [prisma.apiKey.update({ where: { id }, data })]: the rows with this
    id are rewritten by [f]. *)
Definition updateById (db : Db) (i : string) (f : ApiKey -> ApiKey) : Db :=
  {| apiKeys := map (fun k => if String.eqb (id k) i then f k else k) (apiKeys db);
     usuarios := usuarios db |}.

Definition setRateLimit (used : Z) (reset : option Z) (k : ApiKey) : ApiKey :=
  {| id := id k; userId := userId k; orgId := orgId k; name := name k;
     description := description k; keyHash := keyHash k;
     keyPrefix := keyPrefix k; scopes := scopes k;
     projectIds := projectIds k; workflowIds := workflowIds k;
     rateLimit := rateLimit k;
     rateLimitUsed := used;
     rateLimitReset := reset;
     usageCount := usageCount k; lastUsedAt := lastUsedAt k;
     lastUsedIp := lastUsedIp k; expiresAt := expiresAt k;
     isActive := isActive k; createdAt := createdAt k;
     updatedAt := updatedAt k |}.

(** The [data] of the update of [updateApiKeyUsage]; an [ip] that is
    [undefined] leaves the column [lastUsedIp] as it is. *)
Definition recordUse (now : Z) (ip : option string) (reset : option Z)
    (k : ApiKey) : ApiKey :=
  {| id := id k; userId := userId k; orgId := orgId k; name := name k;
     description := description k; keyHash := keyHash k;
     keyPrefix := keyPrefix k; scopes := scopes k;
     projectIds := projectIds k; workflowIds := workflowIds k;
     rateLimit := rateLimit k;
     rateLimitUsed := (rateLimitUsed k + 1)%Z;
     rateLimitReset := reset;
     usageCount := (usageCount k + 1)%Z;
     lastUsedAt := Some now;
     lastUsedIp := match ip with Some _ => ip | None => lastUsedIp k end;
     expiresAt := expiresAt k;
     isActive := isActive k; createdAt := createdAt k;
     updatedAt := updatedAt k |}.

(** The calls on the store that a request makes through the API-key
    middlewares: the lookup of the key and the reset of its window in
    [validateApiKey], the lookup of the owner, and the update of
    [updateApiKeyUsage]. Any of them can throw (the store does not answer,
    the query is refused); a function [StoreCall -> bool] tells which of
    them throw during a request. *)
Inductive StoreCall : Type :=
| FindApiKey
| ResetRateLimit
| FindOwner
| RecordUsage.

(** No call on the store throws. *)
Definition noThrow (call : StoreCall) : bool := false.

End Store.

(** ** middleware/api-key.middleware.js *)
Module ApiKeyMiddleware.
Import Store.

Definition validPrefixes : list string := ["orc_"; "ak_"; "sk_"].

Definition hasValidPrefix (s : string) : bool :=
  existsb (fun p => Js.startsWith s p) validPrefixes.

(** [extractApiKey] *)
Definition extractApiKey (req : Http.Request) : option string :=
  let fromAuthorization :=
    match Http.headers req !! "authorization" with
    | Some authHeader =>
        if Js.truthy authHeader && Js.startsWith authHeader "Bearer "
        then
          let token := Js.substringFrom 7 authHeader in
          if hasValidPrefix token then Some token else None
        else None
    | None => None
    end in
  match Http.headers req !! "x-api-key" with
  | Some apiKeyHeader =>
      if Js.truthy apiKeyHeader && hasValidPrefix apiKeyHeader
      then Some apiKeyHeader
      else fromAuthorization
  | None => fromAuthorization
  end.

(** The object [validateApiKey] returns: [{ valid: false, error,
    rateLimited }] or [{ valid: true, apiKey }]. *)
Inductive Validation : Type :=
| Invalid (error : string) (rateLimited : bool)
| Valid (apiKey : ApiKey).

(** [apiKey.rateLimitReset && apiKey.rateLimitReset < now] *)
Definition resetDue (now : Z) (k : ApiKey) : bool :=
  match rateLimitReset k with
  | Some r => (r <? now)%Z
  | None => false
  end.

(** [apiKey.expiresAt && apiKey.expiresAt < new Date()] *)
Definition expired (now : Z) (k : ApiKey) : bool :=
  match expiresAt k with
  | Some x => (x <? now)%Z
  | None => false
  end.

(** [requestedOrgId && apiKey.orgId && apiKey.orgId !== requestedOrgId] *)
Definition orgMismatch (requestedOrgId : option string) (k : ApiKey) : bool :=
  match requestedOrgId, orgId k with
  | Some r, Some o => Js.truthy r && Js.truthy o && negb (String.eqb o r)
  | _, _ => false
  end.

(** [requiredScope && !apiKey.scopes.includes(requiredScope)] *)
Definition scopeMissing (requiredScope : option string) (k : ApiKey) : bool :=
  match requiredScope with
  | Some sc => Js.truthy sc && negb (Js.includes (scopes k) sc)
  | None => false
  end.

(** [resourceId && apiKey.workflowIds.length > 0 &&
    !apiKey.workflowIds.includes(resourceId)] *)
Definition workflowDenied (resourceId : option string) (k : ApiKey) : bool :=
  match resourceId with
  | Some r =>
      Js.truthy r && (0 <? length (workflowIds k))%nat &&
      negb (Js.includes (workflowIds k) r)
  | None => false
  end.

Section WithHash.
(** [crypto.createHash('sha256').update(key).digest('hex')] *)
Variable sha256hex : string -> string.

Definition hashApiKey (key : string) : string := sha256hex key.

(** [validateApiKey], run at the instant [now] on the table [db]: the
    table it leaves and the object it returns. *)
Definition validateApiKey (now : Z) (db : Db) (key : string)
    (requiredScope resourceId requestedOrgId : option string)
    : Db * Validation :=
  let keyHash := hashApiKey key in
  match findByHash db keyHash with
  | None => (db, Invalid "Invalid API key" false)
  | Some apiKey =>
      if negb (isActive apiKey) then (db, Invalid "API key is inactive" false)
      else if expired now apiKey then (db, Invalid "API key has expired" false)
      else if orgMismatch requestedOrgId apiKey
      then (db, Invalid "API key does not belong to the requested organization" false)
      else
        let '(db1, apiKey1) :=
          if resetDue now apiKey
          then (updateById db (id apiKey)
                  (setRateLimit 0%Z (Some (now + 3600000)%Z)),
                setRateLimit 0%Z (rateLimitReset apiKey) apiKey)
          else (db, apiKey) in
        if (rateLimit apiKey1 <=? rateLimitUsed apiKey1)%Z
        then (db1, Invalid "Rate limit exceeded" true)
        else if scopeMissing requiredScope apiKey1
        then (db1, Invalid ("Missing required scope: " +:+ default "" requiredScope) false)
        else if workflowDenied resourceId apiKey1
        then (db1, Invalid "API key does not have access to this workflow" false)
        else (db1, Valid apiKey1)
  end.

(** [validateApiKey] above is the run in which the store answers every
    call. When calls throw, [validateApiKey] throws instead of returning
    if its lookup throws, or if it comes to the reset of the window and
    that update throws; nothing is written then. *)
Definition validateApiKeyThrows (throws : StoreCall -> bool) (now : Z)
    (db : Db) (key : string) (requestedOrgId : option string) : bool :=
  throws FindApiKey ||
  match findByHash db (hashApiKey key) with
  | Some apiKey =>
      isActive apiKey && negb (expired now apiKey) &&
      negb (orgMismatch requestedOrgId apiKey) && resetDue now apiKey &&
      throws ResetRateLimit
  | None => false
  end.

(** [updateApiKeyUsage], run at the instant [now]; [None] is the
    rejection of its promise (no row with this id). *)
Definition updateApiKeyUsage (now : Z) (db : Db) (apiKeyId : string)
    (ip : option string) : option Db :=
  match findById db apiKeyId with
  | None => None
  | Some k =>
      let reset :=
        match rateLimitReset k with
        | Some r => Some r
        | None => Some (now + 3600000)%Z
        end in
      Some (updateById db apiKeyId (recordUse now ip reset))
  end.

(** [req.apiKey] as [authenticateHybrid] sets it. *)
Definition apiKeyInfo (k : ApiKey) : Http.ApiKeyInfo :=
  {| Http.keyId := id k;
     Http.keyName := name k;
     Http.scopes := scopes k;
     Http.projectIds := projectIds k;
     Http.workflowIds := workflowIds k;
     Http.keyOrgId := orgId k |}.

(** [req.user] as the API-key branch of [authenticateHybrid] sets it. *)
Definition apiKeyUser (u : Usuario) (apiKeyOrgId : option string) : Http.User :=
  {| Http.id := Some (u_id u);
     Http.userId := Some (u_id u);
     Http.tahUserId := None;
     Http.email := Some (u_email u);
     Http.name := None;
     Http.fullName := u_fullName u;
     Http.role := Some (Js.orDefault (head (u_roles u)) "USER");
     Http.roles := u_roles u;
     Http.perfis := [];
     Http.orgId := apiKeyOrgId;
     Http.orgName := None;
     Http.orgIds :=
       match apiKeyOrgId with
       | Some o => if Js.truthy o then [o] else []
       | None => []
       end;
     Http.orgRole := Some "MEMBER";
     Http.permissions := None;
     Http.authSource := None |}.

(** [req.user] as the JWT branch of [authenticateHybrid] sets it. *)
Definition jwtUser (decoded : AuthMiddleware.LocalClaims)
    (effectiveOrgId : option string) : Http.User :=
  let userId := Js.orElse (AuthMiddleware.c_userId decoded)
                          (AuthMiddleware.c_id decoded) in
  {| Http.id := userId;
     Http.userId := userId;
     Http.tahUserId := None;
     Http.email := AuthMiddleware.c_email decoded;
     Http.name := None;
     Http.fullName := AuthMiddleware.c_fullName decoded;
     Http.role := AuthMiddleware.c_role decoded;
     Http.roles :=
       match AuthMiddleware.c_roles decoded with
       | Some rs => rs
       | None => if Js.truthyO (AuthMiddleware.c_role decoded)
                 then [default "" (AuthMiddleware.c_role decoded)]
                 else ["USER"]
       end;
     Http.perfis := default [] (AuthMiddleware.c_perfis decoded);
     Http.orgId := effectiveOrgId;
     Http.orgName := None;
     Http.orgIds := default [] (AuthMiddleware.c_orgIds decoded);
     Http.orgRole := AuthMiddleware.c_orgRole decoded;
     Http.permissions := None;
     Http.authSource := None |}.

(** The request context after a successful authentication: [req.org]
    and [req.tenantContext] are set only for a truthy organization. *)
Definition attach (c : Http.Context) (u : Http.User)
    (k : option Http.ApiKeyInfo) (method : string)
    (orgId : option string) : Http.Context :=
  {| Http.user := Some u;
     Http.apiKey := match k with Some _ => k | None => Http.apiKey c end;
     Http.authMethod := Some method;
     Http.org := if Js.truthyO orgId then orgId else Http.org c;
     Http.tenantContext :=
       if Js.truthyO orgId
       then Some (Http.id u, default "" orgId)
       else Http.tenantContext c |}.

(** The organization check of the JWT branch: [None] is the 403. *)
Definition effectiveOrg (requestedOrgId tokenOrgId : option string)
    (tokenOrgIds : list string) : option (option string) :=
  if Js.truthyO requestedOrgId && (0 <? length tokenOrgIds)%nat
  then
    if negb (Js.includes tokenOrgIds (default "" requestedOrgId))
    then None
    else Some requestedOrgId
  else Some tokenOrgId.

Section WithJwt.
Variable jwtVerify : string -> string -> option AuthMiddleware.LocalClaims.
Variable env : AuthMiddleware.Env.

(** [authenticateHybrid({ scope, resourceIdParam })], with the
    validation run at the instant [now] and the usage update it
    starts run at [nowUsage]: the outcome for the request and the
    table once the usage update has settled (a failed update is
    logged and leaves the table as the validation left it). A call on
    the store that throws, other than the usage update, ends in the
    outer [catch], which answers 500. *)
Definition authenticateHybrid (throws : StoreCall -> bool)
    (scope resourceIdParam : option string)
    (now nowUsage : Z) (db : Db) (req : Http.Request)
    : Db * Http.Outcome :=
  match extractApiKey req with
  | Some apiKey =>
      let resourceId :=
        match resourceIdParam with
        | Some prm => if Js.truthy prm then Http.params req !! prm else None
        | None => None
        end in
      let requestedOrgId :=
        Js.orElse (Http.headers req !! "x-organization-id") None in
      if validateApiKeyThrows throws now db apiKey requestedOrgId
      then (db, Http.reject 500 "Authentication failed")
      else
      match validateApiKey now db apiKey scope resourceId requestedOrgId with
      | (db1, Invalid err true) =>
          (db1, Http.Respond 429 (Http.mkErrorBody err [("retryAfter", "3600")]))
      | (db1, Invalid err false) => (db1, Http.reject 401 err)
      | (db1, Valid k) =>
          if throws FindOwner
          then (db1, Http.reject 500 "Authentication failed")
          else
          match findUsuario db1 (userId k) with
          | None => (db1, Http.reject 401 "API key owner not found")
          | Some u =>
              let apiKeyOrgId := Js.orElse (orgId k) requestedOrgId in
              let c := attach (Http.ctx req) (apiKeyUser u apiKeyOrgId)
                         (Some (apiKeyInfo k)) "api_key" apiKeyOrgId in
              (if throws RecordUsage then db1
               else default db1
                      (updateApiKeyUsage nowUsage db1 (id k) (Http.ip req)),
               Http.Next c)
          end
      end
  | None =>
      match Http.headers req !! "authorization" with
      | Some authHeader =>
          if Js.truthy authHeader && Js.startsWith authHeader "Bearer "
          then
            let token := Js.substringFrom 7 authHeader in
            match AuthMiddleware.verifyAccessToken jwtVerify env token with
            | inl _ => (db, Http.reject 401 "Invalid or expired token")
            | inr decoded =>
                let requestedOrgId := Http.headers req !! "x-organization-id" in
                let tokenOrgId := AuthMiddleware.c_orgId decoded in
                let tokenOrgIds := default [] (AuthMiddleware.c_orgIds decoded) in
                match effectiveOrg requestedOrgId tokenOrgId tokenOrgIds with
                | None =>
                    (db, Http.reject 403 "Access denied to requested organization")
                | Some effectiveOrgId =>
                    (db, Http.Next (attach (Http.ctx req)
                                      (jwtUser decoded effectiveOrgId)
                                      None "jwt" effectiveOrgId))
                end
            end
          else (db, Http.reject 401
                      "No authentication provided. Use X-API-Key header or Bearer token.")
      | None => (db, Http.reject 401
                       "No authentication provided. Use X-API-Key header or Bearer token.")
      end
  end.

End WithJwt.
End WithHash.

End ApiKeyMiddleware.

(** ** api/api-keys.routes.js *)
Module ApiKeysRoutes.
Import Store.

Definition hexDigits : list ascii :=
  list_ascii_of_string "0123456789abcdef".

Definition hexDigit (d : nat) : ascii := nth d hexDigits "0"%char.

(** [Buffer.toString('hex')]: two lower-case digits for each byte. *)
Fixpoint toHex (bytes : list Byte.byte) : string :=
  match bytes with
  | [] => EmptyString
  | b :: rest =>
      let v := N.to_nat (Byte.to_N b) in
      String (hexDigit (v / 16)) (String (hexDigit (v mod 16)) (toHex rest))
  end.

(** [generateApiKey], given the bytes [crypto.randomBytes(32)] drew. *)
Definition generateApiKey (randomBytes : list Byte.byte) : string :=
  "kvr_" +:+ toHex randomBytes.

(** [getKeyPrefix] *)
Definition getKeyPrefix (key : string) : string := Js.substringTo 12 key.

(** A Prisma [where] clause over the columns the routes filter on. *)
Record Where : Type := mkWhere {
  w_id : option string;
  w_orgId : option string;
  w_userId : option string;
  w_isActive : option bool
}.

(** [buildTenantFilter] *)
Definition buildTenantFilter (context : TenantContext.TenantCtx) : Where :=
  if Js.truthyO (TenantContext.orgId context)
  then mkWhere None (TenantContext.orgId context) None None
  else if Js.truthyO (TenantContext.userId context)
  then mkWhere None None (TenantContext.userId context) None
  else mkWhere None None None None.

Definition withId (i : string) (w : Where) : Where :=
  mkWhere (Some i) (w_orgId w) (w_userId w) (w_isActive w).

Definition withActive (w : Where) : Where :=
  mkWhere (w_id w) (w_orgId w) (w_userId w) (Some true).

(** Whether a row satisfies a [where] clause. *)
Definition satisfies (w : Where) (k : ApiKey) : bool :=
  match w_id w with Some i => String.eqb (id k) i | None => true end &&
  match w_orgId w with Some o => Js.strictEqO (orgId k) o | None => true end &&
  match w_userId w with Some u => String.eqb (userId k) u | None => true end &&
  match w_isActive w with Some a => Bool.eqb (isActive k) a | None => true end.

(** [orderBy: { createdAt: 'desc' }], as a stable insertion sort. *)
Fixpoint insertByCreatedDesc (k : ApiKey) (l : list ApiKey) : list ApiKey :=
  match l with
  | [] => [k]
  | x :: rest =>
      if (createdAt x <=? createdAt k)%Z then k :: x :: rest
      else x :: insertByCreatedDesc k rest
  end.

Definition orderByCreatedDesc (l : list ApiKey) : list ApiKey :=
  foldr insertByCreatedDesc [] l.

(** The [select] of the list route. *)
Record ListItem : Type := mkListItem {
  li_id : string;
  li_name : string;
  li_description : option string;
  li_keyPrefix : string;
  li_scopes : list string;
  li_workflowIds : list string;
  li_rateLimit : Z;
  li_usageCount : Z;
  li_lastUsedAt : option Z;
  li_lastUsedIp : option string;
  li_expiresAt : option Z;
  li_isActive : bool;
  li_createdAt : Z;
  li_updatedAt : Z
}.

Definition selectListItem (k : ApiKey) : ListItem :=
  mkListItem (id k) (name k) (description k) (keyPrefix k) (scopes k)
    (workflowIds k) (rateLimit k) (usageCount k) (lastUsedAt k)
    (lastUsedIp k) (expiresAt k) (isActive k) (createdAt k) (updatedAt k).

(** The [select] of the get-by-id route. *)
Record GetItem : Type := mkGetItem {
  gi_id : string;
  gi_name : string;
  gi_description : option string;
  gi_keyPrefix : string;
  gi_scopes : list string;
  gi_workflowIds : list string;
  gi_rateLimit : Z;
  gi_rateLimitUsed : Z;
  gi_rateLimitReset : option Z;
  gi_usageCount : Z;
  gi_lastUsedAt : option Z;
  gi_lastUsedIp : option string;
  gi_expiresAt : option Z;
  gi_isActive : bool;
  gi_createdAt : Z;
  gi_updatedAt : Z
}.

Definition selectGetItem (k : ApiKey) : GetItem :=
  mkGetItem (id k) (name k) (description k) (keyPrefix k) (scopes k)
    (workflowIds k) (rateLimit k) (rateLimitUsed k) (rateLimitReset k)
    (usageCount k) (lastUsedAt k) (lastUsedIp k) (expiresAt k)
    (isActive k) (createdAt k) (updatedAt k).

(** The [data] of the stats route: its [select] and the two computed
    members. *)
Record StatsItem : Type := mkStatsItem {
  si_id : string;
  si_name : string;
  si_usageCount : Z;
  si_rateLimit : Z;
  si_rateLimitUsed : Z;
  si_rateLimitReset : option Z;
  si_lastUsedAt : option Z;
  si_lastUsedIp : option string;
  si_createdAt : Z;
  si_rateLimitRemaining : Z;
  si_rateLimitResetIn : option Z
}.

Definition statsOf (now : Z) (k : ApiKey) : StatsItem :=
  let rateLimitRemaining :=
    match rateLimitReset k with
    | Some r => if (now <? r)%Z then (rateLimit k - rateLimitUsed k)%Z
                else rateLimit k
    | None => rateLimit k
    end in
  let rateLimitResetIn :=
    match rateLimitReset k with
    | Some r => Some (Z.max 0 (r - now))
    | None => None
    end in
  mkStatsItem (id k) (name k) (usageCount k) (rateLimit k) (rateLimitUsed k)
    (rateLimitReset k) (lastUsedAt k) (lastUsedIp k) (createdAt k)
    rateLimitRemaining rateLimitResetIn.

(** What a route answers: [{ success: true, data }] or a rejection. *)
Inductive Reply (A : Type) : Type :=
| Data (a : A)
| Rejected (status : nat) (body : Http.ErrorBody).
Arguments Data {A} _.
Arguments Rejected {A} _ _.

Definition withContext (req : Http.Request) (c : Http.Context) : Http.Request :=
  Http.mkRequest (Http.headers req) (Http.params req) (Http.query req)
    (Http.ip req) c.

(** A route [router.get(path, authenticate, handler)]. *)
Definition route {A : Type} (authenticate : Http.Request -> Http.Outcome)
    (handler : Http.Request -> Reply A) (req : Http.Request) : Reply A :=
  match authenticate req with
  | Http.Respond status body => Rejected status body
  | Http.Next c => handler (withContext req c)
  end.

(** The handler of [GET /api-keys]. *)
Definition listHandler (db : Db) (req : Http.Request) : Reply (list ListItem) :=
  let context := TenantContext.getTenantContext req in
  let includeInactive := Http.query req !! "includeInactive" in
  let tenantFilter := buildTenantFilter context in
  let where_ :=
    if negb (Js.truthyO includeInactive) then withActive tenantFilter
    else tenantFilter in
  Data (map selectListItem
          (orderByCreatedDesc (List.filter (satisfies where_) (apiKeys db)))).

(** [findFirst({ where: { id, ...tenantFilter } })] with the [id] of the
    path. *)
Definition findFirstOwned (db : Db) (req : Http.Request) : option ApiKey :=
  let context := TenantContext.getTenantContext req in
  let tenantFilter := buildTenantFilter context in
  match Http.params req !! "id" with
  | Some i => find (satisfies (withId i tenantFilter)) (apiKeys db)
  | None => find (satisfies tenantFilter) (apiKeys db)
  end.

(** The handler of [GET /api-keys/:id]. *)
Definition getHandler (db : Db) (req : Http.Request) : Reply GetItem :=
  match findFirstOwned db req with
  | None => Rejected 404 (Http.mkErrorBody "API Key not found" [])
  | Some k => Data (selectGetItem k)
  end.

(** The handler of [GET /api-keys/:id/stats], run at the instant [now]. *)
Definition statsHandler (now : Z) (db : Db) (req : Http.Request)
    : Reply StatsItem :=
  match findFirstOwned db req with
  | None => Rejected 404 (Http.mkErrorBody "API Key not found" [])
  | Some k => Data (statsOf now k)
  end.

Section Routes.
Variable jwtVerify : string -> string -> option AuthMiddleware.LocalClaims.
Variable jwtDecode : string -> TahAuth.Decoded.
Variable validateTahToken : string -> string + AuthMiddleware.TahUser.
Variable cfg : AuthConfig.Config.
Variable env : AuthMiddleware.Env.

Definition authenticate : Http.Request -> Http.Outcome :=
  AuthMiddleware.authenticate jwtVerify jwtDecode validateTahToken cfg env.

(** [router.get('/', authenticate, ...)] *)
Definition listRoute (db : Db) : Http.Request -> Reply (list ListItem) :=
  route authenticate (listHandler db).

(** [router.get('/:id', authenticate, ...)] *)
Definition getRoute (db : Db) : Http.Request -> Reply GetItem :=
  route authenticate (getHandler db).

(** [router.get('/:id/stats', authenticate, ...)] *)
Definition statsRoute (now : Z) (db : Db) : Http.Request -> Reply StatsItem :=
  route authenticate (statsHandler now db).

End Routes.

End ApiKeysRoutes.

(** * Properties *)

(** ** Role mapping *)
Section RoleMapping.
Import AuthConfig.

Lemma ownProperty_value (tbl : list (string * string)) (k v : string) :
  ownProperty tbl k = Some v -> In v (map snd tbl).
Proof.
  induction tbl as [|[k' v'] rest IH]; simpl; [discriminate|].
  destruct (String.eqb k k'); [intros [= ->]; now left | right; auto].
Qed.

Lemma asciiChar_cases (c : ascii) :
  Js.isAsciiChar c = true ->
  (Js.code c =? 195)%nat = false
  /\ (Js.code c =? 194)%nat = false
  /\ Js.isAsciiChar (Js.upperChar c) = true
  /\ Js.lowerChar (Js.upperChar c) = Js.lowerChar c
  /\ Js.upperChar (Js.upperChar c) = Js.upperChar c.
Proof.
  destruct c as [[] [] [] [] [] [] [] []]; vm_compute; intros H;
    try discriminate H; repeat split.
Qed.

Lemma toUpperCase_ascii (r : string) :
  Js.isAscii r = true -> Js.isAscii (Js.toUpperCase r) = true.
Proof.
  induction r as [|c r IH]; [reflexivity|].
  cbn [Js.isAscii]. intros H. apply andb_true_iff in H as [Hc Hr].
  destruct (asciiChar_cases c Hc) as (E1 & E2 & Hu & _).
  cbn [Js.toUpperCase]. rewrite E1, E2. cbn [Js.isAscii].
  now rewrite Hu, IH.
Qed.

Lemma toLowerCase_toUpperCase (r : string) :
  Js.isAscii r = true ->
  Js.toLowerCase (Js.toUpperCase r) = Js.toLowerCase r.
Proof.
  induction r as [|c r IH]; [reflexivity|].
  cbn [Js.isAscii]. intros H. apply andb_true_iff in H as [Hc Hr].
  destruct (asciiChar_cases c Hc) as (E1 & E2 & Hu & Hl & _).
  destruct (asciiChar_cases _ Hu) as (E1' & _).
  cbn [Js.toUpperCase]. rewrite E1, E2. cbn [Js.toLowerCase].
  rewrite E1, E1', Hl, IH by exact Hr. reflexivity.
Qed.

Lemma toUpperCase_toUpperCase (r : string) :
  Js.isAscii r = true ->
  Js.toUpperCase (Js.toUpperCase r) = Js.toUpperCase r.
Proof.
  induction r as [|c r IH]; [reflexivity|].
  cbn [Js.isAscii]. intros H. apply andb_true_iff in H as [Hc Hr].
  destruct (asciiChar_cases c Hc) as (E1 & E2 & Hu & _ & Huu).
  destruct (asciiChar_cases _ Hu) as (E1' & E2' & _).
  cbn [Js.toUpperCase]. rewrite E1, E2. cbn [Js.toUpperCase].
  rewrite E1', E2', Huu, IH by exact Hr. reflexivity.
Qed.

Lemma toUpperCase_truthy (r : string) :
  Js.isAscii r = true -> Js.truthy (Js.toUpperCase r) = Js.truthy r.
Proof.
  destruct r as [|c r]; [reflexivity|].
  cbn [Js.isAscii]. intros H. apply andb_true_iff in H as [Hc _].
  destruct (asciiChar_cases c Hc) as (E1 & E2 & _).
  cbn [Js.toUpperCase]. now rewrite E1, E2.
Qed.

(** Away from the inherited names, and for role names in the ASCII range,
    the code does what the specification says: the mapping returns a
    string and mapping that string again returns it unchanged. *)
Lemma mapTahRole_idempotent_own (r : string) :
  Js.isAscii r = true ->
  Js.includes objectPrototypeMembers (Js.trim (Js.toLowerCase r)) = false ->
  exists v, mapTahRole (RString r) = Some (RString v)
            /\ mapTahRole (RString v) = Some (RString v).
Proof.
  intros Hascii Hproto. unfold mapTahRole at 1. simpl truthyValue.
  destruct (Js.truthy r) eqn:Hr; simpl.
  - unfold getProperty.
    destruct (ownProperty TAH_ROLE_MAPPING (Js.trim (Js.toLowerCase r)))
      as [v|] eqn:Hown.
    + apply ownProperty_value in Hown. simpl in Hown.
      exists v.
      repeat (destruct Hown as [<- | Hown];
              [split; vm_compute; reflexivity|]).
      destruct Hown.
    + rewrite Hproto. simpl.
      exists (Js.toUpperCase r). split; [reflexivity|].
      unfold mapTahRole. simpl truthyValue.
      rewrite toUpperCase_truthy, Hr by exact Hascii. simpl.
      rewrite toLowerCase_toUpperCase by exact Hascii. unfold getProperty.
      rewrite Hown, Hproto. simpl.
      now rewrite toUpperCase_toUpperCase.
  - exists "USER". split; reflexivity.
Qed.

(** The spellings the specification lists. *)
Lemma mapTahRole_examples :
  mapTahRole (RString "administrador") = Some (RString "ADMIN")
  /\ mapTahRole (RString "Administrador") = Some (RString "ADMIN")
  /\ mapTahRole (RString "ADMINISTRADOR") = Some (RString "ADMIN")
  /\ mapTahRole (RString "ADMIN") = Some (RString "ADMIN")
  /\ mapTahRole (RString " gestor ") = Some (RString "ADMIN")
  /\ mapTahRole (RString "auditor") = Some (RString "AUDITOR")
  /\ mapTahRole (RString "PROPRIETÁRIO") = Some (RString "OWNER")
  /\ mapTahRole (RString "josé") = Some (RString "JOSÉ").
Proof. repeat split; reflexivity. Qed.

(** C6. The role name "constructor" is not a key of the mapping table,
    yet [TAH_ROLE_MAPPING["constructor"]] is the constructor every object
    inherits, a truthy value: [mapTahRole] returns it instead of the
    upper-cased name, and mapping that result again throws. The same
    holds for every spelling that normalizes to it. *)
Theorem mapTahRole_inherited_member :
  ownProperty TAH_ROLE_MAPPING "constructor" = None
  /\ mapTahRole (RString "constructor") = Some (RPrototypeMember "constructor")
  /\ mapTahRole (RString " Constructor ") = Some (RPrototypeMember "constructor")
  /\ mapTahRole (RString "constructor") <> Some (RString "CONSTRUCTOR")
  /\ mapTahRole (RPrototypeMember "constructor") = None.
Proof. repeat split; try reflexivity; discriminate. Qed.

End RoleMapping.

(** ** Permission guards *)
Section PermissionGuards.

(** A request whose principal came from TAH with the given permissions. *)
Definition tahPrincipal (perms : list string) : Http.User :=
  {| Http.id := Some "u-1"; Http.userId := Some "u-1";
     Http.tahUserId := Some "tah-1"; Http.email := Some "ana@example.com";
     Http.name := None; Http.fullName := None;
     Http.role := Some "USER"; Http.roles := ["USER"]; Http.perfis := [];
     Http.orgId := None; Http.orgName := None; Http.orgIds := [];
     Http.orgRole := None;
     Http.permissions := Some perms;
     Http.authSource := Some "tah" |}.

Definition requestOf (u : Http.User) : Http.Request :=
  Http.mkRequest ∅ ∅ ∅ None
    (Http.mkContext (Some u) None None None None).

(** The prefix of a feature id before its first dot. *)
Fixpoint categoryOf (featureId : string) : string :=
  match featureId with
  | EmptyString => EmptyString
  | String c rest =>
      if Ascii.eqb c "." then EmptyString else String c (categoryOf rest)
  end.

Lemma first_split (sep : ascii) (s : string) :
  exists h t, Js.split sep s = h :: t.
Proof.
  induction s as [|c s [h [t IH]]]; simpl; [eauto|].
  destruct (Ascii.eqb c sep); [eauto|]. rewrite IH. eauto.
Qed.

Lemma first_split_dot (featureId : string) :
  Js.first (Js.split "." featureId) = Some (categoryOf featureId).
Proof.
  induction featureId as [|c s IH]; simpl; [reflexivity|].
  destruct (Ascii.eqb c "."); [reflexivity|].
  destruct (Js.split "." s) as [|h t]; simpl in *; [discriminate|].
  now injection IH as ->.
Qed.

(** What one permission string must be to grant [featureId:action]
    according to the specification. *)
Definition grantsBySpec (featureId action p : string) : Prop :=
  p = "*" \/ p = "*:*"
  \/ p = featureId +:+ ":" +:+ action
  \/ p = featureId +:+ ":*"
  \/ p = categoryOf featureId +:+ ":" +:+ action
  \/ p = categoryOf featureId +:+ ":*".

Lemma permissionGrants_spec (featureId action p : string) :
  AuthMiddleware.permissionGrants featureId action p = true
  <-> grantsBySpec featureId action p.
Proof.
  unfold AuthMiddleware.permissionGrants, grantsBySpec.
  rewrite first_split_dot. simpl default.
  repeat match goal with
         | |- context [String.eqb ?a ?b] =>
             destruct (String.eqb_spec a b)
         end; simpl; split; intros H; try reflexivity; try discriminate;
    try tauto.
  all: intuition congruence.
Qed.

(** [checkPermission] of auth.middleware.js does what the specification
    states: a TAH principal passes exactly when one of its permissions
    has one of the six listed forms, and every other principal passes. *)
Lemma checkPermission_spec (featureId action : string) (u : Http.User) :
  (Http.authSource u = Some "tah" ->
     (AuthMiddleware.checkPermission featureId action (requestOf u)
        = Http.Next (Http.ctx (requestOf u))
      <-> exists p, In p (default [] (Http.permissions u))
                    /\ grantsBySpec featureId action p))
  /\ (Http.authSource u <> Some "tah" ->
      AuthMiddleware.checkPermission featureId action (requestOf u)
        = Http.Next (Http.ctx (requestOf u))).
Proof.
  unfold AuthMiddleware.checkPermission; simpl. split.
  - intros ->. simpl.
    destruct (existsb _ _) eqn:Hex; simpl.
    + apply existsb_exists in Hex as [p [Hin Hp]].
      split; [|reflexivity]. intros _. exists p. split; [exact Hin|].
      now apply permissionGrants_spec.
    + split; [discriminate|]. intros [p [Hin Hp]].
      apply permissionGrants_spec in Hp.
      assert (existsb (AuthMiddleware.permissionGrants featureId action)
                (default [] (Http.permissions u)) = true) as Hex'
        by (apply existsb_exists; eauto).
      congruence.
  - intros Hsrc. destruct (Http.authSource u) as [src|]; simpl; [|reflexivity].
    destruct (String.eqb_spec src "tah"); [congruence|reflexivity].
Qed.

(** C7. [checkTahPermission] lets a TAH principal whose only permission
    is ["other:*"] through for the feature ["workflows.list"] and the
    action ["read"], although that string is none of the six forms of the
    specification; [checkPermission] answers 403 for the same request. *)
Theorem checkTahPermission_foreign_wildcard :
  let req := requestOf (tahPrincipal ["other:*"]) in
  ~ grantsBySpec "workflows.list" "read" "other:*"
  /\ TahAuth.checkTahPermission "workflows.list" "read" req
      = Http.Next (Http.ctx req)
  /\ AuthMiddleware.checkPermission "workflows.list" "read" req
      = Http.Respond 403
          (Http.mkErrorBody "Feature access denied"
             [("feature", "workflows.list"); ("action", "read")]).
Proof.
  repeat split; try reflexivity.
  unfold grantsBySpec; simpl. intuition discriminate.
Qed.

End PermissionGuards.

(** ** Local tokens *)
Section LocalTokens.
Import AuthMiddleware.

(** The claims of a token issued for a user whose role list is empty. *)
Definition claimsWithoutRoles : LocalClaims :=
  {| c_userId := None; c_id := Some "u-7";
     c_email := Some "rui@example.com"; c_fullName := Some "Rui";
     c_name := None; c_role := None; c_roles := Some [];
     c_perfis := Some []; c_orgId := None; c_orgIds := Some [];
     c_orgRole := None |}.

(** Whenever the claims carry no [roles] array the role list is not
    empty. *)
Lemma localUser_roles_default (decoded : LocalClaims) :
  c_roles decoded = None -> Http.roles (localUser decoded) <> [].
Proof.
  intros H. unfold localUser; simpl. rewrite H.
  destruct (Js.truthyO (c_role decoded)); discriminate.
Qed.

(** C8. A token that verifies and carries [roles: []] yields a principal
    of source ["local"] whose role list is empty: the default
    [['USER']] is not applied, although the singular [role] of the same
    principal does fall back to ["USER"]. *)
Theorem validateLocalToken_empty_roles :
  forall (env : Env) (token : string),
    exists u,
      validateLocalToken (fun _ _ => Some claimsWithoutRoles) env token = inr u
      /\ Http.authSource u = Some "local"
      /\ Http.roles u = []
      /\ Http.role u = Some "USER".
Proof.
  intros env token. eexists. split; [reflexivity|].
  repeat split.
Qed.

End LocalTokens.

(** ** Token classifier *)
Section TokenClassifier.
Import AuthConfig TahAuth.

(** The claim [k] of an unverified payload, when the payload is an object
    that has it. *)
Definition claim (payload : Json) (k : string) : option Json :=
  match payload with
  | JObj ms => member ms k
  | _ => None
  end.

(** The classifier as the specification words it: the issuer claim equals
    the configured issuer, or the audience claim, a string or a list,
    contains the configured audience. *)
Definition looksExternalSpec (cfg : TahConfig) (decoded : Decoded) : bool :=
  match decoded with
  | DecodeOk _ payload =>
      isString (claim payload "iss") (issuer cfg)
      || isString (claim payload "aud") (audience cfg)
      || arrayIncludes (claim payload "aud") (audience cfg)
  | _ => false
  end.

Definition defaultTahConfig : TahConfig :=
  {| enabled := true;
     issuer := "https://tah.yourdomain.com";
     jwksUrl := "https://tah.yourdomain.com/.well-known/jwks.json";
     audience := "kvr";
     publicKey := None;
     appId := "kvr";
     jwksCacheTtl := 3600;
     clockTolerance := 30 |}.

(** A token of another issuer whose audience is the string ["kvr"]. *)
Definition scalarAudienceToken : Decoded :=
  DecodeOk
    (JObj [("alg", JStr "RS256"); ("typ", JStr "JWT")])
    (JObj [("iss", JStr "https://login.example.com");
           ("sub", JStr "u-1");
           ("aud", JStr "kvr")]).

Lemma getProp_claim (payload : Json) (k : string) (x : option Json) :
  getProp payload k = Some x ->
  claim payload k = x.
Proof.
  destruct payload; simpl; intros [= <-]; reflexivity.
Qed.

Lemma isTahTokenOf_true (cfg : TahConfig) (decoded : Decoded) :
  isTahTokenOf cfg decoded = true <->
  exists header payload,
    decoded = DecodeOk header payload
    /\ (isString (claim payload "iss") (issuer cfg) = true
        \/ arrayIncludes (claim payload "aud") (audience cfg) = true).
Proof.
  unfold isTahTokenOf, isTahTokenTry. split.
  - destruct decoded as [| |header payload]; try discriminate.
    destruct (getProp payload "iss") as [iss|] eqn:Hiss; [|discriminate].
    pose proof (getProp_claim _ _ _ Hiss) as Ci.
    destruct (isString iss (issuer cfg)) eqn:Hi.
    + intros _. exists header, payload. rewrite Ci. auto.
    + destruct (getProp payload "aud") as [aud|] eqn:Haud; [|discriminate].
      pose proof (getProp_claim _ _ _ Haud) as Ca.
      destruct (arrayIncludes aud (audience cfg)) eqn:Ha; [|discriminate].
      intros _. exists header, payload. rewrite Ca. auto.
  - intros (header & payload & -> & H).
    destruct payload as [| b | z | s | items | ms]; simpl in *;
      try (destruct H; discriminate).
    destruct (isString (member ms "iss") (issuer cfg)); [reflexivity|].
    destruct H as [H|H]; [discriminate|]. now rewrite H.
Qed.

(** C4, as the claim states it, fails: a token whose audience is the string
    ["kvr"] and whose issuer is another one is external by the wording of
    the specification, and [isTahToken] answers [false]. *)
Lemma isTahToken_scalar_audience :
  looksExternalSpec defaultTahConfig scalarAudienceToken = true
  /\ isTahToken (fun _ => scalarAudienceToken) defaultTahConfig "e30.e30.sig" = false.
Proof. split; reflexivity. Qed.

(** C4, amended. [isTahToken] answers [true] exactly when the token decodes
    and its unverified payload either has the configured issuer, or has an
    audience that is a list containing the configured audience (an audience
    that is a string is not looked at); when decoding throws or returns
    nothing, and when reading the payload throws, it answers [false]. It is
    a total function: no input makes it raise. *)
Theorem isTahToken_classifies :
  forall (decode : string -> Decoded) (cfg : TahConfig) (token : string),
    (isTahToken decode cfg token = true <->
     exists header payload,
       decode token = DecodeOk header payload
       /\ (isString (claim payload "iss") (issuer cfg) = true
           \/ arrayIncludes (claim payload "aud") (audience cfg) = true))
    /\ isTahToken (fun _ => DecodeThrows) cfg token = false
    /\ isTahToken (fun _ => DecodeNull) cfg token = false
    /\ isTahToken (fun _ => DecodeOk JNull JNull) cfg token = false.
Proof.
  intros decode cfg token. split; [apply isTahTokenOf_true|].
  repeat split.
Qed.

End TokenClassifier.

(** ** The development bypass *)
Section DevBypass.
Import AuthConfig AuthMiddleware.

Variable jwtVerify : string -> string -> option LocalClaims.
Variable jwtDecode : string -> TahAuth.Decoded.
Variable validateTahToken : string -> string + TahUser.
Variable cfg : Config.

(** The environment with another value of [DEV_AUTH_BYPASS]. *)
Definition withBypass (flag : option string) (env : Env) : Env :=
  {| DEV_AUTH_BYPASS := flag;
     DEV_USER_ID := DEV_USER_ID env;
     DEV_USER_EMAIL := DEV_USER_EMAIL env;
     DEV_USER_ROLE := DEV_USER_ROLE env;
     DEV_ORG_ID := DEV_ORG_ID env;
     NODE_ENV := NODE_ENV env;
     JWT_SECRET := JWT_SECRET env |}.

Lemma validateToken_source (env : Env) (token : string) (u : Http.User) :
  validateToken jwtVerify jwtDecode validateTahToken cfg env token = inr u ->
  Http.authSource u = Some "tah" \/ Http.authSource u = Some "local".
Proof.
  unfold validateToken, validateLocalToken.
  destruct (isTahEnabled cfg && _).
  - destruct (validateTahToken token); [discriminate|].
    intros [= <-]. now left.
  - destruct (isLocalEnabled cfg); [|discriminate].
    destruct (verifyAccessToken jwtVerify env token); [discriminate|].
    intros [= <-]. now right.
Qed.

Lemma validateToken_withBypass (flag : option string) (env : Env) (token : string) :
  validateToken jwtVerify jwtDecode validateTahToken cfg (withBypass flag env) token
  = validateToken jwtVerify jwtDecode validateTahToken cfg env token.
Proof. reflexivity. Qed.

(** C10. For a request that carries a Bearer token, [authenticate] is
    decided by the validation of that token alone: the principal of the
    token is attached when it validates and the answer is 401 when it does
    not, whatever [DEV_AUTH_BYPASS] is; neither [authenticate] nor
    [optionalAuth] attaches the bypass principal to such a request. *)
Theorem bearer_token_never_bypassed :
  forall (env : Env) (req : Http.Request) (token : string),
    extractToken req = Some token ->
    token <> "" ->
    let validation :=
      validateToken jwtVerify jwtDecode validateTahToken cfg env token in
    let auth := authenticate jwtVerify jwtDecode validateTahToken cfg in
    let optional := optionalAuth jwtVerify jwtDecode validateTahToken cfg in
    auth env req
      = match validation with
        | inr u => Http.Next (withUser (Http.ctx req) u)
        | inl msg =>
            Http.Respond 401
              (Http.mkErrorBody "Invalid or expired token" (errorDetails env msg))
        end
    /\ (forall flag, auth (withBypass flag env) req = auth env req)
    /\ (forall c, auth env req = Http.Next c ->
          exists u, Http.user c = Some u
                    /\ validation = inr u
                    /\ Http.authSource u <> Some "dev-bypass")
    /\ (forall c, optional env req = Http.Next c ->
          c = Http.ctx req
          \/ exists u, Http.user c = Some u
                       /\ validation = inr u
                       /\ Http.authSource u <> Some "dev-bypass").
Proof.
  intros env req token Htok Hne validation auth optional.
  subst auth optional. unfold authenticate, optionalAuth.
  rewrite Htok. destruct token as [|ch rest]; [congruence|].
  split; [reflexivity|]. split.
  - intros flag. now rewrite validateToken_withBypass.
  - fold validation. split; intros c;
      destruct validation as [msg|u] eqn:Hv; try discriminate.
    + intros [= <-]. exists u. repeat split.
      destruct (validateToken_source _ _ _ Hv) as [-> | ->]; discriminate.
    + intros [= <-]. now left.
    + intros [= <-]. right. exists u. repeat split.
      destruct (validateToken_source _ _ _ Hv) as [-> | ->]; discriminate.
Qed.

End DevBypass.

(** An environment with the development bypass switched on. *)
Definition bypassEnv : AuthMiddleware.Env :=
  {| AuthMiddleware.DEV_AUTH_BYPASS := Some "true";
     AuthMiddleware.DEV_USER_ID := None;
     AuthMiddleware.DEV_USER_EMAIL := None;
     AuthMiddleware.DEV_USER_ROLE := None;
     AuthMiddleware.DEV_ORG_ID := None;
     AuthMiddleware.NODE_ENV := Some "production";
     AuthMiddleware.JWT_SECRET := Some "s3cret" |}.

(** [AUTH_MODE=local] *)
Definition localOnlyConfig : AuthConfig.Config :=
  {| AuthConfig.AUTH_MODE := "local";
     AuthConfig.TAH_CONFIG := defaultTahConfig;
     AuthConfig.logAuthEvents := false |}.

(** A request whose only header is [Authorization: Bearer <token>]. *)
Definition bearerRequest (token : string) : Http.Request :=
  Http.mkRequest {[ "authorization" := "Bearer " +:+ token ]} ∅ ∅ None
    Http.emptyContext.

(** With the bypass switched on, an expired token is still answered 401. *)
Lemma bearer_token_never_bypassed_witness :
  AuthMiddleware.AUTH_BYPASS_ENABLED bypassEnv = true
  /\ AuthMiddleware.extractToken (bearerRequest "expired.jwt.token")
     = Some "expired.jwt.token"
  /\ AuthMiddleware.authenticate (fun _ _ => None) (fun _ => TahAuth.DecodeNull)
       (fun _ => inl "unreachable") localOnlyConfig bypassEnv
       (bearerRequest "expired.jwt.token")
     = Http.reject 401 "Invalid or expired token".
Proof.
  split; [reflexivity|]. split; [vm_compute; reflexivity|].
  assert (AuthMiddleware.extractToken (bearerRequest "expired.jwt.token")
          = Some "expired.jwt.token") as Htok by (vm_compute; reflexivity).
  assert ("expired.jwt.token" <> "") as Hne by discriminate.
  exact (proj1 (bearer_token_never_bypassed (fun _ _ => None)
                  (fun _ => TahAuth.DecodeNull) (fun _ => inl "unreachable")
                  localOnlyConfig bypassEnv (bearerRequest "expired.jwt.token")
                  "expired.jwt.token" Htok Hne)).
Defined.

(** ** Hybrid authentication: key extraction and the organization check *)
Section Hybrid.
Import Store ApiKeyMiddleware.

Definition emptyDb : Db := mkDb [] [].

(** A request that presents [key] in the [X-API-Key] header and nothing
    else. *)
Definition keyOnlyRequest (key : string) : Http.Request :=
  Http.mkRequest {[ "x-api-key" := key ]} ∅ ∅ None Http.emptyContext.

Lemma hasValidPrefix_kvr (rest : string) :
  hasValidPrefix ("kvr_" +:+ rest) = false.
Proof. reflexivity. Qed.

Lemma includes_In (xs : list string) (x : string) :
  Js.includes xs x = true <-> In x xs.
Proof.
  unfold Js.includes. rewrite existsb_exists. split.
  - intros [y [Hin Heq]]. apply String.eqb_eq in Heq. now subst.
  - intros Hin. exists x. split; [exact Hin | apply String.eqb_refl].
Qed.

(** C1. A key as [generateApiKey] issues it, presented in [X-API-Key], does
    not start with any of the prefixes [extractApiKey] accepts: the request
    is handled as one without an API key and, having no Bearer token
    either, is answered 401 "No authentication provided", where the
    validation of the key against a table that does not hold its hash
    would have answered "Invalid API key". *)
Theorem issued_key_not_extracted :
  forall (sha256hex : string -> string)
         (jwtVerify : string -> string -> option AuthMiddleware.LocalClaims)
         (env : AuthMiddleware.Env) (throws : StoreCall -> bool)
         (randomBytes : list Byte.byte)
         (scope resourceIdParam : option string) (now nowUsage : Z) (db : Db),
    let key := ApiKeysRoutes.generateApiKey randomBytes in
    extractApiKey (keyOnlyRequest key) = None
    /\ authenticateHybrid sha256hex jwtVerify env throws scope resourceIdParam
         now nowUsage db (keyOnlyRequest key)
       = (db, Http.reject 401
                "No authentication provided. Use X-API-Key header or Bearer token.")
    /\ validateApiKey sha256hex now emptyDb key scope None None
       = (emptyDb, Invalid "Invalid API key" false).
Proof.
  intros sha256hex jwtVerify env throws randomBytes scope resourceIdParam now
         nowUsage db key.
  assert (extractApiKey (keyOnlyRequest key) = None) as Hx.
  { unfold extractApiKey, keyOnlyRequest; cbn [Http.headers].
    rewrite lookup_singleton_eq.
    rewrite lookup_singleton_ne by discriminate.
    subst key. unfold ApiKeysRoutes.generateApiKey.
    rewrite hasValidPrefix_kvr. now rewrite andb_false_r. }
  split; [exact Hx|]. split; [|reflexivity].
  unfold authenticateHybrid. rewrite Hx.
  unfold keyOnlyRequest; cbn [Http.headers].
  now rewrite lookup_singleton_ne by discriminate.
Qed.

Lemma bearer_prefix (token : string) :
  Js.truthy ("Bearer " +:+ token) && Js.startsWith ("Bearer " +:+ token) "Bearer "
  = true.
Proof. reflexivity. Qed.

Lemma bearer_token (token : string) :
  Js.substringFrom 7 ("Bearer " +:+ token) = token.
Proof. reflexivity. Qed.

(** The JWT branch decides by the list of organizations of the token. *)
Lemma effectiveOrg_cases (r : string) (tokenOrgId : option string)
    (tokenOrgIds : list string) :
  r <> "" ->
  effectiveOrg (Some r) tokenOrgId tokenOrgIds
  = match tokenOrgIds with
    | [] => Some tokenOrgId
    | _ :: _ => if Js.includes tokenOrgIds r then Some (Some r) else None
    end.
Proof.
  intros Hr. unfold effectiveOrg. simpl.
  destruct r as [|c r]; [congruence|]. simpl.
  destruct tokenOrgIds as [|o os]; [reflexivity|].
  cbn [length Nat.ltb Nat.leb negb].
  now destruct (Js.includes (o :: os) (String c r)).
Qed.

Lemma hybrid_jwt_branch (sha256hex : string -> string)
    (jwtVerify : string -> string -> option AuthMiddleware.LocalClaims)
    (env : AuthMiddleware.Env) (throws : StoreCall -> bool)
    (scope resourceIdParam : option string)
    (now nowUsage : Z) (db : Db) (req : Http.Request) (token : string)
    (decoded : AuthMiddleware.LocalClaims) :
  extractApiKey req = None ->
  Http.headers req !! "authorization" = Some ("Bearer " +:+ token) ->
  AuthMiddleware.verifyAccessToken jwtVerify env token = inr decoded ->
  authenticateHybrid sha256hex jwtVerify env throws scope resourceIdParam
    now nowUsage db req
  = match effectiveOrg (Http.headers req !! "x-organization-id")
            (AuthMiddleware.c_orgId decoded)
            (default [] (AuthMiddleware.c_orgIds decoded)) with
    | None => (db, Http.reject 403 "Access denied to requested organization")
    | Some effectiveOrgId =>
        (db, Http.Next (attach (Http.ctx req) (jwtUser decoded effectiveOrgId)
                          None "jwt" effectiveOrgId))
    end.
Proof.
  intros Hx Hauth Hv. unfold authenticateHybrid.
  rewrite Hx, Hauth, bearer_prefix, bearer_token, Hv. reflexivity.
Qed.

End Hybrid.

Section OrganizationCheck.
Import Store ApiKeyMiddleware.

(** The claims of a token of the organization ["org-a"] with the given
    list of accessible organizations. *)
Definition orgClaims (orgIds : option (list string)) : AuthMiddleware.LocalClaims :=
  {| AuthMiddleware.c_userId := None;
     AuthMiddleware.c_id := Some "u-3";
     AuthMiddleware.c_email := Some "bia@example.com";
     AuthMiddleware.c_fullName := Some "Bia";
     AuthMiddleware.c_name := None;
     AuthMiddleware.c_role := None;
     AuthMiddleware.c_roles := Some ["USER"];
     AuthMiddleware.c_perfis := None;
     AuthMiddleware.c_orgId := Some "org-a";
     AuthMiddleware.c_orgIds := orgIds;
     AuthMiddleware.c_orgRole := Some "MEMBER" |}.

(** A request with a Bearer token that asks for the organization [org]. *)
Definition orgRequest (token org : string) : Http.Request :=
  Http.mkRequest
    (<[ "x-organization-id" := org ]> {[ "authorization" := "Bearer " +:+ token ]})
    ∅ ∅ None Http.emptyContext.

(** The organization the handlers after the middleware work with. *)
Definition orgAfter (req : Http.Request) (out : Http.Outcome) : option string :=
  match out with
  | Http.Next c =>
      TenantContext.orgId
        (TenantContext.getTenantContext (ApiKeysRoutes.withContext req c))
  | Http.Respond _ _ => None
  end.

(** The principal attached by an outcome. *)
Definition userAfter (out : Http.Outcome) : option Http.User :=
  match out with
  | Http.Next c => Http.user c
  | Http.Respond _ _ => None
  end.

(** C2, as the claim states it, fails: a token of ["org-a"] with an empty
    list of accessible organizations, sent with [X-Organization-Id: org-b], is
    not answered 403; the request goes on with ["org-a"]. *)
Lemma hybrid_empty_org_list_not_rejected :
  let req := orgRequest "a.b.c" "org-b" in
  let out := snd (authenticateHybrid (fun key => key)
                    (fun _ _ => Some (orgClaims (Some []))) bypassEnv
                    noThrow None None 0 0 emptyDb req) in
  Http.headers req !! "x-organization-id" = Some "org-b"
  /\ AuthMiddleware.c_orgId (orgClaims (Some [])) = Some "org-a"
  /\ ~ In "org-b" (default [] (AuthMiddleware.c_orgIds (orgClaims (Some []))))
  /\ out <> Http.reject 403 "Access denied to requested organization"
  /\ (exists c, out = Http.Next c)
  /\ orgAfter req out = Some "org-a".
Proof.
  cbv zeta. split; [vm_compute; reflexivity|].
  split; [reflexivity|]. split; [simpl; tauto|].
  assert (exists c, snd (authenticateHybrid (fun key => key)
                    (fun _ _ => Some (orgClaims (Some []))) bypassEnv
                    noThrow None None 0 0 emptyDb (orgRequest "a.b.c" "org-b"))
                    = Http.Next c /\
                    TenantContext.orgId
                      (TenantContext.getTenantContext
                         (ApiKeysRoutes.withContext (orgRequest "a.b.c" "org-b") c))
                    = Some "org-a") as [c [Hc Horg]].
  { eexists. split; vm_compute; reflexivity. }
  rewrite Hc. split; [discriminate|]. split; [eauto|exact Horg].
Qed.

(** C2, amended. For a request authenticated by a local JWT that names an
    organization in a non-empty [X-Organization-Id] header: when the list
    of accessible organizations of the token is not empty and does not
    contain the named organization, the answer is 403; when the list
    contains it, the request goes on and the organization of the rest of
    the request is the named one; when the token has no such list, or an
    empty one, the header is not looked at and the request goes on with the
    primary organization of the token. *)
Theorem hybrid_org_cross_check :
  forall (sha256hex : string -> string)
         (jwtVerify : string -> string -> option AuthMiddleware.LocalClaims)
         (env : AuthMiddleware.Env) (throws : StoreCall -> bool)
    (scope resourceIdParam : option string)
         (now nowUsage : Z) (db : Db) (req : Http.Request) (token : string)
         (decoded : AuthMiddleware.LocalClaims) (requested : string),
    extractApiKey req = None ->
    Http.headers req !! "authorization" = Some ("Bearer " +:+ token) ->
    AuthMiddleware.verifyAccessToken jwtVerify env token = inr decoded ->
    Http.headers req !! "x-organization-id" = Some requested ->
    requested <> "" ->
    let tokenOrgIds := default [] (AuthMiddleware.c_orgIds decoded) in
    let out := snd (authenticateHybrid sha256hex jwtVerify env throws scope
                      resourceIdParam now nowUsage db req) in
    (tokenOrgIds <> [] -> ~ In requested tokenOrgIds ->
       out = Http.reject 403 "Access denied to requested organization")
    /\ (In requested tokenOrgIds ->
          (exists c, out = Http.Next c)
          /\ (Http.orgId <$> userAfter out) = Some (Some requested)
          /\ orgAfter req out = Some requested)
    /\ (tokenOrgIds = [] ->
          (exists c, out = Http.Next c)
          /\ (Http.orgId <$> userAfter out)
             = Some (AuthMiddleware.c_orgId decoded)).
Proof.
  intros sha256hex jwtVerify env throws scope resourceIdParam now nowUsage db
         req token decoded requested Hx Hauth Hv Hreq Hne tokenOrgIds out.
  subst out.
  rewrite (hybrid_jwt_branch _ _ _ _ _ _ _ _ _ _ _ _ Hx Hauth Hv), Hreq.
  rewrite (effectiveOrg_cases _ _ _ Hne). fold tokenOrgIds.
  assert (Js.truthy requested = true) as Ht
    by (destruct requested; [congruence|reflexivity]).
  repeat split.
  - intros Hnil Hnotin. destruct tokenOrgIds as [|o os]; [congruence|].
    destruct (Js.includes (o :: os) requested) eqn:Hin; [|reflexivity].
    apply includes_In in Hin. contradiction.
  - destruct tokenOrgIds as [|o os]; [destruct H|].
    apply includes_In in H. rewrite H. simpl. eauto.
  - destruct tokenOrgIds as [|o os]; [destruct H|].
    apply includes_In in H. now rewrite H.
  - destruct tokenOrgIds as [|o os]; [destruct H|].
    apply includes_In in H. rewrite H.
    unfold orgAfter, TenantContext.getTenantContext, attach; simpl.
    destruct requested as [|ch rest]; [congruence|reflexivity].
  - rewrite H. simpl. eauto.
  - now rewrite H.
Qed.

(** A token of ["org-a"] that also lists ["org-b"], asking for ["org-b"]. *)
Lemma hybrid_org_cross_check_witness :
  let req := orgRequest "a.b.c" "org-b" in
  let claims := orgClaims (Some ["org-a"; "org-b"]) in
  let out := snd (authenticateHybrid (fun key => key)
                    (fun _ _ => Some claims) bypassEnv
                    noThrow None None 0 0 emptyDb req) in
  In "org-b" (default [] (AuthMiddleware.c_orgIds claims))
  /\ orgAfter req out = Some "org-b".
Proof.
  cbv zeta.
  assert (In "org-b" (default [] (AuthMiddleware.c_orgIds
                                    (orgClaims (Some ["org-a"; "org-b"])))))
    as Hin by (simpl; tauto).
  split; [exact Hin|].
  assert (extractApiKey (orgRequest "a.b.c" "org-b") = None) as Hx
    by (vm_compute; reflexivity).
  assert (Http.headers (orgRequest "a.b.c" "org-b") !! "authorization"
          = Some ("Bearer " +:+ "a.b.c")) as Hauth by (vm_compute; reflexivity).
  assert (Http.headers (orgRequest "a.b.c" "org-b") !! "x-organization-id"
          = Some "org-b") as Hreq by (vm_compute; reflexivity).
  assert ("org-b" <> "") as Hne by discriminate.
  exact (proj2 (proj2 (proj1 (proj2
    (hybrid_org_cross_check (fun key => key)
       (fun _ _ => Some (orgClaims (Some ["org-a"; "org-b"]))) bypassEnv
       noThrow None None 0 0 emptyDb (orgRequest "a.b.c" "org-b") "a.b.c"
       (orgClaims (Some ["org-a"; "org-b"])) "org-b"
       Hx Hauth eq_refl Hreq Hne)) Hin))).
Defined.

End OrganizationCheck.

(** ** The rate-limit window *)
Section RateLimit.
Import Store ApiKeyMiddleware.
Local Open Scope Z_scope.

Variable sha256hex : string -> string.
Variable key : string.
Variables requiredScope resourceId requestedOrgId : option string.
Variable ip : option string.

(** One authenticated call as [authenticateHybrid] makes it: the key is
    validated at the instant [tv] and, the validation having succeeded, its
    usage is recorded at the instant [tu]. *)
Definition authCall (db : Db) (call : Z * Z) : option Db :=
  match validateApiKey sha256hex (fst call) db key
          requiredScope resourceId requestedOrgId with
  | (db1, Valid k) => updateApiKeyUsage (snd call) db1 (id k) ip
  | (_, Invalid _ _) => None
  end.

(** The stored window-reset instant of the key has not passed at [now]. *)
Definition windowOpen (now : Z) (db : Db) : bool :=
  match findByHash db (hashApiKey sha256hex key) with
  | Some k => negb (resetDue now k)
  | None => true
  end.

(** Successive authenticated calls, none of which finds the window-reset
    instant passed. *)
Fixpoint sameWindowCalls (db : Db) (calls : list (Z * Z)) : option Db :=
  match calls with
  | [] => Some db
  | call :: rest =>
      if windowOpen (fst call) db
      then match authCall db call with
           | Some db' => sameWindowCalls db' rest
           | None => None
           end
      else None
  end.

Lemma findByHash_updateById (db : Db) (h : string) (k : ApiKey)
    (f : ApiKey -> ApiKey) :
  findByHash db h = Some k ->
  (forall x, keyHash (f x) = keyHash x) ->
  findByHash (updateById db (id k) f) h = Some (f k).
Proof.
  unfold findByHash, updateById; simpl. intros Hfind Hf.
  induction (apiKeys db) as [|x l IH]; simpl in *; [discriminate|].
  destruct (String.eqb (keyHash x) h) eqn:E.
  - injection Hfind as ->. now rewrite String.eqb_refl, Hf, E.
  - destruct (String.eqb (id x) (id k)); rewrite ?Hf, E; auto.
Qed.

Lemma findById_of_hash (db : Db) (h : string) (k : ApiKey) :
  findByHash db h = Some k ->
  exists k0, findById db (id k) = Some k0.
Proof.
  unfold findByHash, findById. intros Hfind.
  apply find_some in Hfind as [Hin _].
  destruct (find _ (apiKeys db)) as [k0|] eqn:E; [eauto|].
  apply (find_none _ _ E) in Hin. now rewrite String.eqb_refl in Hin.
Qed.

(** What a successful validation tells about the stored row. *)
Lemma validateApiKey_valid (now : Z) (db db1 : Db) (k k1 : ApiKey) :
  findByHash db (hashApiKey sha256hex key) = Some k ->
  validateApiKey sha256hex now db key requiredScope resourceId requestedOrgId
    = (db1, Valid k1) ->
  isActive k = true /\ expired now k = false
  /\ orgMismatch requestedOrgId k = false
  /\ (if resetDue now k
      then db1 = updateById db (id k) (setRateLimit 0 (Some (now + 3600000)))
           /\ k1 = setRateLimit 0 (rateLimitReset k) k
      else db1 = db /\ k1 = k).
Proof.
  intros Hfind. unfold validateApiKey. rewrite Hfind.
  destruct (isActive k); simpl; [|discriminate].
  destruct (expired now k); [discriminate|].
  destruct (orgMismatch requestedOrgId k); [discriminate|].
  destruct (resetDue now k).
  - destruct (_ <=? _); [discriminate|].
    destruct (scopeMissing _ _); [discriminate|].
    destruct (workflowDenied _ _); [discriminate|].
    intros [= <- <-]. auto.
  - destruct (_ <=? _); [discriminate|].
    destruct (scopeMissing _ _); [discriminate|].
    destruct (workflowDenied _ _); [discriminate|].
    intros [= <- <-]. auto.
Qed.

(** A validation that finds the counter at the limit, in an open window. *)
Lemma validateApiKey_limited (now : Z) (db : Db) (k : ApiKey) :
  findByHash db (hashApiKey sha256hex key) = Some k ->
  isActive k = true -> expired now k = false ->
  orgMismatch requestedOrgId k = false ->
  resetDue now k = false ->
  rateLimit k <= rateLimitUsed k ->
  validateApiKey sha256hex now db key requiredScope resourceId requestedOrgId
    = (db, Invalid "Rate limit exceeded" true).
Proof.
  intros Hfind Ha He Ho Hr Hlim. unfold validateApiKey.
  rewrite Hfind, Ha, He, Ho, Hr. simpl.
  apply Z.leb_le in Hlim. now rewrite Hlim.
Qed.

(** A validation of an active key that has expired. *)
Lemma validateApiKey_expired (now : Z) (db : Db) (k : ApiKey) :
  findByHash db (hashApiKey sha256hex key) = Some k ->
  isActive k = true -> expired now k = true ->
  validateApiKey sha256hex now db key requiredScope resourceId requestedOrgId
    = (db, Invalid "API key has expired" false).
Proof.
  intros Hfind Ha He. unfold validateApiKey. now rewrite Hfind, Ha, He.
Qed.

(** A validation after the window-reset instant has passed. *)
Lemma validateApiKey_reset (now r : Z) (db : Db) (k : ApiKey) :
  findByHash db (hashApiKey sha256hex key) = Some k ->
  rateLimitReset k = Some r -> r < now ->
  0 < rateLimit k ->
  isActive k = true -> expired now k = false ->
  orgMismatch requestedOrgId k = false ->
  scopeMissing requiredScope k = false ->
  workflowDenied resourceId k = false ->
  validateApiKey sha256hex now db key requiredScope resourceId requestedOrgId
    = (updateById db (id k) (setRateLimit 0 (Some (now + 3600000))),
       Valid (setRateLimit 0 (Some r) k))
  /\ findByHash (updateById db (id k) (setRateLimit 0 (Some (now + 3600000))))
       (hashApiKey sha256hex key)
     = Some (setRateLimit 0 (Some (now + 3600000)) k).
Proof.
  intros Hfind Hr Hlt Hpos Ha He Ho Hs Hw. split.
  - unfold validateApiKey. rewrite Hfind, Ha, He, Ho. simpl.
    unfold resetDue. rewrite Hr.
    apply Z.ltb_lt in Hlt. rewrite Hlt. cbn [setRateLimit rateLimit rateLimitUsed].
    destruct (rateLimit k <=? 0) eqn:E; [apply Z.leb_le in E; lia|].
    unfold scopeMissing, workflowDenied in *. simpl.
    now rewrite Hs, Hw.
  - now apply findByHash_updateById.
Qed.

(** One authenticated call counts one use of the key and leaves what the
    checks before the rate limit read as it was. *)
Lemma authCall_step (db db' : Db) (call : Z * Z) (k : ApiKey) :
  findByHash db (hashApiKey sha256hex key) = Some k ->
  authCall db call = Some db' ->
  exists k',
    findByHash db' (hashApiKey sha256hex key) = Some k'
    /\ rateLimit k' = rateLimit k
    /\ isActive k' = true
    /\ orgMismatch requestedOrgId k' = false
    /\ expiresAt k' = expiresAt k
    /\ rateLimitUsed k'
       = (if resetDue (fst call) k then 0 else rateLimitUsed k) + 1.
Proof.
  intros Hfind. unfold authCall.
  destruct (validateApiKey _ _ _ _ _ _ _) as [db1 [err rl|k1]] eqn:Hv;
    [discriminate|].
  destruct (validateApiKey_valid _ _ _ _ _ Hfind Hv) as (Ha & _ & Ho & Hcase).
  assert (exists kk,
             findByHash db1 (hashApiKey sha256hex key) = Some kk
             /\ id kk = id k /\ id k1 = id k
             /\ rateLimit kk = rateLimit k /\ isActive kk = isActive k
             /\ orgId kk = orgId k /\ expiresAt kk = expiresAt k
             /\ rateLimitUsed kk
                = if resetDue (fst call) k then 0 else rateLimitUsed k)
    as (kk & Hkk & Hid & Hid1 & Hrl & Hact & Horg & Hexp & Hused).
  { destruct (resetDue (fst call) k).
    - destruct Hcase as [-> ->].
      exists (setRateLimit 0 (Some (fst call + 3600000)) k).
      split; [now apply findByHash_updateById|]. repeat split.
    - destruct Hcase as [-> ->]. exists k. repeat split. exact Hfind. }
  rewrite Hid1, <- Hid. unfold updateApiKeyUsage.
  destruct (findById_of_hash _ _ _ Hkk) as [k0 Hk0]. rewrite Hk0.
  intros [= <-]. eexists. split.
  - apply findByHash_updateById; [exact Hkk|reflexivity].
  - cbn [recordUse rateLimit isActive expiresAt rateLimitUsed].
    unfold orgMismatch in *. cbn [recordUse orgId].
    rewrite Horg, Hrl, Hact, Hexp, Hused. auto.
Qed.

(** Calls within one window add up on the counter. *)
Lemma sameWindowCalls_count (calls : list (Z * Z)) :
  forall (db db' : Db) (k : ApiKey),
    findByHash db (hashApiKey sha256hex key) = Some k ->
    sameWindowCalls db calls = Some db' ->
    exists k',
      findByHash db' (hashApiKey sha256hex key) = Some k'
      /\ rateLimit k' = rateLimit k
      /\ (isActive k = true -> isActive k' = true)
      /\ (orgMismatch requestedOrgId k = false ->
          orgMismatch requestedOrgId k' = false)
      /\ expiresAt k' = expiresAt k
      /\ rateLimitUsed k' = rateLimitUsed k + Z.of_nat (length calls).
Proof.
  induction calls as [|call rest IH]; intros db db' k Hfind; simpl sameWindowCalls.
  - intros [= <-]. exists k. repeat split; auto. simpl. lia.
  - unfold windowOpen. rewrite Hfind.
    destruct (resetDue (fst call) k) eqn:Hdue; [discriminate|]. simpl negb. cbv iota.
    destruct (authCall db call) as [db1|] eqn:Hcall; [|discriminate].
    destruct (authCall_step _ _ _ _ Hfind Hcall)
      as (k1 & Hk1 & Hrl & Hact & Horg & Hexp & Hused).
    rewrite Hdue in Hused. intros Hrest.
    destruct (IH _ _ _ Hk1 Hrest)
      as (k' & Hk' & Hrl' & Hact' & Horg' & Hexp' & Hused').
    exists k'. repeat split; auto; try congruence.
    rewrite Hused', Hused. cbn [length]. lia.
Qed.

(** C3, amended. For a key whose [rateLimit] is 5 (its counter, as always,
    not negative): after five validations that succeeded, each followed by
    the recording of its usage, the last four of them and a sixth
    validation not finding the window-reset instant passed, the sixth
    validation fails with "Rate limit exceeded" and [rateLimited = true],
    unless the key has expired by then: the expiry is checked first and
    the sixth validation then fails with "API key has expired" and no
    [rateLimited]. And a validation that finds the stored window-reset
    instant passed, all other checks passing, stores the counter 0 and, as
    reset instant, one hour after the instant of the validation (whatever
    the instant stored before), and succeeds with the counter of the
    returned key at 0. *)
Theorem rate_limit_window :
  forall (db0 : Db) (k0 : ApiKey),
    findByHash db0 (hashApiKey sha256hex key) = Some k0 ->
    rateLimit k0 = 5 ->
    0 <= rateLimitUsed k0 ->
    (forall (first : Z * Z) (others : list (Z * Z)) (t6 : Z) (db1 db5 : Db),
        authCall db0 first = Some db1 ->
        length others = 4%nat ->
        sameWindowCalls db1 others = Some db5 ->
        windowOpen t6 db5 = true ->
        validateApiKey sha256hex t6 db5 key
          requiredScope resourceId requestedOrgId
        = (db5, if expired t6 k0
                then Invalid "API key has expired" false
                else Invalid "Rate limit exceeded" true))
    /\ (forall (now r : Z),
           rateLimitReset k0 = Some r -> r < now ->
           isActive k0 = true -> expired now k0 = false ->
           orgMismatch requestedOrgId k0 = false ->
           scopeMissing requiredScope k0 = false ->
           workflowDenied resourceId k0 = false ->
           exists db' returned stored,
             validateApiKey sha256hex now db0 key
               requiredScope resourceId requestedOrgId
             = (db', Valid returned)
             /\ rateLimitUsed returned = 0
             /\ findByHash db' (hashApiKey sha256hex key) = Some stored
             /\ rateLimitUsed stored = 0
             /\ rateLimitReset stored = Some (now + 3600000)).
Proof.
  intros db0 k0 Hfind Hlimit Hused0. split.
  - intros first others t6 db1 db5 Hfirst Hlen Hothers Hopen.
    destruct (authCall_step _ _ _ _ Hfind Hfirst)
      as (k1 & Hk1 & Hrl1 & Hact1 & Horg1 & Hexp1 & Hused1).
    destruct (sameWindowCalls_count _ _ _ _ Hk1 Hothers)
      as (k5 & Hk5 & Hrl5 & Hact5 & Horg5 & Hexp5 & Hused5).
    unfold windowOpen in Hopen. rewrite Hk5 in Hopen.
    apply negb_true_iff in Hopen.
    assert (expired t6 k5 = expired t6 k0) as Hexp
      by (unfold expired; now rewrite Hexp5, Hexp1).
    destruct (expired t6 k0) eqn:He.
    + apply validateApiKey_expired with (k := k5); auto.
    + apply validateApiKey_limited with (k := k5); auto.
      rewrite Hrl5, Hrl1, Hlimit, Hused5, Hused1, Hlen.
      destruct (resetDue (fst first) k0); lia.
  - intros now r Hr Hlt Ha He Ho Hs Hw.
    destruct (validateApiKey_reset now r db0 k0 Hfind Hr Hlt
                ltac:(lia) Ha He Ho Hs Hw) as [Hv Hstored].
    do 3 eexists. split; [exact Hv|]. split; [reflexivity|].
    split; [exact Hstored|]. split; reflexivity.
Qed.

End RateLimit.

(** A table with one key of [rateLimit] 5, unused, whose window ends at the
    instant 1000. *)
Definition fiveKey : Store.ApiKey :=
  {| Store.id := "key-1"; Store.userId := "u-1"; Store.orgId := Some "org-a";
     Store.name := "ci"; Store.description := None;
     Store.keyHash := "sk_live_1"; Store.keyPrefix := "sk_live_1";
     Store.scopes := ["resources:read"]; Store.projectIds := [];
     Store.workflowIds := [];
     Store.rateLimit := 5; Store.rateLimitUsed := 0;
     Store.rateLimitReset := Some 1000%Z;
     Store.usageCount := 0; Store.lastUsedAt := None;
     Store.lastUsedIp := None; Store.expiresAt := None;
     Store.isActive := true; Store.createdAt := 1; Store.updatedAt := 1 |}.

Definition fiveDb : Store.Db :=
  Store.mkDb [fiveKey] [Store.mkUsuario "u-1" "ana@example.com" ["USER"] None].

Definition dbAfter (o : option Store.Db) : Store.Db := default fiveDb o.

(** Five calls on [fiveDb] within its window, then a sixth validation; and
    a validation of the unused key after its window ended. *)
Lemma rate_limit_window_witness :
  let call := authCall (fun k => k) "sk_live_1" None None None None in
  let calls := sameWindowCalls (fun k => k) "sk_live_1" None None None None in
  let db1 := dbAfter (call fiveDb (10, 11)%Z) in
  let db5 := dbAfter (calls db1 [(20, 21); (30, 31); (40, 41); (50, 51)]%Z) in
  ApiKeyMiddleware.validateApiKey (fun k => k) 60 db5 "sk_live_1" None None None
  = (db5, ApiKeyMiddleware.Invalid "Rate limit exceeded" true)
  /\ exists db' returned stored,
       ApiKeyMiddleware.validateApiKey (fun k => k) 2000 fiveDb "sk_live_1"
         None None None
       = (db', ApiKeyMiddleware.Valid returned)
       /\ Store.rateLimitUsed returned = 0%Z
       /\ Store.findByHash db' "sk_live_1" = Some stored
       /\ Store.rateLimitUsed stored = 0%Z
       /\ Store.rateLimitReset stored = Some 3602000%Z.
Proof.
  cbv zeta.
  pose proof (rate_limit_window (fun k => k) "sk_live_1" None None None None
                fiveDb fiveKey eq_refl eq_refl ltac:(vm_compute; discriminate))
    as [Hsixth Hreset].
  split.
  - apply (Hsixth (10, 11)%Z [(20, 21); (30, 31); (40, 41); (50, 51)]%Z 60%Z
             (dbAfter (authCall (fun k => k) "sk_live_1" None None None None
                         fiveDb (10, 11)%Z)));
      vm_compute; reflexivity.
  - apply (Hreset 2000%Z 1000%Z); reflexivity.
Defined.

(** The key of [fiveDb], expiring at the instant 55. *)
Definition expiringKey : Store.ApiKey :=
  {| Store.id := "key-1"; Store.userId := "u-1"; Store.orgId := Some "org-a";
     Store.name := "ci"; Store.description := None;
     Store.keyHash := "sk_live_1"; Store.keyPrefix := "sk_live_1";
     Store.scopes := ["resources:read"]; Store.projectIds := [];
     Store.workflowIds := [];
     Store.rateLimit := 5; Store.rateLimitUsed := 0;
     Store.rateLimitReset := Some 1000%Z;
     Store.usageCount := 0; Store.lastUsedAt := None;
     Store.lastUsedIp := None; Store.expiresAt := Some 55%Z;
     Store.isActive := true; Store.createdAt := 1; Store.updatedAt := 1 |}.

Definition expiringDb : Store.Db :=
  Store.mkDb [expiringKey] (Store.usuarios fiveDb).

(** C3, as the claim states it, fails. A key of [rateLimit] 5 that expires
    at the instant 55 is validated, and its usage recorded, five times
    before that, within its window, which ends at 1000: the counter is at
    5. The sixth validation, at 60 in the same window, does not fail with
    "Rate limit exceeded" and [rateLimited = true] but with "API key has
    expired" and no [rateLimited]. And the validation of the key of
    [fiveDb] at the instant 2000, after its window ended at 1000, stores
    the reset instant 3602000, one hour after the validation, not the
    stored instant advanced by one hour. *)
Lemma sixth_call_of_expired_key :
  match sameWindowCalls (fun k => k) "sk_live_1" None None None None
          expiringDb [(10, 11); (20, 21); (30, 31); (40, 41); (50, 51)]%Z with
  | Some db5 =>
      windowOpen (fun k => k) "sk_live_1" 60 db5 = true
      /\ (Store.rateLimitUsed <$> Store.findByHash db5 "sk_live_1") = Some 5%Z
      /\ ApiKeyMiddleware.validateApiKey (fun k => k) 60 db5 "sk_live_1"
           None None None
         = (db5, ApiKeyMiddleware.Invalid "API key has expired" false)
      /\ ApiKeyMiddleware.validateApiKey (fun k => k) 60 db5 "sk_live_1"
           None None None
         <> (db5, ApiKeyMiddleware.Invalid "Rate limit exceeded" true)
  | None => False
  end
  /\ (Store.rateLimitReset <$> Store.findByHash fiveDb "sk_live_1")
     = Some (Some 1000%Z)
  /\ (Store.rateLimitReset <$>
      Store.findByHash
        (fst (ApiKeyMiddleware.validateApiKey (fun k => k) 2000 fiveDb
                "sk_live_1" None None None)) "sk_live_1")
     = Some (Some 3602000%Z)
  /\ (3602000 <> 1000 + 3600000)%Z.
Proof.
  split; [|split; [|split]]; try (vm_compute; reflexivity).
  - vm_compute. repeat split. discriminate.
  - discriminate.
Qed.

(** ** The JWKS resolver *)
Section JwksResolver.
Import AuthConfig TahAuth.
Local Open Scope Z_scope.

Variable cfg : TahConfig.
Variable rsaToPem : string -> string -> string + string.

(** No static public key is configured: keys come from the JWKS. *)
Hypothesis noStaticKey : Js.truthyO (publicKey cfg) = false.

(** The fetch fails: the request is rejected, the status is not one of
    success, or the body is not JSON. *)
Definition fetchFails (r : FetchResult) : bool :=
  match r with
  | FetchResponse true _ (inr _) => false
  | _ => true
  end.

Definition isFetchError (r : TahError + string) : bool :=
  match r with
  | inl (FetchError _) => true
  | _ => false
  end.

(** [key] is the first key of [ks] whose id is [k]. *)
Definition firstWithKid (ks : list Jwk) (k : option string) (key : Jwk)
    : Prop :=
  exists pre post,
    ks = (pre ++ key :: post)%list /\ kid key = k
    /\ forall j, In j pre -> kid j <> k.

(** The answer [r] is the one the document [doc] gives for the key id
    [k]: the PEM form of the first key of that id, "Signing key not
    found" when no key has the id or there is no [keys], a TypeError when
    [keys] is not an array. *)
Definition answersFrom (doc : Jwks) (k : option string)
    (r : TahError + string) : Prop :=
  match keys doc with
  | KeysArray ks =>
      (forall key, firstWithKid ks k key -> r = jwkToPem rsaToPem key)
      /\ ((forall j, In j ks -> kid j <> k) ->
          r = inl (SigningKeyNotFound k))
  | KeysAbsent => r = inl (SigningKeyNotFound k)
  | KeysOther => r = inl TypeError
  end.

Lemma sameKid_eq (a b : option string) : sameKid a b = true <-> a = b.
Proof.
  destruct a as [x|], b as [y|]; simpl; try (split; congruence).
  rewrite String.eqb_eq. split; congruence.
Qed.

Lemma find_first (ks : list Jwk) (k : option string) (key : Jwk) :
  firstWithKid ks k key ->
  find (fun j => sameKid (kid j) k) ks = Some key.
Proof.
  intros (pre & post & -> & Hk & Hpre).
  induction pre as [|j pre IH]; simpl.
  - now rewrite (proj2 (sameKid_eq _ _) Hk).
  - destruct (sameKid (kid j) k) eqn:E.
    + apply sameKid_eq in E. exfalso. apply (Hpre j); [now left|exact E].
    + apply IH. intros j' Hj'. apply Hpre. now right.
Qed.

Lemma find_none_with_kid (ks : list Jwk) (k : option string) :
  (forall j, In j ks -> kid j <> k) ->
  find (fun j => sameKid (kid j) k) ks = None.
Proof.
  intros H. destruct (find _ ks) as [j|] eqn:E; [|reflexivity].
  apply find_some in E as [Hin Hs]. apply sameKid_eq in Hs.
  now apply H in Hin.
Qed.

Lemma selectKey_answersFrom (doc : Jwks) (k : option string) :
  answersFrom doc k (selectKey rsaToPem doc k).
Proof.
  unfold answersFrom, selectKey, findKey.
  destruct (keys doc) as [|ks|]; [reflexivity| |reflexivity]. split.
  - intros key Hkey. now rewrite (find_first _ _ _ Hkey).
  - intros Hnone. now rewrite (find_none_with_kid _ _ Hnone).
Qed.

Lemma selectKey_not_fetch_error (jwks : Jwks) (k : option string) :
  isFetchError (selectKey rsaToPem jwks k) = false.
Proof.
  unfold selectKey, jwkToPem.
  destruct (findKey jwks k) as [[j|]|]; [|reflexivity|reflexivity].
  destruct (firstCertificate j); [reflexivity|].
  destruct (_ && _); [|reflexivity].
  now destruct (rsaToPem _ _).
Qed.

Lemma getSigningKey_unfold (net : string -> FetchResult) (now : Z)
    (st : JwksState) (k : option string) :
  getSigningKey cfg rsaToPem net now st k
  = let r := fetchJwks cfg net now st in
    match result r with
    | inl err => mkRun (inl err) (after r) (fetched r)
    | inr BodyNull => mkRun (inl TypeError) (after r) (fetched r)
    | inr BodyFalsy => mkRun (inl (SigningKeyNotFound k)) (after r) (fetched r)
    | inr (BodyDoc jwks) =>
        mkRun (selectKey rsaToPem jwks k) (after r) (fetched r)
    end.
Proof. unfold getSigningKey. now rewrite noStaticKey. Qed.

(** A fresh cache answers without the network. *)
Lemma getSigningKey_fresh (net : string -> FetchResult) (now : Z)
    (st : JwksState) (k : option string) (cached : Jwks) :
  jwksCache st = BodyDoc cached -> now < jwksCacheExpiry st ->
  getSigningKey cfg rsaToPem net now st k
  = mkRun (selectKey rsaToPem cached k) st [].
Proof.
  intros Hc Hlt. rewrite getSigningKey_unfold. unfold fetchJwks, freshCache.
  rewrite Hc. apply Z.ltb_lt in Hlt. now rewrite Hlt.
Qed.

(** A successful fetch replaces the cache and its expiry. *)
Lemma getSigningKey_fetched (net : string -> FetchResult) (now : Z)
    (st : JwksState) (k : option string) (status : string) (doc : Jwks) :
  freshCache now st = false ->
  net (jwksUrl cfg) = FetchResponse true status (inr (BodyDoc doc)) ->
  getSigningKey cfg rsaToPem net now st k
  = mkRun (selectKey rsaToPem doc k)
      (mkJwksState (BodyDoc doc) (now + jwksCacheTtl cfg * 1000))
      [jwksUrl cfg].
Proof.
  intros Hc Hnet. rewrite getSigningKey_unfold. unfold fetchJwks.
  now rewrite Hc, Hnet.
Qed.

(** With a document in the cache, a failing fetch falls back on it. *)
Lemma getSigningKey_stale (net : string -> FetchResult) (now : Z)
    (st : JwksState) (k : option string) (stale : Jwks) :
  jwksCache st = BodyDoc stale ->
  fetchFails (net (jwksUrl cfg)) = true ->
  result (getSigningKey cfg rsaToPem net now st k) = selectKey rsaToPem stale k
  /\ after (getSigningKey cfg rsaToPem net now st k) = st.
Proof.
  intros Hc Hfail. rewrite getSigningKey_unfold. unfold fetchJwks, freshCache.
  rewrite Hc. cbn [truthyBody andb].
  destruct (now <? jwksCacheExpiry st); [split; reflexivity|].
  unfold fetchJwksCatch.
  destruct (net (jwksUrl cfg)) as [msg|[] status [msg|doc]];
    try discriminate; rewrite Hc; split; reflexivity.
Qed.

(** The fetch error comes out exactly of a failing fetch over a cache that
    holds no document. *)
Lemma getSigningKey_fetch_error (net : string -> FetchResult) (now : Z)
    (st : JwksState) (k : option string) :
  isFetchError (result (getSigningKey cfg rsaToPem net now st k)) = true
  <-> truthyBody (jwksCache st) = false
      /\ fetchFails (net (jwksUrl cfg)) = true.
Proof.
  rewrite getSigningKey_unfold. unfold fetchJwks, freshCache, fetchJwksCatch.
  destruct (jwksCache st) as [| |cached] eqn:Hc; cbn [truthyBody andb].
  1,2: destruct (net (jwksUrl cfg)) as [msg|[] status [msg|[| |doc]]]; cbn;
    rewrite ?selectKey_not_fetch_error; intuition congruence.
  destruct (now <? jwksCacheExpiry st); cbn.
  - rewrite selectKey_not_fetch_error. intuition congruence.
  - destruct (net (jwksUrl cfg)) as [msg|[] status [msg|[| |doc]]]; cbn;
      rewrite ?selectKey_not_fetch_error; intuition congruence.
Qed.

(** C5, amended. Without a static key: a call within the TTL of a fetch
    that stored a key-set document fetches nothing, leaves the cache and
    answers from that document; a call whose fetch fails while the cache
    holds a document, expired or not, leaves the cache and answers from
    that document, so it returns the first key of the asked id in PEM form
    instead of raising the fetch error; the fetch error comes out exactly
    when the fetch fails and the cache holds no document; and a cache that
    holds a document loses it exactly when the cache is not fresh and the
    fetch succeeds with a falsy JSON body, which is stored as any other
    body is. *)
Theorem jwks_resolver_cache :
  (forall net1 net2 now1 now2 st0 k1 k2 status doc,
      freshCache now1 st0 = false ->
      net1 (jwksUrl cfg) = FetchResponse true status (inr (BodyDoc doc)) ->
      now2 < now1 + jwksCacheTtl cfg * 1000 ->
      let first := getSigningKey cfg rsaToPem net1 now1 st0 k1 in
      let second := getSigningKey cfg rsaToPem net2 now2 (after first) k2 in
      fetched second = []
      /\ after second = after first
      /\ answersFrom doc k2 (result second))
  /\ (forall net now st k stale,
         jwksCache st = BodyDoc stale ->
         fetchFails (net (jwksUrl cfg)) = true ->
         let r := getSigningKey cfg rsaToPem net now st k in
         after r = st
         /\ answersFrom stale k (result r)
         /\ (forall ks key c,
               keys stale = KeysArray ks -> firstWithKid ks k key ->
               firstCertificate key = Some c ->
               result r = inr (certificatePem c)))
  /\ (forall net now st k,
         isFetchError (result (getSigningKey cfg rsaToPem net now st k)) = true
         <-> truthyBody (jwksCache st) = false
             /\ fetchFails (net (jwksUrl cfg)) = true)
  /\ (forall net now st k doc,
         jwksCache st = BodyDoc doc ->
         truthyBody
           (jwksCache (after (getSigningKey cfg rsaToPem net now st k)))
         = false
         <-> freshCache now st = false
             /\ exists status body,
                  net (jwksUrl cfg) = FetchResponse true status (inr body)
                  /\ truthyBody body = false).
Proof.
  split; [|split; [|split]].
  - intros net1 net2 now1 now2 st0 k1 k2 status doc Hc Hnet Hlt first second.
    subst first second.
    rewrite (getSigningKey_fetched _ _ _ _ _ _ Hc Hnet). cbn [after].
    rewrite (getSigningKey_fresh net2 now2
               (mkJwksState (BodyDoc doc) (now1 + jwksCacheTtl cfg * 1000))
               k2 doc eq_refl Hlt).
    cbn [fetched after result]. repeat split. apply selectKey_answersFrom.
  - intros net now st k stale Hc Hfail r. subst r.
    destruct (getSigningKey_stale net now st k stale Hc Hfail) as [Hr Ha].
    split; [exact Ha|]. rewrite Hr. split; [apply selectKey_answersFrom|].
    intros ks key c Hks Hkey Hcert. unfold selectKey, findKey. rewrite Hks.
    rewrite (find_first _ _ _ Hkey). unfold jwkToPem. now rewrite Hcert.
  - intros net now st k. apply getSigningKey_fetch_error.
  - intros net now st k doc Hc.
    assert (jwksCache (after (getSigningKey cfg rsaToPem net now st k))
            = if freshCache now st then jwksCache st
              else match net (jwksUrl cfg) with
                   | FetchResponse true _ (inr body) => body
                   | _ => jwksCache st
                   end) as ->.
    { rewrite getSigningKey_unfold. unfold fetchJwks, fetchJwksCatch.
      destruct (freshCache now st); [now rewrite Hc|].
      destruct (net (jwksUrl cfg)) as [msg|[] status [msg|[| |d]]];
        rewrite ?Hc; cbn; rewrite ?Hc; reflexivity. }
    destruct (freshCache now st).
    { rewrite Hc. split; [discriminate|]. intros [H _]. discriminate H. }
    destruct (net (jwksUrl cfg)) as [msg|[] status [msg|body]]; rewrite ?Hc.
    1,2,4,5: split; [discriminate|];
      intros [_ (status' & body' & H & _)]; discriminate H.
    split.
    + intros Hb. split; [reflexivity|]. eauto.
    + intros [_ (status' & body' & H & Hb)]. now injection H as _ <-.
Qed.

End JwksResolver.

(** A key set with two keys, the second of which carries a certificate;
    the network that serves it, the network that is down, and the network
    that answers 200 with the body [null]. *)
Definition twoKeyJwks : TahAuth.Jwks :=
  TahAuth.mkJwks
    (TahAuth.KeysArray
       [TahAuth.mkJwk (Some "kid-0") (Some "EC") None None None;
        TahAuth.mkJwk (Some "kid-1") (Some "RSA") (Some ["MIIBIjANBg"])
          None None]).

Definition jwksUp (url : string) : TahAuth.FetchResult :=
  TahAuth.FetchResponse true "200" (inr (TahAuth.BodyDoc twoKeyJwks)).

Definition jwksDown (url : string) : TahAuth.FetchResult :=
  TahAuth.FetchRejected "connect ECONNREFUSED".

Definition jwksNull (url : string) : TahAuth.FetchResult :=
  TahAuth.FetchResponse true "200" (inr TahAuth.BodyNull).

Definition noRsa (n e : string) : string + string := inl "unused".

(** C5, as the claim states it, fails. A first call stores the key set; a
    later call, the cache expired, gets a 200 whose body is [null]: it
    raises although a populated cache was there, and leaves [null] as the
    cache; the next call, the network down, raises the fetch error although
    the cache had been populated. *)
Lemma jwks_cache_lost_to_falsy_body :
  let first :=
    TahAuth.getSigningKey defaultTahConfig noRsa jwksUp 5000
      TahAuth.initialJwksState (Some "kid-1") in
  let second :=
    TahAuth.getSigningKey defaultTahConfig noRsa jwksNull 9000000
      (TahAuth.after first) (Some "kid-1") in
  let third :=
    TahAuth.getSigningKey defaultTahConfig noRsa jwksDown 9000001
      (TahAuth.after second) (Some "kid-1") in
  TahAuth.result first = inr (TahAuth.certificatePem "MIIBIjANBg")
  /\ TahAuth.jwksCache (TahAuth.after first) = TahAuth.BodyDoc twoKeyJwks
  /\ TahAuth.result second = inl TahAuth.TypeError
  /\ TahAuth.jwksCache (TahAuth.after second) = TahAuth.BodyNull
  /\ TahAuth.result third
     = inl (TahAuth.FetchError "connect ECONNREFUSED").
Proof. cbv zeta. repeat split; vm_compute; reflexivity. Qed.

(** A first call that fetches, a second one within the hour with the
    network down, and a third one long after, the network still down:
    both get the certificate of the second key of the set. *)
Lemma jwks_resolver_cache_witness :
  let first :=
    TahAuth.getSigningKey defaultTahConfig noRsa jwksUp 5000
      TahAuth.initialJwksState (Some "kid-1") in
  let second :=
    TahAuth.getSigningKey defaultTahConfig noRsa jwksDown 6000
      (TahAuth.after first) (Some "kid-1") in
  let third :=
    TahAuth.getSigningKey defaultTahConfig noRsa jwksDown 9000000
      (TahAuth.after first) (Some "kid-1") in
  TahAuth.fetched second = []
  /\ TahAuth.result second = inr (TahAuth.certificatePem "MIIBIjANBg")
  /\ TahAuth.result third = inr (TahAuth.certificatePem "MIIBIjANBg")
  /\ TahAuth.fetched third
     = ["https://tah.yourdomain.com/.well-known/jwks.json"].
Proof.
  cbv zeta.
  pose proof (jwks_resolver_cache defaultTahConfig noRsa eq_refl)
    as (Hhit & Hstale & _ & _).
  assert (firstWithKid
            [TahAuth.mkJwk (Some "kid-0") (Some "EC") None None None;
             TahAuth.mkJwk (Some "kid-1") (Some "RSA") (Some ["MIIBIjANBg"])
               None None]
            (Some "kid-1")
            (TahAuth.mkJwk (Some "kid-1") (Some "RSA") (Some ["MIIBIjANBg"])
               None None)) as Hkey.
  { exists [TahAuth.mkJwk (Some "kid-0") (Some "EC") None None None], [].
    split; [reflexivity|]. split; [reflexivity|].
    intros j [<-|[]]. discriminate. }
  destruct (Hhit jwksUp jwksDown 5000%Z 6000%Z TahAuth.initialJwksState
              (Some "kid-1") (Some "kid-1") "200" twoKeyJwks
              eq_refl eq_refl eq_refl) as (Hf & _ & Hr).
  split; [exact Hf|]. split; [exact (proj1 Hr _ Hkey)|].
  split; [|vm_compute; reflexivity].
  exact (proj2 (proj2 (Hstale jwksDown 9000000%Z
                  (TahAuth.after
                     (TahAuth.getSigningKey defaultTahConfig noRsa jwksUp 5000
                        TahAuth.initialJwksState (Some "kid-1")))
                  (Some "kid-1") twoKeyJwks eq_refl eq_refl))
               _ _ "MIIBIjANBg" eq_refl Hkey eq_refl).
Defined.

(** ** The read routes of the API-key management and the stored hash *)
Section KeyHashConfidentiality.
Import Store ApiKeysRoutes.

(** The row with another stored hash. *)
Definition withKeyHash (h : string) (k : ApiKey) : ApiKey :=
  {| id := id k; userId := userId k; orgId := orgId k; name := name k;
     description := description k;
     keyHash := h;
     keyPrefix := keyPrefix k; scopes := scopes k;
     projectIds := projectIds k; workflowIds := workflowIds k;
     rateLimit := rateLimit k; rateLimitUsed := rateLimitUsed k;
     rateLimitReset := rateLimitReset k; usageCount := usageCount k;
     lastUsedAt := lastUsedAt k; lastUsedIp := lastUsedIp k;
     expiresAt := expiresAt k; isActive := isActive k;
     createdAt := createdAt k; updatedAt := updatedAt k |}.

(** Two rows that agree on every column but [keyHash]. *)
Definition sameButKeyHash (a b : ApiKey) : Prop :=
  b = withKeyHash (keyHash b) a.

(** Two tables whose rows agree, one by one, on every column but
    [keyHash]. *)
Definition sameButKeyHashes (db1 db2 : Db) : Prop :=
  Forall2 sameButKeyHash (apiKeys db1) (apiKeys db2)
  /\ usuarios db1 = usuarios db2.

Lemma Forall2_filter_same {A : Type} (R : A -> A -> Prop) (p : A -> bool)
    (l1 l2 : list A) :
  (forall a b, R a b -> p a = p b) ->
  Forall2 R l1 l2 ->
  Forall2 R (List.filter p l1) (List.filter p l2).
Proof.
  intros Hp H. induction H as [|a b l1 l2 Hab _ IH]; simpl; [constructor|].
  rewrite <- (Hp _ _ Hab). destruct (p a); [constructor|]; assumption.
Qed.

Lemma Forall2_find_same {A : Type} (R : A -> A -> Prop) (p : A -> bool)
    (l1 l2 : list A) :
  (forall a b, R a b -> p a = p b) ->
  Forall2 R l1 l2 ->
  match find p l1, find p l2 with
  | Some a, Some b => R a b
  | None, None => True
  | _, _ => False
  end.
Proof.
  intros Hp H. induction H as [|a b l1 l2 Hab _ IH]; simpl; [exact I|].
  rewrite <- (Hp _ _ Hab). destruct (p a); assumption.
Qed.

Lemma Forall2_map_same {A B : Type} (R : A -> A -> Prop) (f : A -> B)
    (l1 l2 : list A) :
  (forall a b, R a b -> f a = f b) ->
  Forall2 R l1 l2 ->
  map f l1 = map f l2.
Proof.
  intros Hf H. induction H as [|a b l1 l2 Hab _ IH]; simpl; [reflexivity|].
  now rewrite (Hf _ _ Hab), IH.
Qed.

Lemma insertByCreatedDesc_same (a b : ApiKey) (l1 l2 : list ApiKey) :
  sameButKeyHash a b ->
  Forall2 sameButKeyHash l1 l2 ->
  Forall2 sameButKeyHash (insertByCreatedDesc a l1) (insertByCreatedDesc b l2).
Proof.
  intros Hab H. induction H as [|x y l1 l2 Hxy Hl IH]; simpl.
  - repeat constructor. exact Hab.
  - assert (createdAt y = createdAt x) as -> by (rewrite Hxy; reflexivity).
    assert (createdAt b = createdAt a) as -> by (rewrite Hab; reflexivity).
    destruct (createdAt x <=? createdAt a)%Z; repeat constructor; assumption.
Qed.

Lemma orderByCreatedDesc_same (l1 l2 : list ApiKey) :
  Forall2 sameButKeyHash l1 l2 ->
  Forall2 sameButKeyHash (orderByCreatedDesc l1) (orderByCreatedDesc l2).
Proof.
  intros H. induction H as [|a b l1 l2 Hab _ IH]; simpl; [constructor|].
  now apply insertByCreatedDesc_same.
Qed.

Lemma satisfies_same (w : Where) (a b : ApiKey) :
  sameButKeyHash a b -> satisfies w a = satisfies w b.
Proof. intros ->. reflexivity. Qed.

Lemma listHandler_same (db1 db2 : Db) (req : Http.Request) :
  sameButKeyHashes db1 db2 ->
  listHandler db1 req = listHandler db2 req.
Proof.
  intros [H _]. unfold listHandler. f_equal.
  apply Forall2_map_same with (R := sameButKeyHash);
    [now intros a b -> |].
  apply orderByCreatedDesc_same, Forall2_filter_same; [|exact H].
  apply satisfies_same.
Qed.

Lemma findFirstOwned_same (db1 db2 : Db) (req : Http.Request) :
  sameButKeyHashes db1 db2 ->
  match findFirstOwned db1 req, findFirstOwned db2 req with
  | Some a, Some b => sameButKeyHash a b
  | None, None => True
  | _, _ => False
  end.
Proof.
  intros [H _]. unfold findFirstOwned.
  destruct (Http.params req !! "id");
    apply Forall2_find_same; auto using satisfies_same.
Qed.

Lemma getHandler_same (db1 db2 : Db) (req : Http.Request) :
  sameButKeyHashes db1 db2 ->
  getHandler db1 req = getHandler db2 req.
Proof.
  intros H. unfold getHandler.
  pose proof (findFirstOwned_same db1 db2 req H) as Hf.
  destruct (findFirstOwned db1 req), (findFirstOwned db2 req);
    try contradiction; [|reflexivity].
  now rewrite Hf.
Qed.

Lemma statsHandler_same (now : Z) (db1 db2 : Db) (req : Http.Request) :
  sameButKeyHashes db1 db2 ->
  statsHandler now db1 req = statsHandler now db2 req.
Proof.
  intros H. unfold statsHandler.
  pose proof (findFirstOwned_same db1 db2 req H) as Hf.
  destruct (findFirstOwned db1 req), (findFirstOwned db2 req);
    try contradiction; [|reflexivity].
  now rewrite Hf.
Qed.

(** C9. The answers of the list, get-by-id and stats routes do not depend
    on the stored hashes: on two tables whose rows differ at most in
    [keyHash], each of the three routes gives the same answer to the same
    request. *)
Theorem read_routes_hide_keyHash :
  forall (jwtVerify : string -> string -> option AuthMiddleware.LocalClaims)
         (jwtDecode : string -> TahAuth.Decoded)
         (validateTahToken : string -> string + AuthMiddleware.TahUser)
         (cfg : AuthConfig.Config) (env : AuthMiddleware.Env)
         (now : Z) (db1 db2 : Db) (req : Http.Request),
    sameButKeyHashes db1 db2 ->
    listRoute jwtVerify jwtDecode validateTahToken cfg env db1 req
    = listRoute jwtVerify jwtDecode validateTahToken cfg env db2 req
    /\ getRoute jwtVerify jwtDecode validateTahToken cfg env db1 req
       = getRoute jwtVerify jwtDecode validateTahToken cfg env db2 req
    /\ statsRoute jwtVerify jwtDecode validateTahToken cfg env now db1 req
       = statsRoute jwtVerify jwtDecode validateTahToken cfg env now db2 req.
Proof.
  intros jwtVerify jwtDecode validateTahToken cfg env now db1 db2 req H.
  unfold listRoute, getRoute, statsRoute, route.
  destruct (authenticate jwtVerify jwtDecode validateTahToken cfg env req)
    as [status body|c]; [repeat split|].
  split; [now apply listHandler_same|].
  split; [now apply getHandler_same | now apply statsHandler_same].
Qed.

End KeyHashConfidentiality.

(** The table [fiveDb] after its key was regenerated. *)
Definition fiveDbRehashed : Store.Db :=
  Store.mkDb [withKeyHash "0f3a9c" fiveKey] (Store.usuarios fiveDb).

Definition anaClaims : AuthMiddleware.LocalClaims :=
  {| AuthMiddleware.c_userId := None;
     AuthMiddleware.c_id := Some "u-1";
     AuthMiddleware.c_email := Some "ana@example.com";
     AuthMiddleware.c_fullName := Some "Ana";
     AuthMiddleware.c_name := None;
     AuthMiddleware.c_role := None;
     AuthMiddleware.c_roles := Some ["USER"];
     AuthMiddleware.c_perfis := None;
     AuthMiddleware.c_orgId := Some "org-a";
     AuthMiddleware.c_orgIds := Some ["org-a"];
     AuthMiddleware.c_orgRole := Some "MEMBER" |}.

(** The list route answers the same on [fiveDb] and on [fiveDbRehashed]. *)
Lemma read_routes_hide_keyHash_witness :
  let list_ := ApiKeysRoutes.listRoute (fun _ _ => Some anaClaims)
                 (fun _ => TahAuth.DecodeNull) (fun _ => inl "unused")
                 localOnlyConfig bypassEnv in
  Store.keyHash <$> Store.apiKeys fiveDb = ["sk_live_1"]
  /\ Store.keyHash <$> Store.apiKeys fiveDbRehashed = ["0f3a9c"]
  /\ list_ fiveDb (bearerRequest "a.b.c") = list_ fiveDbRehashed (bearerRequest "a.b.c")
  /\ exists item, list_ fiveDb (bearerRequest "a.b.c") = ApiKeysRoutes.Data [item].
Proof.
  cbv zeta. split; [reflexivity|]. split; [reflexivity|].
  assert (sameButKeyHashes fiveDb fiveDbRehashed) as Hsame
    by (split; [repeat constructor|reflexivity]).
  split.
  - exact (proj1 (read_routes_hide_keyHash (fun _ _ => Some anaClaims)
                    (fun _ => TahAuth.DecodeNull) (fun _ => inl "unused")
                    localOnlyConfig bypassEnv 0%Z fiveDb fiveDbRehashed
                    (bearerRequest "a.b.c") Hsame)).
  - eexists. vm_compute. reflexivity.
Defined.

(** * Further code of the cited files *)

(** ** middleware/api-key.middleware.js: the other middlewares *)
Module ApiKeyGuards.
Import Store ApiKeyMiddleware.

Section WithHash.
Variable sha256hex : string -> string.

(** [req.user] as [authenticateApiKeyOnly] sets it: id, email and roles of
    the owner, nothing about organizations. *)
Definition apiKeyOnlyUser (u : Usuario) : Http.User :=
  {| Http.id := Some (u_id u);
     Http.userId := Some (u_id u);
     Http.tahUserId := None;
     Http.email := Some (u_email u);
     Http.name := None;
     Http.fullName := None;
     Http.role := Some (Js.orDefault (head (u_roles u)) "USER");
     Http.roles := u_roles u;
     Http.perfis := [];
     Http.orgId := None;
     Http.orgName := None;
     Http.orgIds := [];
     Http.orgRole := None;
     Http.permissions := None;
     Http.authSource := None |}.

(** [req.apiKey] as [authenticateApiKeyOnly] sets it (no [orgId]). *)
Definition apiKeyOnlyInfo (k : ApiKey) : Http.ApiKeyInfo :=
  {| Http.keyId := id k;
     Http.keyName := name k;
     Http.scopes := scopes k;
     Http.projectIds := projectIds k;
     Http.workflowIds := workflowIds k;
     Http.keyOrgId := None |}.

(** [authenticateApiKeyOnly({ scope, resourceIdParam })], with the
    validation run at [now] and the usage update at [nowUsage]; a call on
    the store that throws, other than the usage update, ends in the outer
    [catch], which answers 500. *)
Definition authenticateApiKeyOnly (throws : StoreCall -> bool)
    (scope resourceIdParam : option string)
    (now nowUsage : Z) (db : Db) (req : Http.Request) : Db * Http.Outcome :=
  match extractApiKey req with
  | None => (db, Http.reject 401 "API Key required. Use X-API-Key header.")
  | Some apiKey =>
      let resourceId :=
        match resourceIdParam with
        | Some prm => if Js.truthy prm then Http.params req !! prm else None
        | None => None
        end in
      if validateApiKeyThrows sha256hex throws now db apiKey None
      then (db, Http.reject 500 "Authentication failed")
      else
      match validateApiKey sha256hex now db apiKey scope resourceId None with
      | (db1, Invalid err true) =>
          (db1, Http.Respond 429 (Http.mkErrorBody err [("retryAfter", "3600")]))
      | (db1, Invalid err false) => (db1, Http.reject 401 err)
      | (db1, Valid k) =>
          if throws FindOwner
          then (db1, Http.reject 500 "Authentication failed")
          else
          match findUsuario db1 (userId k) with
          | None => (db1, Http.reject 401 "API key owner not found")
          | Some u =>
              (if throws RecordUsage then db1
               else default db1
                      (updateApiKeyUsage nowUsage db1 (id k) (Http.ip req)),
               Http.Next (attach (Http.ctx req) (apiKeyOnlyUser u)
                            (Some (apiKeyOnlyInfo k)) "api_key" None))
          end
      end
  end.

End WithHash.

(** [requireScope(scope)] *)
Definition requireScope (scope : string) (req : Http.Request) : Http.Outcome :=
  if Js.strictEqO (Http.authMethod (Http.ctx req)) "jwt"
  then Http.Next (Http.ctx req)
  else
    match Http.apiKey (Http.ctx req) with
    | Some info =>
        if Js.includes (Http.scopes info) scope
        then Http.Next (Http.ctx req)
        else Http.reject 403 ("Missing required scope: " +:+ scope)
    | None => Http.reject 403 ("Missing required scope: " +:+ scope)
    end.

(** [checkWorkflowAccess(paramName)] *)
Definition checkWorkflowAccess (paramName : string) (req : Http.Request)
    : Http.Outcome :=
  if Js.strictEqO (Http.authMethod (Http.ctx req)) "jwt"
  then Http.Next (Http.ctx req)
  else
    let workflowId :=
      Js.orElse (Http.params req !! paramName) (Http.params req !! "id") in
    match Http.apiKey (Http.ctx req) with
    | None => Http.Next (Http.ctx req)
    | Some info =>
        match Http.workflowIds info with
        | [] => Http.Next (Http.ctx req)
        | _ :: _ =>
            match workflowId with
            | Some w =>
                if Js.includes (Http.workflowIds info) w
                then Http.Next (Http.ctx req)
                else Http.reject 403 "API key does not have access to this workflow"
            | None => Http.reject 403 "API key does not have access to this workflow"
            end
        end
    end.

End ApiKeyGuards.

(** ** API-key extraction and validation *)
Section ApiKeyValidation.
Import Store ApiKeyMiddleware.
Local Open Scope Z_scope.

Variable sha256hex : string -> string.

Lemma startsWith_split (s p : string) :
  Js.startsWith s p = true -> s = p +:+ Js.substringFrom (String.length p) s.
Proof.
  revert s. induction p as [|c p IH]; intros s; simpl; [reflexivity|].
  destruct s as [|d s]; [discriminate|].
  intros H. apply andb_true_iff in H as [Hc Hp].
  apply Ascii.eqb_eq in Hc. subst d.
  change (String c p +:+ Js.substringFrom (String.length p) s)
    with (String c (p +:+ Js.substringFrom (String.length p) s)).
  now rewrite <- (IH s Hp).
Qed.

Lemma hasValidPrefix_truthy (s : string) :
  hasValidPrefix s = true -> Js.truthy s = true.
Proof. destruct s; [discriminate|reflexivity]. Qed.

(** X1. The key [extractApiKey] returns always starts with one of the
    accepted prefixes and is the value of [X-API-Key] or the token of an
    [Authorization: Bearer] header; and a prefixed [X-API-Key] is returned
    whatever [Authorization] holds. *)
Theorem extractApiKey_sound :
  forall (req : Http.Request) (k : string),
    (extractApiKey req = Some k ->
       hasValidPrefix k = true
       /\ (Http.headers req !! "x-api-key" = Some k
           \/ Http.headers req !! "authorization" = Some ("Bearer " +:+ k)))
    /\ (Http.headers req !! "x-api-key" = Some k ->
        hasValidPrefix k = true ->
        extractApiKey req = Some k).
Proof.
  intros req k. unfold extractApiKey. split.
  - assert (match Http.headers req !! "authorization" with
               | Some authHeader =>
                   if Js.truthy authHeader && Js.startsWith authHeader "Bearer "
                   then if hasValidPrefix (Js.substringFrom 7 authHeader)
                        then Some (Js.substringFrom 7 authHeader) else None
                   else None
               | None => None
               end = Some k ->
               hasValidPrefix k = true
               /\ Http.headers req !! "authorization" = Some ("Bearer " +:+ k))
      as Hauth.
    { destruct (Http.headers req !! "authorization") as [a|];
        [|discriminate].
      destruct (Js.truthy a); cbn [andb]; [|discriminate].
      destruct (Js.startsWith a "Bearer ") eqn:Hs; [|discriminate].
      destruct (hasValidPrefix (Js.substringFrom 7 a)) eqn:Hp; [|discriminate].
      intros [= <-]. split; [exact Hp|].
      f_equal. exact (startsWith_split _ _ Hs). }
    destruct (Http.headers req !! "x-api-key") as [x|].
    + destruct (Js.truthy x && hasValidPrefix x) eqn:Hx.
      * intros [= <-]. apply andb_true_iff in Hx as [_ Hx]. auto.
      * intros H. destruct (Hauth H). auto.
    + intros H. destruct (Hauth H). auto.
  - intros Hx Hp. now rewrite Hx, Hp, (hasValidPrefix_truthy _ Hp).
Qed.

(** The whole of [validateApiKey] once the row of the hash is known. *)
Lemma validateApiKey_found (now : Z) (db : Db) (key : string)
    (requiredScope resourceId requestedOrgId : option string) (k : ApiKey) :
  findByHash db (hashApiKey sha256hex key) = Some k ->
  validateApiKey sha256hex now db key requiredScope resourceId requestedOrgId
  = if negb (isActive k) then (db, Invalid "API key is inactive" false)
    else if expired now k then (db, Invalid "API key has expired" false)
    else if orgMismatch requestedOrgId k
    then (db, Invalid "API key does not belong to the requested organization" false)
    else
      let db1 := if resetDue now k
                 then updateById db (id k) (setRateLimit 0 (Some (now + 3600000)))
                 else db in
      let k1 := if resetDue now k then setRateLimit 0 (rateLimitReset k) k else k in
      if rateLimit k <=? rateLimitUsed k1
      then (db1, Invalid "Rate limit exceeded" true)
      else if scopeMissing requiredScope k
      then (db1, Invalid ("Missing required scope: " +:+ default "" requiredScope) false)
      else if workflowDenied resourceId k
      then (db1, Invalid "API key does not have access to this workflow" false)
      else (db1, Valid k1).
Proof.
  intros Hfind. unfold validateApiKey. rewrite Hfind.
  destruct (negb (isActive k)); [reflexivity|].
  destruct (expired now k); [reflexivity|].
  destruct (orgMismatch requestedOrgId k); [reflexivity|].
  destruct (resetDue now k); reflexivity.
Qed.

Lemma findByHash_hash (db : Db) (h : string) (k : ApiKey) :
  findByHash db h = Some k -> keyHash k = h /\ In k (apiKeys db).
Proof.
  unfold findByHash. intros H. apply find_some in H as [Hin Heq].
  apply String.eqb_eq in Heq. auto.
Qed.

(** X2. A key that [validateApiKey] accepts is stored under the hash of the
    presented secret, is active, has not expired, is not bound to another
    organization than the requested one, is below its rate limit, carries
    the required scope, and allows the given workflow. *)
Theorem validateApiKey_accepts_only :
  forall (now : Z) (db db' : Db) (key : string)
         (requiredScope resourceId requestedOrgId : option string) (k : ApiKey),
    validateApiKey sha256hex now db key requiredScope resourceId requestedOrgId
      = (db', Valid k) ->
    keyHash k = hashApiKey sha256hex key
    /\ isActive k = true
    /\ (forall x, expiresAt k = Some x -> now <= x)
    /\ (forall o r, orgId k = Some o -> requestedOrgId = Some r ->
                    o <> "" -> r <> "" -> o = r)
    /\ rateLimitUsed k < rateLimit k
    /\ (forall s, requiredScope = Some s -> s <> "" -> In s (scopes k))
    /\ (forall w, resourceId = Some w -> w <> "" ->
                  workflowIds k = [] \/ In w (workflowIds k)).
Proof.
  intros now db db' key sc rid org k.
  destruct (findByHash db (hashApiKey sha256hex key)) as [k0|] eqn:Hfind.
  2:{ unfold validateApiKey. rewrite Hfind. discriminate. }
  rewrite (validateApiKey_found _ _ _ _ _ _ _ Hfind). cbv zeta.
  destruct (isActive k0) eqn:Ha; simpl; [|discriminate].
  destruct (expired now k0) eqn:He; [discriminate|].
  destruct (orgMismatch org k0) eqn:Ho; [discriminate|].
  destruct (_ <=? _) eqn:Hl; [discriminate|].
  destruct (scopeMissing sc k0) eqn:Hs; [discriminate|].
  destruct (workflowDenied rid k0) eqn:Hw; [discriminate|].
  intros [= _ <-].
  apply findByHash_hash in Hfind as [Hh _]. apply Z.leb_gt in Hl.
  assert (forall T (f : ApiKey -> T),
             (forall u r x, f (setRateLimit u r x) = f x) ->
             f (if resetDue now k0
                then setRateLimit 0 (rateLimitReset k0) k0 else k0) = f k0)
    as Hsame by (intros T f Hf; destruct (resetDue now k0); auto).
  rewrite (Hsame _ keyHash), (Hsame _ isActive), (Hsame _ expiresAt),
    (Hsame _ orgId), (Hsame _ rateLimit), (Hsame _ scopes),
    (Hsame _ workflowIds) by reflexivity.
  repeat split; auto.
  - intros x Hx. unfold expired in He. rewrite Hx in He.
    apply Z.ltb_ge in He. exact He.
  - intros o r Hk -> Hon Hrn. unfold orgMismatch in Ho. rewrite Hk in Ho.
    destruct o as [|a o]; [congruence|]. destruct r as [|b r]; [congruence|].
    cbn [Js.truthy andb] in Ho.
    apply negb_false_iff, String.eqb_eq in Ho. exact Ho.
  - intros s -> Hsn. unfold scopeMissing in Hs.
    destruct s as [|a s]; [congruence|]. cbn [Js.truthy andb] in Hs.
    apply negb_false_iff in Hs. now apply includes_In.
  - intros w -> Hwn. unfold workflowDenied in Hw.
    destruct w as [|a w]; [congruence|].
    destruct (workflowIds k0) as [|w0 ws]; [now left|]. right.
    cbn [Js.truthy andb length Nat.ltb Nat.leb] in Hw.
    apply negb_false_iff in Hw. now apply includes_In.
Qed.

End ApiKeyValidation.

(** A request with the key of [fiveDb] in [X-API-Key] and a JWT as Bearer
    token. *)
Definition fiveKeyRequest : Http.Request :=
  Http.mkRequest
    (<[ "authorization" := "Bearer a.b.c" ]> {[ "x-api-key" := "sk_live_1" ]})
    ∅ ∅ None Http.emptyContext.

(** [X-API-Key: sk_live_1] wins over a Bearer token. *)
Lemma extractApiKey_sound_witness :
  Http.headers fiveKeyRequest !! "x-api-key" = Some "sk_live_1"
  /\ ApiKeyMiddleware.extractApiKey fiveKeyRequest = Some "sk_live_1".
Proof.
  assert (Http.headers fiveKeyRequest !! "x-api-key" = Some "sk_live_1") as H
    by (vm_compute; reflexivity).
  split; [exact H|].
  exact (proj2 (extractApiKey_sound fiveKeyRequest "sk_live_1") H eq_refl).
Defined.

(** The key of [fiveDb], validated for the scope it has. *)
Lemma validateApiKey_accepts_only_witness :
  ApiKeyMiddleware.validateApiKey (fun k => k) 10 fiveDb "sk_live_1"
    (Some "resources:read") None None
  = (fiveDb, ApiKeyMiddleware.Valid fiveKey)
  /\ (forall s, Some "resources:read" = Some s -> s <> "" ->
                In s (Store.scopes fiveKey)).
Proof.
  assert (ApiKeyMiddleware.validateApiKey (fun k => k) 10 fiveDb "sk_live_1"
            (Some "resources:read") None None
          = (fiveDb, ApiKeyMiddleware.Valid fiveKey)) as H
    by (vm_compute; reflexivity).
  split; [exact H|].
  exact (proj1 (proj2 (proj2 (proj2 (proj2 (proj2
    (validateApiKey_accepts_only (fun k => k) 10%Z fiveDb fiveDb "sk_live_1"
       (Some "resources:read") None None fiveKey H))))))).
Defined.

(** ** What validation and usage recording write *)
Section ApiKeyTable.
Import Store ApiKeyMiddleware.
Local Open Scope Z_scope.

Variable sha256hex : string -> string.

(** The messages [validateApiKey] rejects with, the scope message apart. *)
Definition fixedRejections : list string :=
  [ "Invalid API key"; "API key is inactive"; "API key has expired";
    "API key does not belong to the requested organization";
    "Rate limit exceeded";
    "API key does not have access to this workflow" ].

(** X3. Every rejection of [validateApiKey] carries one of six fixed
    messages or "Missing required scope: " followed by the required scope,
    and the flag [rateLimited] is set exactly on "Rate limit exceeded". *)
Theorem validateApiKey_rejections :
  forall (now : Z) (db db' : Db) (key : string)
         (requiredScope resourceId requestedOrgId : option string)
         (err : string) (limited : bool),
    validateApiKey sha256hex now db key requiredScope resourceId requestedOrgId
      = (db', Invalid err limited) ->
    (limited = true <-> err = "Rate limit exceeded")
    /\ (In err fixedRejections
        \/ exists s, requiredScope = Some s
                     /\ err = "Missing required scope: " +:+ s).
Proof.
  intros now db db' key sc rid org err limited.
  destruct (findByHash db (hashApiKey sha256hex key)) as [k|] eqn:Hfind.
  - rewrite (validateApiKey_found _ _ _ _ _ _ _ _ Hfind). cbv zeta.
    destruct (negb (isActive k));
      [intros [= _ <- <-]; split; [split; discriminate|left; simpl; tauto]|].
    destruct (expired now k);
      [intros [= _ <- <-]; split; [split; discriminate|left; simpl; tauto]|].
    destruct (orgMismatch org k);
      [intros [= _ <- <-]; split; [split; discriminate|left; simpl; tauto]|].
    destruct (_ <=? _);
      [intros [= _ <- <-]; split; [split; reflexivity|left; simpl; tauto]|].
    destruct (scopeMissing sc k) eqn:Hs.
    + intros [= _ <- <-]. split; [split; discriminate|]. right.
      destruct sc as [s|]; [|discriminate]. exists s. split; reflexivity.
    + destruct (workflowDenied rid k); [|discriminate].
      intros [= _ <- <-]; split; [split; discriminate|left; simpl; tauto].
  - unfold validateApiKey. rewrite Hfind.
    intros [= _ <- <-]; split; [split; discriminate|left; simpl; tauto].
Qed.




(** X5. A key whose workflow allow-list is empty validates the same
    whatever resource id is given, and a key that is bound to no
    organization validates the same whatever organization is requested. *)
Theorem validateApiKey_unrestricted :
  forall (now : Z) (db : Db) (key : string)
         (requiredScope resourceId requestedOrgId : option string) (k : ApiKey),
    findByHash db (hashApiKey sha256hex key) = Some k ->
    (workflowIds k = [] ->
       validateApiKey sha256hex now db key requiredScope resourceId requestedOrgId
       = validateApiKey sha256hex now db key requiredScope None requestedOrgId)
    /\ (Js.truthyO (orgId k) = false ->
        validateApiKey sha256hex now db key requiredScope resourceId requestedOrgId
        = validateApiKey sha256hex now db key requiredScope resourceId None).
Proof.
  intros now db key sc rid org k Hfind.
  rewrite !(validateApiKey_found _ _ _ _ _ _ _ _ Hfind). split.
  - intros Hw. unfold workflowDenied. rewrite Hw. simpl.
    destruct rid as [r|]; [|reflexivity]. now rewrite andb_false_r.
  - intros Ho. unfold orgMismatch.
    destruct org as [r|]; [|reflexivity].
    destruct (orgId k) as [o|]; [|reflexivity]. simpl in Ho.
    now rewrite Ho, andb_false_r.
Qed.

Lemma findById_updateById (db : Db) (i j : string) (f : ApiKey -> ApiKey) :
  (forall x, id (f x) = id x) ->
  findById (updateById db i f) j
  = if String.eqb j i then f <$> findById db j else findById db j.
Proof.
  intros Hf. unfold findById, updateById. cbn [apiKeys].
  induction (apiKeys db) as [|x l IH]; simpl; [now destruct (String.eqb j i)|].
  destruct (String.eqb (id x) i) eqn:Exi.
  - rewrite Hf. destruct (String.eqb (id x) j) eqn:Exj.
    + apply String.eqb_eq in Exi, Exj. subst i.
      rewrite <- Exj, String.eqb_refl. reflexivity.
    + exact IH.
  - destruct (String.eqb (id x) j) eqn:Exj; [|exact IH].
    apply String.eqb_eq in Exj. subst j. now rewrite Exi.
Qed.

(** X6. [updateApiKeyUsage] fails exactly when no row has the id. When it
    succeeds, looking the id up afterwards gives the row with both counters
    one higher, the instant of this use, the address of this use (the
    address the row had, when this use has none), and a window-reset
    instant: the one it had, or one hour from now when it had none; the
    rows of every other id are found as before. *)
Theorem updateApiKeyUsage_lookup :
  forall (now : Z) (db : Db) (i : string) (ip : option string),
    (updateApiKeyUsage now db i ip = None <-> findById db i = None)
    /\ (forall db', updateApiKeyUsage now db i ip = Some db' ->
          exists k k',
            findById db i = Some k
            /\ findById db' i = Some k'
            /\ usageCount k' = usageCount k + 1
            /\ rateLimitUsed k' = rateLimitUsed k + 1
            /\ lastUsedAt k' = Some now
            /\ lastUsedIp k' = match ip with
                               | Some _ => ip
                               | None => lastUsedIp k
                               end
            /\ rateLimitReset k'
               = Some (default (now + 3600000) (rateLimitReset k))
            /\ keyHash k' = keyHash k
            /\ (forall j, j <> i -> findById db' j = findById db j)).
Proof using.
  intros now db i ip. unfold updateApiKeyUsage.
  destruct (findById db i) as [k|] eqn:Hk.
  - split; [split; discriminate|].
    intros db' [= <-]. exists k. eexists. split; [reflexivity|].
    split.
    { rewrite findById_updateById by reflexivity.
      rewrite String.eqb_refl, Hk. reflexivity. }
    cbn [recordUse usageCount rateLimitUsed lastUsedAt lastUsedIp
         rateLimitReset keyHash].
    repeat split.
    + now destruct (rateLimitReset k).
    + intros j Hj. rewrite findById_updateById by reflexivity.
      destruct (String.eqb_spec j i); [contradiction|reflexivity].
  - split; [split; intros _; reflexivity|]. discriminate.
Qed.

End ApiKeyTable.

(** An unknown key is rejected as invalid, without the rate-limit flag. *)
Lemma validateApiKey_rejections_witness :
  ApiKeyMiddleware.validateApiKey (fun k => k) 10 fiveDb "sk_unknown"
    None None None
  = (fiveDb, ApiKeyMiddleware.Invalid "Invalid API key" false)
  /\ In "Invalid API key" fixedRejections.
Proof.
  assert (ApiKeyMiddleware.validateApiKey (fun k => k) 10 fiveDb "sk_unknown"
            None None None
          = (fiveDb, ApiKeyMiddleware.Invalid "Invalid API key" false)) as H
    by (vm_compute; reflexivity).
  split; [exact H|].
  destruct (proj2 (validateApiKey_rejections (fun k => k) 10%Z fiveDb fiveDb
                     "sk_unknown" None None None "Invalid API key" false H))
    as [Hin | (s & Hs & _)]; [exact Hin|discriminate Hs].
Defined.


(** The key of [fiveDb] has no workflow allow-list. *)
Lemma validateApiKey_unrestricted_witness :
  ApiKeyMiddleware.validateApiKey (fun k => k) 10 fiveDb "sk_live_1"
    None (Some "wf-2") None
  = ApiKeyMiddleware.validateApiKey (fun k => k) 10 fiveDb "sk_live_1"
      None None None.
Proof.
  exact (proj1 (validateApiKey_unrestricted (fun k => k) 10%Z fiveDb
                  "sk_live_1" None (Some "wf-2") None fiveKey eq_refl)
               eq_refl).
Defined.

(** One use of the key of [fiveDb] from the address 10.0.0.7, then one
    without an address: the address of the first use stays. *)
Lemma updateApiKeyUsage_lookup_witness :
  exists db1 k1 db2 k2,
    ApiKeyMiddleware.updateApiKeyUsage 11 fiveDb "key-1" (Some "10.0.0.7")
    = Some db1
    /\ Store.findById db1 "key-1" = Some k1
    /\ Store.usageCount k1 = 1%Z
    /\ Store.rateLimitReset k1 = Some 1000%Z
    /\ Store.lastUsedIp k1 = Some "10.0.0.7"
    /\ ApiKeyMiddleware.updateApiKeyUsage 12 db1 "key-1" None = Some db2
    /\ Store.findById db2 "key-1" = Some k2
    /\ Store.usageCount k2 = 2%Z
    /\ Store.lastUsedIp k2 = Some "10.0.0.7".
Proof.
  destruct (ApiKeyMiddleware.updateApiKeyUsage 11 fiveDb "key-1"
              (Some "10.0.0.7")) as [db1|] eqn:E1; [|discriminate E1].
  destruct (proj2 (updateApiKeyUsage_lookup 11%Z fiveDb "key-1"
                     (Some "10.0.0.7")) db1 E1)
    as (k & k1 & Hk & Hk1 & Hu1 & _ & _ & Hip1 & Hr1 & _).
  vm_compute in Hk. injection Hk as <-.
  destruct (ApiKeyMiddleware.updateApiKeyUsage 12 db1 "key-1" None)
    as [db2|] eqn:E2.
  2:{ apply (proj1 (updateApiKeyUsage_lookup 12%Z db1 "key-1" None)) in E2.
      congruence. }
  destruct (proj2 (updateApiKeyUsage_lookup 12%Z db1 "key-1" None) db2 E2)
    as (k' & k2 & Hk' & Hk2 & Hu2 & _ & _ & Hip2 & _).
  rewrite Hk1 in Hk'. injection Hk' as <-.
  exists db1, k1, db2, k2. repeat split; try assumption.
  - rewrite Hu2, Hu1. reflexivity.
  - rewrite Hip2. exact Hip1.
Defined.

(** ** Hybrid authentication with an API key, and the guards after it *)
Section HybridWithKey.
Import Store ApiKeyMiddleware ApiKeyGuards.
Local Open Scope Z_scope.

Variable sha256hex : string -> string.

(** [resourceIdParam ? req.params[resourceIdParam] : null] *)
Definition resourceIdOf (resourceIdParam : option string) (req : Http.Request)
    : option string :=
  match resourceIdParam with
  | Some prm => if Js.truthy prm then Http.params req !! prm else None
  | None => None
  end.

(** [req.headers['x-organization-id'] || null] *)
Definition requestedOrgOf (req : Http.Request) : option string :=
  Js.orElse (Http.headers req !! "x-organization-id") None.

(** The API-key branch of [authenticateHybrid]. *)
Lemma hybrid_key_branch
    (jwtVerify : string -> string -> option AuthMiddleware.LocalClaims)
    (env : AuthMiddleware.Env) (throws : StoreCall -> bool)
    (scope resourceIdParam : option string)
    (now nowUsage : Z) (db : Db) (req : Http.Request) (key : string) :
  extractApiKey req = Some key ->
  authenticateHybrid sha256hex jwtVerify env throws scope resourceIdParam
    now nowUsage db req
  = if validateApiKeyThrows sha256hex throws now db key (requestedOrgOf req)
    then (db, Http.reject 500 "Authentication failed")
    else
    match validateApiKey sha256hex now db key scope
            (resourceIdOf resourceIdParam req) (requestedOrgOf req) with
    | (db1, Invalid err true) =>
        (db1, Http.Respond 429 (Http.mkErrorBody err [("retryAfter", "3600")]))
    | (db1, Invalid err false) => (db1, Http.reject 401 err)
    | (db1, Valid k) =>
        if throws FindOwner
        then (db1, Http.reject 500 "Authentication failed")
        else
        match findUsuario db1 (userId k) with
        | None => (db1, Http.reject 401 "API key owner not found")
        | Some u =>
            let apiKeyOrgId := Js.orElse (orgId k) (requestedOrgOf req) in
            (if throws RecordUsage then db1
             else default db1
                    (updateApiKeyUsage nowUsage db1 (id k) (Http.ip req)),
             Http.Next (attach (Http.ctx req) (apiKeyUser u apiKeyOrgId)
                          (Some (apiKeyInfo k)) "api_key" apiKeyOrgId))
        end
    end.
Proof. intros H. unfold authenticateHybrid. now rewrite H. Qed.

Lemma validateApiKeyThrows_cases (throws : StoreCall -> bool) (now : Z)
    (db : Db) (key : string) (requestedOrgId : option string) :
  validateApiKeyThrows sha256hex throws now db key requestedOrgId = true ->
  throws FindApiKey = true \/ throws ResetRateLimit = true.
Proof.
  unfold validateApiKeyThrows. intros H.
  apply orb_true_iff in H as [H|H]; [now left|right].
  destruct (findByHash _ _); [|discriminate].
  now apply andb_true_iff in H as [_ H].
Qed.

(** X7. When a request presents an API key, [authenticateHybrid] decides
    on the key alone: the outcome does not depend on what the verification
    of a Bearer JWT would give, and it is a 401, a 429, the 500
    "Authentication failed" of the outer [catch], or [next()] with
    [authMethod = 'api_key']. The 500 is answered only when a call on the
    store other than the usage update throws, and always when the lookup
    of the key throws; then the table is left as it was. *)
Theorem hybrid_key_first :
  forall (jwtVerify1 jwtVerify2 : string -> string -> option AuthMiddleware.LocalClaims)
         (env1 env2 : AuthMiddleware.Env) (throws : StoreCall -> bool)
         (scope resourceIdParam : option string)
         (now nowUsage : Z) (db : Db) (req : Http.Request) (key : string),
    extractApiKey req = Some key ->
    authenticateHybrid sha256hex jwtVerify1 env1 throws scope resourceIdParam
      now nowUsage db req
    = authenticateHybrid sha256hex jwtVerify2 env2 throws scope resourceIdParam
        now nowUsage db req
    /\ let r := authenticateHybrid sha256hex jwtVerify1 env1 throws scope
                  resourceIdParam now nowUsage db req in
       ((exists body, snd r = Http.Respond 401 body)
        \/ (exists body, snd r = Http.Respond 429 body)
        \/ (snd r = Http.reject 500 "Authentication failed"
            /\ (throws FindApiKey = true \/ throws ResetRateLimit = true
                \/ throws FindOwner = true))
        \/ (exists c, snd r = Http.Next c
                      /\ Http.authMethod c = Some "api_key"))
       /\ (throws FindApiKey = true ->
           r = (db, Http.reject 500 "Authentication failed")).
Proof.
  intros jv1 jv2 env1 env2 throws scope prm now nowUsage db req key Hx.
  rewrite !(hybrid_key_branch _ _ _ _ _ _ _ _ _ _ Hx). split; [reflexivity|].
  cbv zeta. split.
  - destruct (validateApiKeyThrows _ _ _ _ _ _) eqn:Ht.
    { right. right. left. split; [reflexivity|].
      destruct (validateApiKeyThrows_cases _ _ _ _ _ Ht); auto. }
    destruct (validateApiKey _ _ _ _ _ _ _) as [db1 [err [|]|k]]; cbn [snd].
    + right. left. eauto.
    + left. unfold Http.reject. eauto.
    + destruct (throws FindOwner) eqn:Hfo; cbn [snd].
      { right. right. left. auto. }
      destruct (findUsuario db1 (userId k)); cbn [snd].
      * right. right. right. eexists. split; reflexivity.
      * left. unfold Http.reject. eauto.
  - intros Hf. unfold validateApiKeyThrows. now rewrite Hf.
Qed.



(** X9. The organization of a request let through with an API key is the
    one the key is bound to; a non-empty [X-Organization-Id] on such a
    request names that same organization; and for a key bound to none, it
    is whatever organization the header names. *)
Theorem hybrid_key_org :
  forall (jwtVerify : string -> string -> option AuthMiddleware.LocalClaims)
         (env : AuthMiddleware.Env) (throws : StoreCall -> bool)
    (scope resourceIdParam : option string)
         (now nowUsage : Z) (db db' : Db) (req : Http.Request) (key : string)
         (c : Http.Context),
    extractApiKey req = Some key ->
    authenticateHybrid sha256hex jwtVerify env throws scope resourceIdParam
      now nowUsage db req = (db', Http.Next c) ->
    exists k u,
      findByHash db (hashApiKey sha256hex key) = Some k
      /\ Http.user c = Some u
      /\ (Http.scopes <$> Http.apiKey c) = Some (scopes k)
      /\ (Js.truthyO (orgId k) = true ->
            Http.orgId u = orgId k
            /\ Http.org c = orgId k
            /\ (forall r, Http.headers req !! "x-organization-id" = Some r ->
                          r <> "" -> orgId k = Some r))
      /\ (Js.truthyO (orgId k) = false ->
            Http.orgId u = requestedOrgOf req).
Proof.
  intros jwtVerify env throws scope prm now nowUsage db db' req key c Hx.
  rewrite (hybrid_key_branch _ _ _ _ _ _ _ _ _ _ Hx).
  destruct (validateApiKeyThrows _ _ _ _ _ _); [discriminate|].
  destruct (findByHash db (hashApiKey sha256hex key)) as [k0|] eqn:Hfind.
  2:{ unfold validateApiKey. rewrite Hfind. discriminate. }
  rewrite (validateApiKey_found _ _ _ _ _ _ _ _ Hfind). cbv zeta.
  destruct (negb (isActive k0)); [discriminate|].
  destruct (expired now k0); [discriminate|].
  destruct (orgMismatch (requestedOrgOf req) k0) eqn:Ho; [discriminate|].
  set (k1 := if resetDue now k0
             then setRateLimit 0 (rateLimitReset k0) k0 else k0).
  assert (orgId k1 = orgId k0 /\ scopes k1 = scopes k0 /\ userId k1 = userId k0)
    as (Horg & Hsc & Hu) by (subst k1; destruct (resetDue now k0); repeat split).
  destruct (_ <=? _); [discriminate|].
  destruct (scopeMissing scope k0); [discriminate|].
  destruct (workflowDenied _ k0); [discriminate|].
  destruct (throws FindOwner); [discriminate|].
  destruct (findUsuario _ (userId k1)) as [u|]; [|discriminate].
  intros [= _ <-]. exists k0. eexists. split; [reflexivity|].
  split; [reflexivity|]. cbn [attach Http.apiKey Http.user Http.org
                              apiKeyUser Http.orgId apiKeyInfo Http.scopes].
  rewrite Horg. split; [simpl; now rewrite Hsc|]. split.
  - intros Ht. unfold Js.orElse at 1 2 3. rewrite !Ht.
    split; [reflexivity|]. split; [reflexivity|].
    intros r Hr Hne. unfold orgMismatch, requestedOrgOf in Ho.
    rewrite Hr in Ho. destruct r as [|a r]; [congruence|].
    unfold Js.orElse in Ho. cbn [Js.truthyO Js.truthy] in Ho.
    destruct (orgId k0) as [o|]; [|discriminate].
    cbn [Js.truthyO] in Ht. rewrite Ht in Ho. cbn [andb] in Ho.
    apply negb_false_iff, String.eqb_eq in Ho. now subst.
  - intros Hf. unfold Js.orElse at 1. now rewrite Hf.
Qed.

End HybridWithKey.

Section GuardsAfterHybrid.
Import Store ApiKeyMiddleware ApiKeyGuards.
Local Open Scope Z_scope.

Variable sha256hex : string -> string.

(** Two outcomes that decide alike: the same rejection, or [next()] for
    the same principal with the same key restrictions. *)
Definition sameDecision (a b : Http.Outcome) : Prop :=
  match a, b with
  | Http.Respond s body, Http.Respond s' body' => s = s' /\ body = body'
  | Http.Next c, Http.Next c' =>
      Http.authMethod c = Http.authMethod c'
      /\ (Http.id <$> Http.user c) = (Http.id <$> Http.user c')
      /\ (Http.roles <$> Http.user c) = (Http.roles <$> Http.user c')
      /\ (Http.scopes <$> Http.apiKey c) = (Http.scopes <$> Http.apiKey c')
      /\ (Http.workflowIds <$> Http.apiKey c)
         = (Http.workflowIds <$> Http.apiKey c')
  | _, _ => False
  end.

(** X10. [authenticateApiKeyOnly] rejects every request from which no API
    key can be extracted, whatever Bearer token it carries; and on a
    request with an API key and no [X-Organization-Id] it decides as
    [authenticateHybrid] does and leaves the same table. *)
Theorem apiKeyOnly_and_hybrid :
  forall (jwtVerify : string -> string -> option AuthMiddleware.LocalClaims)
         (env : AuthMiddleware.Env) (throws : StoreCall -> bool)
    (scope resourceIdParam : option string)
         (now nowUsage : Z) (db : Db) (req : Http.Request),
    (extractApiKey req = None ->
       authenticateApiKeyOnly sha256hex throws scope resourceIdParam now nowUsage db req
       = (db, Http.reject 401 "API Key required. Use X-API-Key header."))
    /\ (forall key,
          extractApiKey req = Some key ->
          Js.truthyO (Http.headers req !! "x-organization-id") = false ->
          let a := authenticateApiKeyOnly sha256hex throws scope resourceIdParam
                     now nowUsage db req in
          let h := authenticateHybrid sha256hex jwtVerify env throws scope
                     resourceIdParam now nowUsage db req in
          fst a = fst h /\ sameDecision (snd a) (snd h)).
Proof.
  intros jwtVerify env throws scope prm now nowUsage db req. split.
  - intros Hx. unfold authenticateApiKeyOnly. now rewrite Hx.
  - intros key Hx Horg a h. subst a h.
    rewrite (hybrid_key_branch sha256hex _ _ _ _ _ _ _ _ _ _ Hx).
    unfold authenticateApiKeyOnly. rewrite Hx.
    fold (resourceIdOf prm req).
    assert (requestedOrgOf req = None) as ->
      by (unfold requestedOrgOf, Js.orElse; now rewrite Horg).
    destruct (validateApiKeyThrows _ _ _ _ _ _);
      [cbn [fst snd sameDecision]; repeat split|].
    destruct (validateApiKey _ _ _ _ _ _ _) as [db1 [err [|]|k]];
      cbn [fst snd sameDecision]; try (repeat split; fail).
    destruct (throws FindOwner); [cbn [fst snd sameDecision]; repeat split|].
    destruct (findUsuario db1 (userId k)); cbn [fst snd sameDecision];
      repeat split.
Qed.

Lemma validateApiKey_valid_checks (now : Z) (db db' : Db) (key : string)
    (requiredScope resourceId requestedOrgId : option string) (k : ApiKey) :
  validateApiKey sha256hex now db key requiredScope resourceId requestedOrgId
    = (db', Valid k) ->
  scopeMissing requiredScope k = false /\ workflowDenied resourceId k = false.
Proof.
  destruct (findByHash db (hashApiKey sha256hex key)) as [k0|] eqn:Hfind.
  2:{ unfold validateApiKey. rewrite Hfind. discriminate. }
  rewrite (validateApiKey_found _ _ _ _ _ _ _ _ Hfind). cbv zeta.
  destruct (negb (isActive k0)); [discriminate|].
  destruct (expired now k0); [discriminate|].
  destruct (orgMismatch requestedOrgId k0); [discriminate|].
  destruct (_ <=? _); [discriminate|].
  destruct (scopeMissing requiredScope k0) eqn:Hs; [discriminate|].
  destruct (workflowDenied resourceId k0) eqn:Hw; [discriminate|].
  intros [= _ <-]. destruct (resetDue now k0); auto.
Qed.

(** What [authenticateHybrid] attaches when it lets a request through:
    in the JWT branch the method ['jwt'], in the API-key branch the key
    that passed the checks. *)
Lemma hybrid_next
    (jwtVerify : string -> string -> option AuthMiddleware.LocalClaims)
    (env : AuthMiddleware.Env) (throws : StoreCall -> bool)
    (scope resourceIdParam : option string)
    (now nowUsage : Z) (db db' : Db) (req : Http.Request) (c : Http.Context) :
  authenticateHybrid sha256hex jwtVerify env throws scope resourceIdParam
    now nowUsage db req = (db', Http.Next c) ->
  Http.authMethod c = Some "jwt"
  \/ exists k,
       Http.authMethod c = Some "api_key"
       /\ Http.apiKey c = Some (apiKeyInfo k)
       /\ scopeMissing scope k = false
       /\ workflowDenied (resourceIdOf resourceIdParam req) k = false.
Proof.
  destruct (extractApiKey req) as [key|] eqn:Hx.
  - rewrite (hybrid_key_branch sha256hex _ _ _ _ _ _ _ _ _ _ Hx).
    destruct (validateApiKeyThrows _ _ _ _ _ _); [discriminate|].
    destruct (validateApiKey _ _ _ _ _ _ _) as [db1 [err [|]|k]] eqn:Hv;
      try discriminate.
    destruct (throws FindOwner); [discriminate|].
    destruct (findUsuario db1 (userId k)); [|discriminate].
    intros [= _ <-]. right. exists k.
    destruct (validateApiKey_valid_checks _ _ _ _ _ _ _ _ Hv). auto.
  - unfold authenticateHybrid. rewrite Hx.
    destruct (Http.headers req !! "authorization") as [a|]; [|discriminate].
    destruct (Js.truthy a && Js.startsWith a "Bearer "); [|discriminate].
    destruct (AuthMiddleware.verifyAccessToken _ _ _); [discriminate|].
    destruct (effectiveOrg _ _ _); [|discriminate].
    intros [= _ <-]. now left.
Qed.

(** X11. A request that [authenticateHybrid({ scope })] lets through
    passes [requireScope(scope)] for the same non-empty scope. *)
Theorem requireScope_after_hybrid :
  forall (jwtVerify : string -> string -> option AuthMiddleware.LocalClaims)
         (env : AuthMiddleware.Env) (throws : StoreCall -> bool)
         (scope : string)
         (resourceIdParam : option string)
         (now nowUsage : Z) (db db' : Db) (req : Http.Request) (c : Http.Context),
    scope <> "" ->
    authenticateHybrid sha256hex jwtVerify env throws (Some scope) resourceIdParam
      now nowUsage db req = (db', Http.Next c) ->
    requireScope scope (ApiKeysRoutes.withContext req c) = Http.Next c.
Proof.
  intros jwtVerify env throws scope prm now nowUsage db db' req c Hne H.
  unfold requireScope. cbn [ApiKeysRoutes.withContext Http.ctx].
  destruct (hybrid_next _ _ _ _ _ _ _ _ _ _ _ H)
    as [-> | (k & -> & -> & Hs & _)]; [reflexivity|].
  cbn [Js.strictEqO]. change (String.eqb "api_key" "jwt") with false. cbv iota.
  unfold scopeMissing in Hs. destruct scope as [|a s]; [congruence|].
  cbn [Js.truthy andb] in Hs. apply negb_false_iff in Hs.
  cbn [apiKeyInfo Http.scopes]. now rewrite Hs.
Qed.

(** X12. A request that [authenticateHybrid({ resourceIdParam })] lets
    through, and that has a non-empty path parameter of that name, passes
    [checkWorkflowAccess] for the same parameter name. *)
Theorem checkWorkflowAccess_after_hybrid :
  forall (jwtVerify : string -> string -> option AuthMiddleware.LocalClaims)
         (env : AuthMiddleware.Env) (throws : StoreCall -> bool)
         (scope : option string)
         (paramName workflowId : string)
         (now nowUsage : Z) (db db' : Db) (req : Http.Request) (c : Http.Context),
    paramName <> "" ->
    Http.params req !! paramName = Some workflowId ->
    workflowId <> "" ->
    authenticateHybrid sha256hex jwtVerify env throws scope (Some paramName)
      now nowUsage db req = (db', Http.Next c) ->
    checkWorkflowAccess paramName (ApiKeysRoutes.withContext req c)
    = Http.Next c.
Proof.
  intros jwtVerify env throws scope p w now nowUsage db db' req c Hp Hw Hwn H.
  unfold checkWorkflowAccess.
  cbn [ApiKeysRoutes.withContext Http.ctx Http.params].
  destruct (hybrid_next _ _ _ _ _ _ _ _ _ _ _ H)
    as [-> | (k & -> & -> & _ & Hd)]; [reflexivity|].
  cbn [Js.strictEqO]. change (String.eqb "api_key" "jwt") with false. cbv iota.
  unfold resourceIdOf in Hd. destruct p as [|a p]; [congruence|].
  cbn [Js.truthy] in Hd. rewrite Hw in Hd. rewrite Hw.
  destruct w as [|b w]; [congruence|].
  unfold workflowDenied in Hd. cbn [Js.truthy andb] in Hd.
  unfold Js.orElse. cbn [Js.truthyO Js.truthy apiKeyInfo Http.workflowIds].
  destruct (workflowIds k) as [|w0 ws]; [reflexivity|].
  cbn [length Nat.ltb Nat.leb andb] in Hd. apply negb_false_iff in Hd.
  now rewrite Hd.
Qed.

End GuardsAfterHybrid.

(** A request for the workflow ["wf-1"] with the key of [fiveDb]. *)
Definition fiveRequest : Http.Request :=
  Http.mkRequest {[ "x-api-key" := "sk_live_1" ]}
    {[ "workflowId" := "wf-1" ]} ∅ (Some "10.0.0.7") Http.emptyContext.

(** [authenticateHybrid] on the table [fiveDb], validating at the instant
    10 and recording the use at 11, with no JWT accepted. *)
Definition fiveHybrid (scope resourceIdParam : option string)
    (req : Http.Request) : Store.Db * Http.Outcome :=
  ApiKeyMiddleware.authenticateHybrid (fun k => k) (fun _ _ => None) bypassEnv
    Store.noThrow scope resourceIdParam 10 11 fiveDb req.

(** The context an outcome attached. *)
Definition contextOf (out : Http.Outcome) : Http.Context :=
  match out with
  | Http.Next c => c
  | Http.Respond _ _ => Http.emptyContext
  end.

(** The lookup of the key throws, every other call answers. *)
Definition lookupThrows (call : Store.StoreCall) : bool :=
  match call with
  | Store.FindApiKey => true
  | _ => false
  end.

(** The key in [X-API-Key] decides, with a JWT that would verify or not;
    and when the lookup of the key throws the answer is the 500. *)
Lemma hybrid_key_first_witness :
  ApiKeyMiddleware.authenticateHybrid (fun k => k) (fun _ _ => None) bypassEnv
    Store.noThrow None None 10 11 fiveDb fiveKeyRequest
  = ApiKeyMiddleware.authenticateHybrid (fun k => k)
      (fun _ _ => Some anaClaims) bypassEnv Store.noThrow None None 10 11
      fiveDb fiveKeyRequest
  /\ ApiKeyMiddleware.authenticateHybrid (fun k => k) (fun _ _ => None)
       bypassEnv lookupThrows None None 10 11 fiveDb fiveKeyRequest
     = (fiveDb, Http.reject 500 "Authentication failed").
Proof.
  split.
  - exact (proj1 (hybrid_key_first (fun k => k) (fun _ _ => None)
                    (fun _ _ => Some anaClaims) bypassEnv bypassEnv
                    Store.noThrow None None
                    10%Z 11%Z fiveDb fiveKeyRequest "sk_live_1"
                    ltac:(vm_compute; reflexivity))).
  - exact (proj2 (proj2 (hybrid_key_first (fun k => k) (fun _ _ => None)
                    (fun _ _ => None) bypassEnv bypassEnv
                    lookupThrows None None
                    10%Z 11%Z fiveDb fiveKeyRequest "sk_live_1"
                    ltac:(vm_compute; reflexivity))) eq_refl).
Defined.



(** The key of [fiveDb] is bound to ["org-a"]: so is the request. *)
Lemma hybrid_key_org_witness :
  exists k u,
    Store.findByHash fiveDb "sk_live_1" = Some k
    /\ Http.user (contextOf (snd (fiveHybrid None None fiveRequest))) = Some u
    /\ Http.orgId u = Some "org-a".
Proof.
  destruct (hybrid_key_org (fun k => k) (fun _ _ => None) bypassEnv
              Store.noThrow None None
              10%Z 11%Z fiveDb (fst (fiveHybrid None None fiveRequest))
              fiveRequest "sk_live_1"
              (contextOf (snd (fiveHybrid None None fiveRequest)))
              ltac:(vm_compute; reflexivity) ltac:(vm_compute; reflexivity))
    as (k & u & Hk & Hu & _ & Hbound & _).
  exists k, u. split; [exact Hk|]. split; [exact Hu|].
  vm_compute in Hk. injection Hk as <-.
  exact (proj1 (Hbound eq_refl)).
Defined.

(** Without [X-Organization-Id] both middlewares let [fiveRequest]
    through and record its use alike. *)
Lemma apiKeyOnly_and_hybrid_witness :
  fst (ApiKeyGuards.authenticateApiKeyOnly (fun k => k) Store.noThrow
         None None 10 11 fiveDb fiveRequest)
  = fst (fiveHybrid None None fiveRequest).
Proof.
  exact (proj1 (proj2 (apiKeyOnly_and_hybrid (fun k => k) (fun _ _ => None)
                         bypassEnv Store.noThrow None None 10%Z 11%Z fiveDb
                         fiveRequest)
                      "sk_live_1" ltac:(vm_compute; reflexivity)
                      ltac:(vm_compute; reflexivity))).
Defined.

(** [fiveRequest], let through for ["resources:read"], passes the guard of
    that scope. *)
Lemma requireScope_after_hybrid_witness :
  let c := contextOf (snd (fiveHybrid (Some "resources:read") None fiveRequest)) in
  ApiKeyGuards.requireScope "resources:read"
    (ApiKeysRoutes.withContext fiveRequest c) = Http.Next c.
Proof.
  cbv zeta.
  apply (requireScope_after_hybrid (fun k => k) (fun _ _ => None) bypassEnv
           Store.noThrow "resources:read" None 10%Z 11%Z fiveDb
           (fst (fiveHybrid (Some "resources:read") None fiveRequest))).
  - discriminate.
  - vm_compute. reflexivity.
Defined.

(** [fiveRequest], let through with the workflow of its path checked,
    passes the workflow guard. *)
Lemma checkWorkflowAccess_after_hybrid_witness :
  let c := contextOf (snd (fiveHybrid None (Some "workflowId") fiveRequest)) in
  ApiKeyGuards.checkWorkflowAccess "workflowId"
    (ApiKeysRoutes.withContext fiveRequest c) = Http.Next c.
Proof.
  cbv zeta.
  apply (checkWorkflowAccess_after_hybrid (fun k => k) (fun _ _ => None)
           bypassEnv Store.noThrow None "workflowId" "wf-1" 10%Z 11%Z fiveDb
           (fst (fiveHybrid None (Some "workflowId") fiveRequest))).
  - discriminate.
  - vm_compute. reflexivity.
  - discriminate.
  - vm_compute. reflexivity.
Defined.

(** ** middleware/auth.middleware.js: the guards *)
Module AuthGuards.

(** An array of strings in the text of a response body. *)
Definition joined (xs : list string) : string := String.concat "," xs.

(** [authorize(...allowedRoles)]; [req.user.roles] is an array for every
    principal the middlewares attach, so [req.user.roles || [req.user.role]]
    is that array. *)
Definition authorize (allowedRoles : list string) (req : Http.Request)
    : Http.Outcome :=
  match Http.user (Http.ctx req) with
  | None => Http.reject 401 "Authentication required"
  | Some u =>
      let userRoles := Http.roles u in
      let hasRole :=
        existsb (fun role => Js.includes userRoles role) allowedRoles in
      if negb hasRole
      then Http.Respond 403
             (Http.mkErrorBody "Insufficient permissions"
                [("required", joined allowedRoles); ("current", joined userRoles)])
      else Http.Next (Http.ctx req)
  end.

(** [requireAuthSource(source)] *)
Definition requireAuthSource (source : string) (req : Http.Request)
    : Http.Outcome :=
  match Http.user (Http.ctx req) with
  | None => Http.reject 401 "Authentication required"
  | Some u =>
      if negb (String.eqb source "any")
         && negb (Js.strictEqO (Http.authSource u) source)
      then Http.Respond 403
             (Http.mkErrorBody
                ("This endpoint requires " +:+ source +:+ " authentication")
                match Http.authSource u with
                | Some a => [("current", a)]
                | None => []
                end)
      else Http.Next (Http.ctx req)
  end.

(** [requireOrgContext] *)
Definition requireOrgContext (req : Http.Request) : Http.Outcome :=
  match Http.user (Http.ctx req) with
  | None => Http.reject 401 "Authentication required"
  | Some u =>
      if negb (Js.truthyO (Http.orgId u))
      then Http.Respond 403
             (Http.mkErrorBody "Organization context required"
                [("hint", "User must be associated with an organization")])
      else Http.Next (Http.ctx req)
  end.

End AuthGuards.

(** ** utils/tenant-context.js: the helpers *)
Module TenantHelpers.

(** [isTahUser] *)
Definition isTahUser (req : Http.Request) : bool :=
  Js.strictEqO (Http.user (Http.ctx req) ≫= Http.authSource) "tah".

(** The predicate given to [permissions.some] in [hasPermission]. *)
Definition permissionMatches (permission p : string) : bool :=
  if String.eqb p "*" || String.eqb p "*:*" then true
  else if String.eqb p permission then true
  else
    let category := default "" (Js.first (Js.split ":" permission)) in
    if String.eqb p (category +:+ ":*") then true else false.

(** [hasPermission] *)
Definition hasPermission (req : Http.Request) (permission : string) : bool :=
  match Http.user (Http.ctx req) with
  | Some u =>
      if Js.strictEqO (Http.authSource u) "tah"
      then existsb (permissionMatches permission)
             (default [] (Http.permissions u))
      else true
  | None => true
  end.

(** [hasOrgAccess]; a principal without an [orgIds] array has the empty
    one here, for which it answers [false] as well. *)
Definition hasOrgAccess (req : Http.Request) (targetOrgId : string) : bool :=
  match Http.user (Http.ctx req) with
  | Some u => Js.includes (Http.orgIds u) targetOrgId
  | None => false
  end.

(** A row as [belongsToTenant] reads it. *)
Record TenantRecord : Type := mkTenantRecord {
  r_orgId : option string;
  r_userId : option string
}.

(** [buildTenantFilter(context, {}, { requireOrg, requireUser })]: the
    [orgId] and the [userId] the filter asks for. *)
Definition buildTenantFilter (context : TenantContext.TenantCtx)
    (requireOrg requireUser : bool) : option string * option string :=
  (if Js.truthyO (TenantContext.orgId context) && requireOrg
   then TenantContext.orgId context else None,
   if Js.truthyO (TenantContext.userId context) && requireUser
   then TenantContext.userId context else None).

(** Whether a row satisfies such a filter. *)
Definition passesFilter (f : option string * option string)
    (r : TenantRecord) : bool :=
  match fst f with Some o => Js.strictEqO (r_orgId r) o | None => true end &&
  match snd f with Some u => Js.strictEqO (r_userId r) u | None => true end.

(** [belongsToTenant(record, context, { checkUser })] for a record and a
    context that are there. *)
Definition belongsToTenant (record : TenantRecord)
    (context : TenantContext.TenantCtx) (checkUser : bool) : bool :=
  if Js.truthyO (TenantContext.orgId context) && Js.truthyO (r_orgId record)
     && negb (bool_decide (r_orgId record = TenantContext.orgId context))
  then false
  else if checkUser && Js.truthyO (TenantContext.userId context)
          && Js.truthyO (r_userId record)
          && negb (bool_decide (r_userId record = TenantContext.userId context))
  then false
  else true.

End TenantHelpers.

(** ** Role, source and permission guards *)
Section Guards.
Import AuthConfig AuthMiddleware AuthGuards TenantHelpers.

(** X13. [authorize] lets an authenticated principal through exactly when
    one of the allowed roles is among its roles (so never for an empty list
    of allowed roles, and never for a principal without roles); without a
    principal it answers 401. *)
Theorem authorize_admits :
  forall (allowedRoles : list string) (req : Http.Request),
    (Http.user (Http.ctx req) = None ->
       authorize allowedRoles req = Http.reject 401 "Authentication required")
    /\ (forall u, Http.user (Http.ctx req) = Some u ->
          (authorize allowedRoles req = Http.Next (Http.ctx req)
           <-> exists role, In role allowedRoles /\ In role (Http.roles u))
          /\ (authorize allowedRoles req <> Http.Next (Http.ctx req) ->
              exists body, authorize allowedRoles req = Http.Respond 403 body)).
Proof.
  intros allowed req. unfold authorize. split; [now intros ->|].
  intros u ->. cbv zeta.
  destruct (existsb _ allowed) eqn:Hex; cbn [negb].
  - split; [|congruence]. split; [intros _|reflexivity].
    apply existsb_exists in Hex as [role [Hin Hr]].
    exists role. split; [exact Hin|]. now apply includes_In.
  - split; [|eauto]. split; [discriminate|].
    intros [role [Hin Hr]].
    assert (existsb (fun role => Js.includes (Http.roles u) role) allowed = true)
      as Hex'.
    { apply existsb_exists. exists role. split; [exact Hin|].
      now apply includes_In. }
    congruence.
Qed.

Lemma hybrid_next_user (sha256hex : string -> string)
    (jwtVerify : string -> string -> option LocalClaims)
    (env : Env) (throws : Store.StoreCall -> bool)
    (scope resourceIdParam : option string)
    (now nowUsage : Z) (db db' : Store.Db) (req : Http.Request)
    (c : Http.Context) :
  ApiKeyMiddleware.authenticateHybrid sha256hex jwtVerify env throws scope
    resourceIdParam now nowUsage db req = (db', Http.Next c) ->
  exists u, Http.user c = Some u /\ Http.authSource u = None.
Proof.
  unfold ApiKeyMiddleware.authenticateHybrid.
  destruct (ApiKeyMiddleware.extractApiKey req) as [key|].
  - destruct (ApiKeyMiddleware.validateApiKeyThrows _ _ _ _ _ _);
      [discriminate|].
    destruct (ApiKeyMiddleware.validateApiKey _ _ _ _ _ _ _)
      as [db1 [err [|]|k]]; try discriminate.
    destruct (throws Store.FindOwner); [discriminate|].
    destruct (Store.findUsuario db1 (Store.userId k)); [|discriminate].
    intros [= _ <-]. eexists. split; reflexivity.
  - destruct (Http.headers req !! "authorization") as [a|]; [|discriminate].
    destruct (Js.truthy a && Js.startsWith a "Bearer "); [|discriminate].
    destruct (verifyAccessToken _ _ _); [discriminate|].
    destruct (ApiKeyMiddleware.effectiveOrg _ _ _); [|discriminate].
    intros [= _ <-]. eexists. split; reflexivity.
Qed.

(** X14. The principal [authenticateHybrid] attaches, for a JWT as for an
    API key, has no [authSource]: after it [requireAuthSource(source)] lets
    the request through only for the source ['any'], while
    [getTenantContext] reports the source ['local']. *)
Theorem requireAuthSource_after_hybrid :
  forall (sha256hex : string -> string)
         (jwtVerify : string -> string -> option LocalClaims)
         (env : Env) (throws : Store.StoreCall -> bool)
         (scope resourceIdParam : option string)
         (now nowUsage : Z) (db db' : Store.Db) (req : Http.Request)
         (c : Http.Context) (source : string),
    ApiKeyMiddleware.authenticateHybrid sha256hex jwtVerify env throws scope
      resourceIdParam now nowUsage db req = (db', Http.Next c) ->
    (requireAuthSource source (ApiKeysRoutes.withContext req c) = Http.Next c
     <-> source = "any")
    /\ TenantContext.authSource
         (TenantContext.getTenantContext (ApiKeysRoutes.withContext req c))
       = "local".
Proof.
  intros sha256hex jwtVerify env throws scope prm now nowUsage db db' req c
         source H.
  destruct (hybrid_next_user _ _ _ _ _ _ _ _ _ _ _ _ H) as (u & Hu & Hsrc).
  unfold requireAuthSource, TenantContext.getTenantContext.
  cbn [ApiKeysRoutes.withContext Http.ctx TenantContext.authSource].
  rewrite Hu. cbn [mbind option_bind]. rewrite Hsrc. cbn [Js.strictEqO negb andb].
  split; [|reflexivity].
  destruct (String.eqb_spec source "any") as [->|Hne]; cbn [negb andb].
  - split; reflexivity.
  - split; [discriminate|contradiction].
Qed.

(** X15. What [AUTH_MODE] and [TAH_ENABLED] make of [validateToken]: when
    TAH is not enabled the decoder and the TAH validator are not consulted
    and a token is judged by the local validation alone, if the mode is
    ['local'] or ['dual']; in the mode ['tah'] a token that is not
    classified as a TAH token is rejected without the local validation; and
    in any other mode every token is rejected. *)
Theorem validateToken_modes :
  forall (jwtVerify : string -> string -> option LocalClaims)
         (jwtDecode : string -> TahAuth.Decoded)
         (validateTahToken : string -> string + TahUser)
         (cfg : Config) (env : Env) (token : string),
    let validate := validateToken jwtVerify jwtDecode validateTahToken cfg env in
    (isTahEnabled cfg = false -> isLocalEnabled cfg = true ->
       validate token = validateLocalToken jwtVerify env token)
    /\ (AUTH_MODE cfg = "tah" ->
        TahAuth.isTahToken jwtDecode (TAH_CONFIG cfg) token = false ->
        validate token = inl "No valid authentication method available")
    /\ (AUTH_MODE cfg <> "local" -> AUTH_MODE cfg <> "tah" ->
        AUTH_MODE cfg <> "dual" ->
        validate token = inl "No valid authentication method available").
Proof.
  intros jwtVerify jwtDecode validateTah cfg env token validate.
  subst validate. unfold validateToken. split; [|split].
  - intros -> ->. reflexivity.
  - intros Hm Hc. rewrite Hc, andb_false_r.
    unfold isLocalEnabled. now rewrite Hm.
  - intros Hl Ht Hd. unfold isTahEnabled, isLocalEnabled.
    destruct (String.eqb_spec (AUTH_MODE cfg) "local"); [contradiction|].
    destruct (String.eqb_spec (AUTH_MODE cfg) "tah"); [contradiction|].
    destruct (String.eqb_spec (AUTH_MODE cfg) "dual"); [contradiction|].
    now rewrite andb_false_r.
Qed.

(** No occurrence of the character in the string. *)
Fixpoint lacksChar (ch : ascii) (s : string) : bool :=
  match s with
  | EmptyString => true
  | String c rest => negb (Ascii.eqb c ch) && lacksChar ch rest
  end.

Lemma first_split_prefix (ch : ascii) (s rest : string) :
  lacksChar ch s = true ->
  Js.first (Js.split ch (s +:+ String ch rest)) = Some s.
Proof.
  induction s as [|c s IH]; cbn [lacksChar].
  - intros _. change ("" +:+ String ch rest) with (String ch rest).
    cbn [Js.split]. now rewrite Ascii.eqb_refl.
  - intros H. apply andb_true_iff in H as [Hc Hs].
    apply negb_true_iff in Hc.
    change (String c s +:+ String ch rest)
      with (String c (s +:+ String ch rest)).
    cbn [Js.split]. rewrite Hc.
    specialize (IH Hs). unfold Js.first in *.
    destruct (Js.split ch (s +:+ String ch rest)) as [|h t];
      [discriminate|].
    cbn [head] in *. now injection IH as ->.
Qed.

Lemma categoryOf_lacksChar (s : string) :
  lacksChar "." s = true -> categoryOf s = s.
Proof.
  induction s as [|c s IH]; cbn [lacksChar categoryOf]; [reflexivity|].
  intros H. apply andb_true_iff in H as [Hc Hs].
  apply negb_true_iff in Hc. rewrite Hc. now rewrite IH.
Qed.

Lemma permissionMatches_grants (featureId action p : string) :
  lacksChar "." featureId = true ->
  lacksChar ":" featureId = true ->
  permissionMatches (featureId +:+ ":" +:+ action) p
  = permissionGrants featureId action p.
Proof.
  intros Hdot Hcolon. unfold permissionMatches, permissionGrants.
  change (featureId +:+ ":" +:+ action)
    with (featureId +:+ String ":" action).
  rewrite (first_split_prefix ":" featureId action Hcolon).
  rewrite first_split_dot, (categoryOf_lacksChar _ Hdot).
  cbn [default from_option]. unfold id.
  destruct (String.eqb p "*" || String.eqb p "*:*"); [reflexivity|].
  change (featureId +:+ ":" +:+ action)
    with (featureId +:+ String ":" action).
  destruct (String.eqb p (featureId +:+ ":*")) eqn:E1;
    destruct (String.eqb p (featureId +:+ String ":" action)) eqn:E2;
    cbn [orb]; reflexivity.
Qed.

Lemma existsb_same {A : Type} (f g : A -> bool) (l : list A) :
  (forall x, f x = g x) -> existsb f l = existsb g l.
Proof.
  intros H. induction l as [|x l IH]; simpl; [reflexivity|].
  now rewrite H, IH.
Qed.

(** X16. For a feature id without a dot or a colon, the helper
    [hasPermission(req, featureId:action)] of tenant-context.js answers
    [true] exactly when the guard [checkPermission(featureId, action)] lets
    the authenticated request through. *)
Theorem hasPermission_agrees_with_guard :
  forall (featureId action : string) (req : Http.Request),
    lacksChar "." featureId = true ->
    lacksChar ":" featureId = true ->
    Http.user (Http.ctx req) <> None ->
    (hasPermission req (featureId +:+ ":" +:+ action) = true
     <-> checkPermission featureId action req = Http.Next (Http.ctx req)).
Proof.
  intros featureId action req Hdot Hcolon Hu.
  unfold hasPermission, checkPermission.
  destruct (Http.user (Http.ctx req)) as [u|]; [|congruence].
  destruct (Js.strictEqO (Http.authSource u) "tah"); [|split; reflexivity].
  rewrite (existsb_same _ (permissionGrants featureId action))
    by (intros p; apply permissionMatches_grants; assumption).
  cbv zeta. destruct (existsb _ _); cbn [negb]; split;
    try reflexivity; discriminate.
Qed.

(** X17. A row that satisfies the filter [buildTenantFilter] builds for a
    context, with the organization required, belongs to that tenant in the
    sense of [belongsToTenant]; with the user checked as well, when the
    filter required the user. *)
Theorem filtered_rows_belong :
  forall (context : TenantContext.TenantCtx) (record : TenantRecord)
         (requireUser checkUser : bool),
    passesFilter (buildTenantFilter context true requireUser) record = true ->
    (checkUser = true -> requireUser = true) ->
    belongsToTenant record context checkUser = true.
Proof.
  intros context record ru cu Hp Himp.
  unfold passesFilter, buildTenantFilter in Hp. cbn [fst snd] in Hp.
  apply andb_true_iff in Hp as [Ho Hu]. unfold belongsToTenant.
  assert (Js.truthyO (TenantContext.orgId context)
          && Js.truthyO (r_orgId record)
          && negb (bool_decide (r_orgId record = TenantContext.orgId context))
          = false) as ->.
  { destruct (Js.truthyO (TenantContext.orgId context)) eqn:Ht; [|reflexivity].
    cbn [andb] in Ho. destruct (TenantContext.orgId context) as [o|];
      [|discriminate].
    destruct (r_orgId record) as [ro|]; [|discriminate].
    cbn [Js.strictEqO] in Ho. apply String.eqb_eq in Ho. subst ro.
    rewrite bool_decide_eq_true_2 by reflexivity. now rewrite andb_false_r. }
  destruct cu; [|reflexivity]. rewrite (Himp eq_refl) in Hu.
  cbn [andb]. destruct (Js.truthyO (TenantContext.userId context)) eqn:Ht;
    [|reflexivity].
  cbn [andb] in Hu |- *. destruct (TenantContext.userId context) as [i|];
    [|discriminate].
  destruct (r_userId record) as [ri|]; [|discriminate].
  cbn [Js.strictEqO] in Hu. apply String.eqb_eq in Hu. subst ri.
  rewrite bool_decide_eq_true_2 by reflexivity. now rewrite andb_false_r.
Qed.

End Guards.

(** A principal with the role ["USER"] passes [authorize('ADMIN', 'USER')]. *)
Lemma authorize_admits_witness :
  let req := requestOf (tahPrincipal []) in
  AuthGuards.authorize ["ADMIN"; "USER"] req = Http.Next (Http.ctx req).
Proof.
  cbv zeta.
  apply (proj1 (proj2 (authorize_admits ["ADMIN"; "USER"]
                         (requestOf (tahPrincipal [])))
                      (tahPrincipal []) eq_refl)).
  exists "USER". split; simpl; tauto.
Defined.

(** [fiveRequest], let through, is refused by [requireAuthSource('local')]
    but not by [requireAuthSource('any')]. *)
Lemma requireAuthSource_after_hybrid_witness :
  let c := contextOf (snd (fiveHybrid None None fiveRequest)) in
  AuthGuards.requireAuthSource "any" (ApiKeysRoutes.withContext fiveRequest c)
  = Http.Next c.
Proof.
  cbv zeta.
  apply (proj1 (requireAuthSource_after_hybrid (fun k => k) (fun _ _ => None)
                  bypassEnv Store.noThrow None None 10%Z 11%Z fiveDb
                  (fst (fiveHybrid None None fiveRequest)) fiveRequest
                  (contextOf (snd (fiveHybrid None None fiveRequest))) "any"
                  ltac:(vm_compute; reflexivity))).
  reflexivity.
Defined.

(** In the mode ['local'] a token is validated locally, whatever the
    decoder says of it. *)
Lemma validateToken_modes_witness :
  AuthMiddleware.validateToken (fun _ _ => Some anaClaims)
    (fun _ => scalarAudienceToken) (fun _ => inl "unused")
    localOnlyConfig bypassEnv "a.b.c"
  = AuthMiddleware.validateLocalToken (fun _ _ => Some anaClaims)
      bypassEnv "a.b.c".
Proof.
  exact (proj1 (validateToken_modes (fun _ _ => Some anaClaims)
                  (fun _ => scalarAudienceToken) (fun _ => inl "unused")
                  localOnlyConfig bypassEnv "a.b.c")
               eq_refl eq_refl).
Defined.

(** The permission ["resources:*"] for the feature ["resources"]. *)
Lemma hasPermission_agrees_with_guard_witness :
  let req := requestOf (tahPrincipal ["resources:*"]) in
  TenantHelpers.hasPermission req ("resources" +:+ ":" +:+ "read") = true
  /\ AuthMiddleware.checkPermission "resources" "read" req
     = Http.Next (Http.ctx req).
Proof.
  cbv zeta.
  assert (TenantHelpers.hasPermission (requestOf (tahPrincipal ["resources:*"]))
            ("resources" +:+ ":" +:+ "read") = true) as H by reflexivity.
  split; [exact H|].
  apply (proj1 (hasPermission_agrees_with_guard "resources" "read"
                  (requestOf (tahPrincipal ["resources:*"]))
                  eq_refl eq_refl ltac:(discriminate))).
  exact H.
Defined.

(** A row of ["org-a"] under the filter of a context of ["org-a"]. *)
Lemma filtered_rows_belong_witness :
  let context := TenantContext.mkTenantCtx (Some "u-1") (Some "org-a") "local" [] in
  let record := TenantHelpers.mkTenantRecord (Some "org-a") (Some "u-9") in
  TenantHelpers.passesFilter
    (TenantHelpers.buildTenantFilter context true false) record = true
  /\ TenantHelpers.belongsToTenant record context false = true.
Proof.
  cbv zeta. split; [reflexivity|].
  apply (filtered_rows_belong
           (TenantContext.mkTenantCtx (Some "u-1") (Some "org-a") "local" [])
           (TenantHelpers.mkTenantRecord (Some "org-a") (Some "u-9"))
           false false eq_refl).
  discriminate.
Defined.

(** ** Issued keys *)
Section IssuedKeys.
Import ApiKeysRoutes.

Definition isHexDigit (c : ascii) : bool := existsb (Ascii.eqb c) hexDigits.

Fixpoint allChars (p : ascii -> bool) (s : string) : bool :=
  match s with
  | EmptyString => true
  | String c rest => p c && allChars p rest
  end.

(** The value of a lower-case hexadecimal digit. *)
Definition hexValue (c : ascii) : option N :=
  let k := N_of_ascii c in
  if (48 <=? k)%N && (k <=? 57)%N then Some (k - 48)%N
  else if (97 <=? k)%N && (k <=? 102)%N then Some (k - 87)%N
  else None.

(** The bytes a hexadecimal text stands for. *)
Fixpoint fromHex (s : string) : option (list Byte.byte) :=
  match s with
  | EmptyString => Some []
  | String hi (String lo rest) =>
      match hexValue hi, hexValue lo, fromHex rest with
      | Some h, Some l, Some bytes =>
          match Byte.of_N (16 * h + l) with
          | Some b => Some (b :: bytes)
          | None => None
          end
      | _, _, _ => None
      end
  | String _ EmptyString => None
  end.

Lemma toHex_byte (b : Byte.byte) :
  let v := N.to_nat (Byte.to_N b) in
  isHexDigit (hexDigit (v / 16)) = true
  /\ isHexDigit (hexDigit (v mod 16)) = true
  /\ hexValue (hexDigit (v / 16)) = Some (Byte.to_N b / 16)%N
  /\ hexValue (hexDigit (v mod 16)) = Some (Byte.to_N b mod 16)%N.
Proof. destruct b; vm_compute; repeat split. Qed.

Lemma fromHex_toHex (bytes : list Byte.byte) :
  fromHex (toHex bytes) = Some bytes.
Proof.
  induction bytes as [|b rest IH]; [reflexivity|].
  cbn [toHex fromHex].
  destruct (toHex_byte b) as (_ & _ & Hh & Hl). cbv zeta in Hh, Hl.
  rewrite Hh, Hl, IH.
  replace (16 * (Byte.to_N b / 16) + Byte.to_N b mod 16)%N with (Byte.to_N b)
    by (rewrite (N.div_mod (Byte.to_N b) 16) at 1; [reflexivity|discriminate]).
  now rewrite Byte.of_to_N.
Qed.

Lemma toHex_app (a b : list Byte.byte) :
  toHex (a ++ b) = toHex a +:+ toHex b.
Proof.
  induction a as [|x a IH]; [reflexivity|].
  cbn [app toHex]. rewrite IH. reflexivity.
Qed.

Lemma toHex_length (bytes : list Byte.byte) :
  String.length (toHex bytes) = 2 * length bytes.
Proof.
  induction bytes as [|b rest IH]; [reflexivity|].
  cbn [toHex String.length length]. rewrite IH. lia.
Qed.

Lemma toHex_hex (bytes : list Byte.byte) :
  allChars isHexDigit (toHex bytes) = true.
Proof.
  induction bytes as [|b rest IH]; [reflexivity|].
  cbn [toHex allChars]. destruct (toHex_byte b) as (H1 & H2 & _).
  cbv zeta in H1, H2. now rewrite H1, H2, IH.
Qed.

(** X18. A key issued from [n] random bytes is ["kvr_"] followed by [2n]
    lower-case hexadecimal digits, 68 characters for the 32 bytes the code
    draws; and the displayed prefix of a key issued from at least four
    bytes is ["kvr_"] and the hexadecimal form of exactly the first four of
    them. *)
Theorem generateApiKey_format :
  forall (randomBytes : list Byte.byte),
    generateApiKey randomBytes = "kvr_" +:+ toHex randomBytes
    /\ allChars isHexDigit (toHex randomBytes) = true
    /\ String.length (generateApiKey randomBytes) = 4 + 2 * length randomBytes
    /\ (length randomBytes = 32 ->
        String.length (generateApiKey randomBytes) = 68)
    /\ (4 <= length randomBytes ->
        getKeyPrefix (generateApiKey randomBytes)
        = "kvr_" +:+ toHex (take 4 randomBytes)).
Proof.
  intros bytes. split; [reflexivity|]. split; [apply toHex_hex|].
  assert (String.length (generateApiKey bytes) = 4 + 2 * length bytes) as Hlen.
  { unfold generateApiKey.
    change ("kvr_" +:+ toHex bytes)
      with (String "k" (String "v" (String "r" (String "_" (toHex bytes))))).
    cbn [String.length]. rewrite toHex_length. lia. }
  split; [exact Hlen|]. split; [intros H; rewrite Hlen, H; reflexivity|].
  intros H4.
  destruct bytes as [|b1 [|b2 [|b3 [|b4 rest]]]]; cbn [length] in H4; try lia.
  reflexivity.
Qed.

(** X19. The random bytes can be read back from the issued key, so keys
    issued from different bytes differ. *)
Theorem generateApiKey_injective :
  forall (a b : list Byte.byte),
    a <> b -> generateApiKey a <> generateApiKey b.
Proof.
  intros a b Hne H. apply Hne. unfold generateApiKey in H.
  change ("kvr_" +:+ toHex a)
    with (String "k" (String "v" (String "r" (String "_" (toHex a))))) in H.
  change ("kvr_" +:+ toHex b)
    with (String "k" (String "v" (String "r" (String "_" (toHex b))))) in H.
  injection H as H.
  apply (f_equal fromHex) in H. rewrite !fromHex_toHex in H.
  now injection H.
Qed.

End IssuedKeys.

(** Four bytes and what is shown of the key issued from them. *)
Lemma generateApiKey_format_witness :
  ApiKeysRoutes.getKeyPrefix
    (ApiKeysRoutes.generateApiKey [Byte.x00; Byte.x1f; Byte.xa0; Byte.xff; Byte.x42])
  = "kvr_001fa0ff".
Proof.
  exact (proj2 (proj2 (proj2 (proj2
    (generateApiKey_format [Byte.x00; Byte.x1f; Byte.xa0; Byte.xff; Byte.x42]))))
    ltac:(simpl; lia)).
Defined.

(** Two draws that differ in their last byte give two keys. *)
Lemma generateApiKey_injective_witness :
  ApiKeysRoutes.generateApiKey [Byte.x0a; Byte.xb1]
  <> ApiKeysRoutes.generateApiKey [Byte.x0a; Byte.xb2].
Proof.
  apply (generateApiKey_injective [Byte.x0a; Byte.xb1] [Byte.x0a; Byte.xb2]).
  discriminate.
Defined.

(** ** api/api-keys.routes.js: the routes that write *)
Module ApiKeyWrites.
Import Store ApiKeysRoutes.

(** The members of the body of [PATCH /api-keys/:id] the handler reads,
    each of the type of its column; [None] is a member that is
    [undefined]. A [description] or an [expiresAt] that is there may be
    [null]; a truthy [expiresAt] is given by the instant
    [new Date(expiresAt)] denotes. *)
Record PatchBody : Type := mkPatchBody {
  b_name : option string;
  b_description : option (option string);
  b_scopes : option (list string);
  b_workflowIds : option (list string);
  b_rateLimit : option Z;
  b_expiresAt : option (option Z);
  b_isActive : option bool
}.

Section WithStore.
(** What an update leaves in the column [updatedAt] of the row it writes,
    from what the column held: the same instant, or the instant of the
    update where the column is kept by the store. *)
Variable touch : Z -> Z.

(** The row after [prisma.apiKey.update({ data: updateData })]. *)
Definition applyPatch (b : PatchBody) (k : ApiKey) : ApiKey :=
  {| id := id k; userId := userId k; orgId := orgId k;
     name := default (name k) (b_name b);
     description := default (description k) (b_description b);
     keyHash := keyHash k; keyPrefix := keyPrefix k;
     scopes := default (scopes k) (b_scopes b);
     projectIds := projectIds k;
     workflowIds := default (workflowIds k) (b_workflowIds b);
     rateLimit := default (rateLimit k) (b_rateLimit b);
     rateLimitUsed := rateLimitUsed k;
     rateLimitReset := rateLimitReset k;
     usageCount := usageCount k; lastUsedAt := lastUsedAt k;
     lastUsedIp := lastUsedIp k;
     expiresAt := default (expiresAt k) (b_expiresAt b);
     isActive := default (isActive k) (b_isActive b);
     createdAt := createdAt k; updatedAt := touch (updatedAt k) |}.

(** The [select] of the update route. *)
Record PatchItem : Type := mkPatchItem {
  pi_id : string;
  pi_name : string;
  pi_description : option string;
  pi_keyPrefix : string;
  pi_scopes : list string;
  pi_workflowIds : list string;
  pi_rateLimit : Z;
  pi_expiresAt : option Z;
  pi_isActive : bool;
  pi_updatedAt : Z
}.

Definition selectPatchItem (k : ApiKey) : PatchItem :=
  mkPatchItem (id k) (name k) (description k) (keyPrefix k) (scopes k)
    (workflowIds k) (rateLimit k) (expiresAt k) (isActive k) (updatedAt k).

(** The handler of [PATCH /api-keys/:id]: the table it leaves and its
    answer. An update without an id is refused by the store, which the
    handler answers with 500. *)
Definition patchHandler (body : PatchBody) (db : Db) (req : Http.Request)
    : Db * Reply PatchItem :=
  match findFirstOwned db req with
  | None => (db, Rejected 404 (Http.mkErrorBody "API Key not found" []))
  | Some _ =>
      match Http.params req !! "id" with
      | None => (db, Rejected 500 (Http.mkErrorBody "Failed to update API key" []))
      | Some i =>
          let db' := updateById db i (applyPatch body) in
          match findById db' i with
          | Some k' => (db', Data (selectPatchItem k'))
          | None => (db, Rejected 500 (Http.mkErrorBody "Failed to update API key" []))
          end
      end
  end.

(** [prisma.apiKey.delete({ where: { id } })] *)
Definition deleteById (db : Db) (i : string) : Db :=
  {| apiKeys := List.filter (fun k => negb (String.eqb (id k) i)) (apiKeys db);
     usuarios := usuarios db |}.

(** The handler of [DELETE /api-keys/:id]; its answer on success is the
    message. *)
Definition deleteHandler (db : Db) (req : Http.Request) : Db * Reply string :=
  match findFirstOwned db req with
  | None => (db, Rejected 404 (Http.mkErrorBody "API Key not found" []))
  | Some _ =>
      match Http.params req !! "id" with
      | None => (db, Rejected 500 (Http.mkErrorBody "Failed to delete API key" []))
      | Some i => (deleteById db i, Data "API Key deleted successfully")
      end
  end.

(** The row after the update of the regenerate route. *)
Definition rekey (keyHash' keyPrefix' : string) (k : ApiKey) : ApiKey :=
  {| id := id k; userId := userId k; orgId := orgId k; name := name k;
     description := description k;
     keyHash := keyHash';
     keyPrefix := keyPrefix';
     scopes := scopes k; projectIds := projectIds k;
     workflowIds := workflowIds k; rateLimit := rateLimit k;
     rateLimitUsed := 0;
     rateLimitReset := rateLimitReset k;
     usageCount := 0;
     lastUsedAt := lastUsedAt k; lastUsedIp := lastUsedIp k;
     expiresAt := expiresAt k; isActive := isActive k;
     createdAt := createdAt k; updatedAt := touch (updatedAt k) |}.

(** The [data] of the regenerate route: its [select] and the raw key. *)
Record RegenerateItem : Type := mkRegenerateItem {
  ri_id : string;
  ri_name : string;
  ri_keyPrefix : string;
  ri_updatedAt : Z;
  ri_key : string
}.

(** Another row already stores this hash: the update would break the
    uniqueness of [keyHash] (the column [findUnique] looks rows up by). *)
Definition hashTaken (db : Db) (i h : string) : bool :=
  existsb (fun k => String.eqb (keyHash k) h && negb (String.eqb (id k) i))
    (apiKeys db).

(** [crypto.createHash('sha256').update(key).digest('hex')] *)
Variable sha256hex : string -> string.

(** The handler of [POST /api-keys/:id/regenerate], given the bytes
    [crypto.randomBytes(32)] draws. *)
Definition regenerateHandler (randomBytes : list Byte.byte) (db : Db)
    (req : Http.Request) : Db * Reply RegenerateItem :=
  match findFirstOwned db req with
  | None => (db, Rejected 404 (Http.mkErrorBody "API Key not found" []))
  | Some _ =>
      let rawKey := generateApiKey randomBytes in
      let keyHash' := sha256hex rawKey in
      let keyPrefix' := getKeyPrefix rawKey in
      match Http.params req !! "id" with
      | None =>
          (db, Rejected 500 (Http.mkErrorBody "Failed to regenerate API key" []))
      | Some i =>
          if hashTaken db i keyHash'
          then (db, Rejected 500
                      (Http.mkErrorBody "Failed to regenerate API key" []))
          else
            let db' := updateById db i (rekey keyHash' keyPrefix') in
            match findById db' i with
            | Some k' =>
                (db', Data (mkRegenerateItem (id k') (name k') (keyPrefix k')
                              (updatedAt k') rawKey))
            | None =>
                (db, Rejected 500
                       (Http.mkErrorBody "Failed to regenerate API key" []))
            end
      end
  end.

End WithStore.

End ApiKeyWrites.

(** ** Updating, deleting and regenerating keys *)
Section KeyWrites.
Import Store ApiKeysRoutes ApiKeyWrites ApiKeyMiddleware.
Local Open Scope Z_scope.

Variable sha256hex : string -> string.
Variable touch : Z -> Z.





Lemma updateById_same (db : Db) (i : string) (f : ApiKey -> ApiKey) :
  (forall k, f k = k) -> updateById db i f = db.
Proof.
  intros Hf. destruct db as [rows us]. unfold updateById. cbn [apiKeys usuarios].
  f_equal. induction rows as [|x l IH]; simpl; [reflexivity|].
  rewrite IH. now destruct (String.eqb (id x) i); rewrite ?Hf.
Qed.

Lemma findFirstOwned_id (db : Db) (req : Http.Request) (i : string)
    (k : ApiKey) :
  Http.params req !! "id" = Some i ->
  findFirstOwned db req = Some k ->
  id k = i /\ In k (apiKeys db).
Proof.
  intros Hi. unfold findFirstOwned. rewrite Hi. intros H.
  apply find_some in H as [Hin Hs]. split; [|exact Hin].
  unfold satisfies, withId in Hs. cbn [w_id] in Hs.
  apply andb_true_iff in Hs as [Hs _]. apply andb_true_iff in Hs as [Hs _].
  apply andb_true_iff in Hs as [Hs _]. now apply String.eqb_eq in Hs.
Qed.

Lemma findById_In (db : Db) (k : ApiKey) :
  In k (apiKeys db) -> exists k0, findById db (id k) = Some k0.
Proof.
  intros Hin. unfold findById.
  destruct (find _ (apiKeys db)) as [k0|] eqn:E; [eauto|].
  apply (find_none _ _ E) in Hin. now rewrite String.eqb_refl in Hin.
Qed.


(** X21. After a PATCH of a key of the caller's tenant, [validateApiKey]
    judges the presented secret by the patched row; in particular a key
    patched with [isActive: false] is rejected as inactive, and a key
    patched with a list of scopes is rejected for a required scope that is
    not in that list. *)
Theorem patch_then_validate :
  forall (body : PatchBody) (db : Db) (req : Http.Request) (i key : string)
         (owned k : ApiKey) (now : Z)
         (requiredScope resourceId requestedOrgId : option string),
    Http.params req !! "id" = Some i ->
    findFirstOwned db req = Some owned ->
    findByHash db (hashApiKey sha256hex key) = Some k ->
    id k = i ->
    let db' := fst (patchHandler touch body db req) in
    findByHash db' (hashApiKey sha256hex key) = Some (applyPatch touch body k)
    /\ (b_isActive body = Some false ->
        validateApiKey sha256hex now db' key
          requiredScope resourceId requestedOrgId
        = (db', Invalid "API key is inactive" false))
    /\ (forall s scopes',
          requiredScope = Some s -> s <> "" ->
          b_scopes body = Some scopes' -> ~ In s scopes' ->
          forall accepted,
            snd (validateApiKey sha256hex now db' key
                   requiredScope resourceId requestedOrgId)
            <> Valid accepted).
Proof.
  intros body db req i key owned k now sc rid org Hi Hown Hfind Hid db'.
  assert (db' = updateById db (id k) (applyPatch touch body)) as Hdb'.
  { subst db'. unfold patchHandler. rewrite Hown, Hi. rewrite Hid.
    destruct (findFirstOwned_id _ _ _ _ Hi Hown) as [Hoi Hin].
    destruct (findById_In _ _ Hin) as [k0 Hk0]. rewrite Hoi in Hk0.
    rewrite findById_updateById by reflexivity.
    rewrite String.eqb_refl, Hk0. reflexivity. }
  assert (findByHash db' (hashApiKey sha256hex key) = Some (applyPatch touch body k))
    as Hfind' by (rewrite Hdb'; now apply findByHash_updateById).
  split; [exact Hfind'|]. split.
  - intros Hact. rewrite (validateApiKey_found _ _ _ _ _ _ _ _ Hfind').
    cbn [applyPatch isActive]. now rewrite Hact.
  - intros s scopes' -> Hs Hb Hnot accepted.
    rewrite (validateApiKey_found _ _ _ _ _ _ _ _ Hfind'). cbv zeta.
    assert (scopeMissing (Some s) (applyPatch touch body k) = true) as Hmiss.
    { unfold scopeMissing. cbn [applyPatch scopes]. rewrite Hb.
      cbn [default from_option]. unfold Datatypes.id.
      destruct s as [|a s]; [congruence|]. cbn [Js.truthy andb].
      apply negb_true_iff. destruct (Js.includes scopes' (String a s)) eqn:E;
        [|reflexivity].
      apply includes_In in E. contradiction. }
    rewrite Hmiss.
    destruct (negb _); [discriminate|]. destruct (expired _ _); [discriminate|].
    destruct (orgMismatch _ _); [discriminate|].
    destruct (_ <=? _); discriminate.
Qed.

End KeyWrites.

Section KeyRemoval.
Import Store ApiKeysRoutes ApiKeyWrites ApiKeyMiddleware.
Local Open Scope Z_scope.

Variable sha256hex : string -> string.
Variable touch : Z -> Z.

Lemma find_none_all {A : Type} (p : A -> bool) (l : list A) :
  (forall x, In x l -> p x = false) -> find p l = None.
Proof.
  induction l as [|x l IH]; intros H; simpl; [reflexivity|].
  rewrite (H x (or_introl eq_refl)). apply IH. intros y Hy. apply H. now right.
Qed.

Lemma NoDup_map_eq {A B : Type} (f : A -> B) (l : list A) (a b : A) :
  List.NoDup (map f l) -> In a l -> In b l -> f a = f b -> a = b.
Proof.
  induction l as [|x l IH]; simpl; [tauto|].
  intros Hnd Ha Hb Hf. apply NoDup_cons_iff in Hnd as [Hx Hnd].
  destruct Ha as [<-|Ha], Hb as [<-|Hb]; auto.
  - exfalso. apply Hx. rewrite Hf. now apply in_map.
  - exfalso. apply Hx. rewrite <- Hf. now apply in_map.
Qed.

Lemma findById_deleteById (db : Db) (i j : string) :
  findById (deleteById db i) j
  = if String.eqb j i then None else findById db j.
Proof.
  unfold findById, deleteById. cbn [apiKeys].
  induction (apiKeys db) as [|x l IH]; simpl; [now destruct (String.eqb j i)|].
  destruct (String.eqb (id x) i) eqn:Exi; cbn [negb].
  - rewrite IH. destruct (String.eqb_spec j i) as [->|Hji]; [reflexivity|].
    apply String.eqb_eq in Exi.
    destruct (String.eqb_spec (id x) j); [congruence|reflexivity].
  - cbn [find]. destruct (String.eqb_spec (id x) j) as [<-|Hxj].
    + now rewrite Exi.
    + exact IH.
Qed.

(** X22. After [DELETE /api-keys/:id] of a key of the caller's tenant no
    row is found under that id, the rows of every other id are found as
    before, and, hashes being unique in the table, the secret of the
    deleted key is rejected by [validateApiKey] as an invalid key. *)
Theorem delete_then_validate :
  forall (db : Db) (req : Http.Request) (i key : string) (owned k : ApiKey)
         (now : Z) (requiredScope resourceId requestedOrgId : option string),
    Http.params req !! "id" = Some i ->
    findFirstOwned db req = Some owned ->
    List.NoDup (map keyHash (apiKeys db)) ->
    findByHash db (hashApiKey sha256hex key) = Some k ->
    id k = i ->
    let db' := fst (deleteHandler db req) in
    snd (deleteHandler db req) = Data "API Key deleted successfully"
    /\ findById db' i = None
    /\ (forall j, j <> i -> findById db' j = findById db j)
    /\ validateApiKey sha256hex now db' key
         requiredScope resourceId requestedOrgId
       = (db', Invalid "Invalid API key" false).
Proof.
  intros db req i key owned k now sc rid org Hi Hown Hnd Hfind Hid db'.
  subst db'. unfold deleteHandler. rewrite Hown, Hi. cbn [fst snd].
  split; [reflexivity|]. split.
  { rewrite findById_deleteById. now rewrite String.eqb_refl. }
  split.
  { intros j Hj. rewrite findById_deleteById.
    destruct (String.eqb_spec j i); [contradiction|reflexivity]. }
  unfold validateApiKey.
  assert (findByHash (deleteById db i) (hashApiKey sha256hex key) = None) as ->;
    [|reflexivity].
  apply find_none_all. intros x Hx. cbn [deleteById apiKeys] in Hx.
  apply filter_In in Hx as [Hx Hne]. apply negb_true_iff in Hne.
  destruct (String.eqb_spec (keyHash x) (hashApiKey sha256hex key)) as [E|];
    [|reflexivity].
  apply findByHash_hash in Hfind as [Hh Hk].
  assert (x = k) as -> by (apply (NoDup_map_eq keyHash (apiKeys db));
                           auto; congruence).
  rewrite Hid, String.eqb_refl in Hne. discriminate.
Qed.




(** The organization of the caller is not the one of any row of that id. *)
Lemma findFirstOwned_foreign (db : Db) (req : Http.Request) (i o : string) :
  Http.params req !! "id" = Some i ->
  TenantContext.orgId (TenantContext.getTenantContext req) = Some o ->
  o <> "" ->
  (forall k, In k (apiKeys db) -> id k = i -> orgId k <> Some o) ->
  findFirstOwned db req = None.
Proof.
  intros Hi Ho Hne Hrows. unfold findFirstOwned. rewrite Hi.
  apply find_none_all. intros k Hk.
  unfold satisfies, withId, buildTenantFilter. rewrite Ho.
  destruct o as [|a o]; [congruence|]. cbn [Js.truthyO Js.truthy w_id w_orgId].
  destruct (String.eqb_spec (id k) i) as [E|]; [|reflexivity].
  cbn [andb]. specialize (Hrows k Hk E).
  destruct (orgId k) as [ko|]; [|reflexivity]. cbn [Js.strictEqO].
  destruct (String.eqb_spec ko (String a o)); [congruence|reflexivity].
Qed.

(** X24. A caller whose tenant context names an organization can neither
    read nor write a key of that id that belongs to another organization or
    to none: the get, update, delete and regenerate handlers all answer 404
    and the table is left as it was. *)
Theorem foreign_key_untouchable :
  forall (db : Db) (req : Http.Request) (i o : string) (body : PatchBody)
         (randomBytes : list Byte.byte),
    Http.params req !! "id" = Some i ->
    TenantContext.orgId (TenantContext.getTenantContext req) = Some o ->
    o <> "" ->
    (forall k, In k (apiKeys db) -> id k = i -> orgId k <> Some o) ->
    let notFound := Http.mkErrorBody "API Key not found" [] in
    getHandler db req = Rejected 404 notFound
    /\ patchHandler touch body db req = (db, Rejected 404 notFound)
    /\ deleteHandler db req = (db, Rejected 404 notFound)
    /\ regenerateHandler touch sha256hex randomBytes db req
       = (db, Rejected 404 notFound).
Proof.
  intros db req i o body bytes Hi Ho Hne Hrows notFound.
  pose proof (findFirstOwned_foreign db req i o Hi Ho Hne Hrows) as H.
  unfold getHandler, patchHandler, deleteHandler, regenerateHandler.
  rewrite H. repeat split.
Qed.

End KeyRemoval.

(** A request on the key of [fiveDb] by a caller of its organization, and
    one by a caller of another organization. *)
Definition ownerRequest : Http.Request :=
  Http.mkRequest ∅ {[ "id" := "key-1" ]} ∅ None
    (Http.mkContext None None None (Some "org-a") None).

Definition strangerRequest : Http.Request :=
  Http.mkRequest ∅ {[ "id" := "key-1" ]} ∅ None
    (Http.mkContext None None None (Some "org-b") None).

(** A body that renames the key, withdraws its scopes and switches it
    off. *)
Definition switchOff : ApiKeyWrites.PatchBody :=
  ApiKeyWrites.mkPatchBody (Some "ci-old") None (Some ["resources:write"])
    None None None (Some false).


(** The key of [fiveDb] switched off by its owner. *)
Lemma patch_then_validate_witness :
  let db' := fst (ApiKeyWrites.patchHandler (fun _ => 20%Z) switchOff fiveDb
                    ownerRequest) in
  ApiKeyMiddleware.validateApiKey (fun k => k) 10 db' "sk_live_1"
    (Some "resources:read") None None
  = (db', ApiKeyMiddleware.Invalid "API key is inactive" false).
Proof.
  cbv zeta.
  assert (Http.params ownerRequest !! "id" = Some "key-1") as Hi
    by (vm_compute; reflexivity).
  assert (ApiKeysRoutes.findFirstOwned fiveDb ownerRequest = Some fiveKey)
    as Hown by (vm_compute; reflexivity).
  assert (Store.findByHash fiveDb
            (ApiKeyMiddleware.hashApiKey (fun k => k) "sk_live_1")
          = Some fiveKey) as Hfind by (vm_compute; reflexivity).
  apply (patch_then_validate (fun k => k) (fun _ => 20%Z) switchOff fiveDb ownerRequest
           "key-1" "sk_live_1" fiveKey fiveKey 10 (Some "resources:read")
           None None Hi Hown Hfind eq_refl).
  reflexivity.
Defined.

(** The key of [fiveDb] deleted by its owner. *)
Lemma delete_then_validate_witness :
  let db' := fst (ApiKeyWrites.deleteHandler fiveDb ownerRequest) in
  Store.findById db' "key-1" = None
  /\ ApiKeyMiddleware.validateApiKey (fun k => k) 10 db' "sk_live_1"
       None None None
     = (db', ApiKeyMiddleware.Invalid "Invalid API key" false).
Proof.
  cbv zeta.
  assert (Http.params ownerRequest !! "id" = Some "key-1") as Hi
    by (vm_compute; reflexivity).
  assert (ApiKeysRoutes.findFirstOwned fiveDb ownerRequest = Some fiveKey)
    as Hown by (vm_compute; reflexivity).
  assert (List.NoDup (map Store.keyHash (Store.apiKeys fiveDb))) as Hnd
    by (repeat constructor; simpl; tauto).
  assert (Store.findByHash fiveDb
            (ApiKeyMiddleware.hashApiKey (fun k => k) "sk_live_1")
          = Some fiveKey) as Hfind by (vm_compute; reflexivity).
  pose proof (delete_then_validate (fun k => k) fiveDb ownerRequest
                "key-1" "sk_live_1" fiveKey fiveKey 10 None None None
                Hi Hown Hnd Hfind eq_refl) as H.
  cbv zeta in H. destruct H as (_ & H1 & _ & H2). split; assumption.
Defined.


(** A caller of ["org-b"] on the key of ["org-a"]. *)
Lemma foreign_key_untouchable_witness :
  ApiKeyWrites.deleteHandler fiveDb strangerRequest
  = (fiveDb, ApiKeysRoutes.Rejected 404
               (Http.mkErrorBody "API Key not found" [])).
Proof.
  assert (Http.params strangerRequest !! "id" = Some "key-1") as Hi
    by (vm_compute; reflexivity).
  assert (TenantContext.orgId (TenantContext.getTenantContext strangerRequest)
          = Some "org-b") as Ho by (vm_compute; reflexivity).
  assert ("org-b" <> "") as Hne by discriminate.
  assert (forall k, In k (Store.apiKeys fiveDb) -> Store.id k = "key-1" ->
                    Store.orgId k <> Some "org-b") as Hrows.
  { intros k [<-|[]] _. discriminate. }
  pose proof (foreign_key_untouchable (fun k => k) (fun _ => 20%Z) fiveDb strangerRequest
                "key-1" "org-b" switchOff [Byte.x2a] Hi Ho Hne Hrows) as H.
  cbv zeta in H. destruct H as (_ & _ & H & _). exact H.
Defined.

From Stdlib Require Import Sorted.

(** ** The routes that read, against the validator *)
Section KeyReads.
Import Store ApiKeysRoutes ApiKeyMiddleware.
Local Open Scope Z_scope.

Variable sha256hex : string -> string.

(** X25. The stats route and the validator on the same row at the same
    instant, for a key that is active, not expired and not bound to
    another organization. With a window-reset instant other than [now],
    the validator answers [Rate limit exceeded] exactly when the route
    reports no remaining call. With no reset instant, or one that is
    [now] itself, the route reports the whole [rateLimit] as remaining,
    while the validator still compares [rateLimitUsed] with it. *)
Theorem stats_agrees_with_limiter :
  forall (now : Z) (db : Db) (req : Http.Request) (key : string)
         (requiredScope resourceId requestedOrgId : option string)
         (k : ApiKey) (stat : StatsItem),
    findFirstOwned db req = Some k ->
    statsHandler now db req = Data stat ->
    findByHash db (hashApiKey sha256hex key) = Some k ->
    isActive k = true ->
    expired now k = false ->
    orgMismatch requestedOrgId k = false ->
    let limited :=
      snd (validateApiKey sha256hex now db key
             requiredScope resourceId requestedOrgId)
      = Invalid "Rate limit exceeded" true in
    (forall r, rateLimitReset k = Some r -> r <> now ->
               (limited <-> si_rateLimitRemaining stat <= 0))
    /\ (rateLimitReset k = None \/ rateLimitReset k = Some now ->
        si_rateLimitRemaining stat = rateLimit k
        /\ (limited <-> rateLimit k <= rateLimitUsed k)).
Proof.
  intros now db req key sc rid org k stat Hown Hstat Hfind Hact Hexp Horg
         limited.
  unfold statsHandler in Hstat. rewrite Hown in Hstat.
  injection Hstat as <-.
  assert (limited <->
          rateLimit k <= rateLimitUsed
                           (if resetDue now k
                            then setRateLimit 0 (rateLimitReset k) k else k))
    as Hlim.
  { subst limited. rewrite (validateApiKey_found _ _ _ _ _ _ _ _ Hfind).
    rewrite Hact, Hexp, Horg. cbn [negb]. cbv zeta.
    destruct (Z.leb_spec (rateLimit k)
                (rateLimitUsed (if resetDue now k
                                then setRateLimit 0 (rateLimitReset k) k
                                else k))) as [Hle|Hlt].
    - cbn [snd]. split; [intros _; exact Hle|reflexivity].
    - split; [|lia].
      destruct (scopeMissing sc k); [discriminate|].
      destruct (workflowDenied rid k); discriminate. }
  unfold statsOf, resetDue in *. cbn [si_rateLimitRemaining]. split.
  - intros r Hr Hne. rewrite Hlim, Hr.
    destruct (Z.ltb_spec r now), (Z.ltb_spec now r);
      cbn [setRateLimit rateLimitUsed]; lia.
  - intros [Hr|Hr]; rewrite Hlim, Hr.
    + split; [reflexivity|tauto].
    + rewrite !Z.ltb_irrefl. split; [reflexivity|tauto].
Qed.

Lemma insertByCreatedDesc_In (k x : ApiKey) (l : list ApiKey) :
  In x (insertByCreatedDesc k l) <-> x = k \/ In x l.
Proof.
  induction l as [|y l IH]; simpl; [intuition congruence|].
  destruct (createdAt y <=? createdAt k); simpl; [intuition congruence|].
  rewrite IH. intuition congruence.
Qed.

Lemma orderByCreatedDesc_In (x : ApiKey) (l : list ApiKey) :
  In x (orderByCreatedDesc l) <-> In x l.
Proof.
  unfold orderByCreatedDesc. induction l as [|y l IH]; simpl; [tauto|].
  rewrite insertByCreatedDesc_In, IH. intuition congruence.
Qed.

Definition newerFirst (a b : ApiKey) : Prop := createdAt b <= createdAt a.

Lemma insertByCreatedDesc_sorted (k : ApiKey) (l : list ApiKey) :
  StronglySorted newerFirst l ->
  StronglySorted newerFirst (insertByCreatedDesc k l).
Proof.
  induction l as [|y l IH]; intros Hs; simpl.
  - constructor; constructor.
  - apply StronglySorted_inv in Hs as [Hs Hy].
    destruct (Z.leb_spec (createdAt y) (createdAt k)) as [Hle|Hlt].
    + constructor; [now constructor|]. constructor; [exact Hle|].
      rewrite List.Forall_forall in *. intros z Hz.
      specialize (Hy z Hz). unfold newerFirst in *. lia.
    + constructor; [auto|]. rewrite List.Forall_forall in *.
      intros z Hz. apply insertByCreatedDesc_In in Hz as [->|Hz].
      * unfold newerFirst. lia.
      * now apply Hy.
Qed.

Lemma orderByCreatedDesc_sorted (l : list ApiKey) :
  StronglySorted newerFirst (orderByCreatedDesc l).
Proof.
  unfold orderByCreatedDesc. induction l as [|y l IH]; simpl.
  - constructor.
  - now apply insertByCreatedDesc_sorted.
Qed.

Lemma StronglySorted_map {A B : Type} (R : A -> A -> Prop)
    (S : B -> B -> Prop) (f : A -> B) (l : list A) :
  (forall a b, R a b -> S (f a) (f b)) ->
  StronglySorted R l -> StronglySorted S (map f l).
Proof.
  intros HRS. induction 1 as [|a l Hs IH Ha]; simpl; constructor; auto.
  rewrite List.Forall_forall in *. intros y Hy.
  apply in_map_iff in Hy as [x [<- Hx]]. auto.
Qed.

(** X26. [GET /api-keys] for a caller whose tenant context names an
    organization lists exactly the rows of that organization, the inactive
    ones only when the query has a truthy [includeInactive], and lists
    them from the newest to the oldest. *)
Theorem list_rows_of_tenant :
  forall (db : Db) (req : Http.Request) (o : string) (items : list ListItem),
    TenantContext.orgId (TenantContext.getTenantContext req) = Some o ->
    o <> "" ->
    listHandler db req = Data items ->
    (forall item,
        In item items <->
        exists k, In k (apiKeys db) /\ orgId k = Some o
                  /\ (Js.truthyO (Http.query req !! "includeInactive") = false
                      -> isActive k = true)
                  /\ item = selectListItem k)
    /\ StronglySorted (fun a b => li_createdAt b <= li_createdAt a) items.
Proof.
  intros db req o items Ho Hne Hlist. unfold listHandler in Hlist.
  injection Hlist as <-. cbv zeta. unfold buildTenantFilter. rewrite Ho.
  destruct o as [|c o]; [congruence|]. cbn [Js.truthyO Js.truthy]. split.
  - intros item. rewrite in_map_iff. split.
    + intros [k [<- Hk]]. apply (proj1 (orderByCreatedDesc_In _ _)) in Hk.
      apply filter_In in Hk as [Hin Hs]. exists k. split; [exact Hin|].
      unfold satisfies in Hs.
      destruct (Js.truthy (default "" (Http.query req !! "includeInactive")))
        eqn:Einc.
      all: assert (Js.truthyO (Http.query req !! "includeInactive") = _)
        as Hq by (unfold Js.truthyO; destruct (Http.query req !! _);
                  [exact Einc|cbn in Einc; exact Einc]).
      all: rewrite Hq in Hs |- *; cbn [negb withActive w_id w_orgId w_userId
                                        w_isActive andb] in Hs.
      * apply andb_true_iff in Hs as [Hs _]. apply andb_true_iff in Hs as [Hs _].
        destruct (orgId k) as [ko|]; [|discriminate]. cbn in Hs.
        apply String.eqb_eq in Hs. subst ko. repeat split. discriminate.
      * apply andb_true_iff in Hs as [Hs Ha].
        apply andb_true_iff in Hs as [Hs _].
        destruct (orgId k) as [ko|]; [|discriminate]. cbn in Hs.
        apply String.eqb_eq in Hs. subst ko. repeat split.
        intros _. now destruct (isActive k).
    + intros (k & Hin & Horg & Hact & ->). exists k. split; [reflexivity|].
      apply orderByCreatedDesc_In. apply filter_In. split; [exact Hin|].
      unfold satisfies.
      destruct (Js.truthyO (Http.query req !! "includeInactive"));
        cbn [negb withActive w_id w_orgId w_userId w_isActive andb];
        rewrite Horg; cbn [Js.strictEqO]; rewrite String.eqb_refl;
        cbn [andb]; [reflexivity|].
      now rewrite Hact.
  - apply (StronglySorted_map newerFirst); [|apply orderByCreatedDesc_sorted].
    intros a b H. exact H.
Qed.

End KeyReads.

(** The key of [fiveDb] with its five calls spent in the window that ends
    at the instant 1000. *)
Definition spentDb : Store.Db :=
  Store.mkDb [Store.setRateLimit 5 (Some 1000%Z) fiveKey] (Store.usuarios fiveDb).

(** At the instant 1000 itself the stats route reports five calls left
    and the validator answers that the limit is exceeded. *)
Lemma stats_agrees_with_limiter_witness :
  ApiKeysRoutes.statsHandler 1000 spentDb ownerRequest
  = ApiKeysRoutes.Data
      (ApiKeysRoutes.statsOf 1000 (Store.setRateLimit 5 (Some 1000%Z) fiveKey))
  /\ ApiKeysRoutes.si_rateLimitRemaining
       (ApiKeysRoutes.statsOf 1000 (Store.setRateLimit 5 (Some 1000%Z) fiveKey))
     = 5%Z
  /\ snd (ApiKeyMiddleware.validateApiKey (fun k => k) 1000 spentDb
            "sk_live_1" None None None)
     = ApiKeyMiddleware.Invalid "Rate limit exceeded" true.
Proof.
  assert (ApiKeysRoutes.statsHandler 1000 spentDb ownerRequest
          = ApiKeysRoutes.Data
              (ApiKeysRoutes.statsOf 1000
                 (Store.setRateLimit 5 (Some 1000%Z) fiveKey))) as Hstat
    by (vm_compute; reflexivity).
  split; [exact Hstat|].
  assert (ApiKeysRoutes.findFirstOwned spentDb ownerRequest
          = Some (Store.setRateLimit 5 (Some 1000%Z) fiveKey)) as Hown
    by (vm_compute; reflexivity).
  assert (Store.findByHash spentDb
            (ApiKeyMiddleware.hashApiKey (fun k => k) "sk_live_1")
          = Some (Store.setRateLimit 5 (Some 1000%Z) fiveKey)) as Hfind
    by (vm_compute; reflexivity).
  pose proof (stats_agrees_with_limiter (fun k => k) 1000 spentDb ownerRequest
                "sk_live_1" None None None _ _ Hown Hstat Hfind
                eq_refl eq_refl eq_refl) as H.
  cbv zeta in H. destruct H as [_ H].
  destruct (H (or_intror eq_refl)) as [H1 H2]. split; [exact H1|].
  apply H2. vm_compute. discriminate.
Defined.

(** The owner of the key of [fiveDb] finds it in the list. *)
Lemma list_rows_of_tenant_witness :
  exists items,
    ApiKeysRoutes.listHandler fiveDb ownerRequest = ApiKeysRoutes.Data items
    /\ In (ApiKeysRoutes.selectListItem fiveKey) items.
Proof.
  exists [ApiKeysRoutes.selectListItem fiveKey].
  assert (ApiKeysRoutes.listHandler fiveDb ownerRequest
          = ApiKeysRoutes.Data [ApiKeysRoutes.selectListItem fiveKey]) as Hl
    by (vm_compute; reflexivity).
  split; [exact Hl|].
  assert (TenantContext.orgId (TenantContext.getTenantContext ownerRequest)
          = Some "org-a") as Ho by (vm_compute; reflexivity).
  assert ("org-a" <> "") as Hne by discriminate.
  destruct (list_rows_of_tenant fiveDb ownerRequest "org-a" _ Ho Hne Hl)
    as [H _].
  apply H. exists fiveKey. repeat split. now left.
Defined.

(** ** auth/jwt.service.js: organizations of a token, refresh tokens *)
Module JwtService.

(** A row of [userOrganization] with the [organization.orgId] it
    includes. *)
Record UserOrganization : Type := mkUserOrganization {
  uo_userId : string;
  uo_orgId : string;
  uo_role : string;
  uo_isDefault : bool;
  uo_createdAt : Z
}.

(** [orderBy: [{ isDefault: 'desc' }, { createdAt: 'asc' }]], as a stable
    insertion sort. *)
Definition precedes (a b : UserOrganization) : bool :=
  if Bool.eqb (uo_isDefault a) (uo_isDefault b)
  then (uo_createdAt a <=? uo_createdAt b)%Z
  else uo_isDefault a.

Fixpoint insertOrdered (x : UserOrganization) (l : list UserOrganization)
    : list UserOrganization :=
  match l with
  | [] => [x]
  | y :: rest =>
      if precedes x y then x :: y :: rest else y :: insertOrdered x rest
  end.

Definition orderUserOrgs (l : list UserOrganization) : list UserOrganization :=
  foldr insertOrdered [] l.

(** What [getUserOrganizationsForToken] returns. *)
Record OrgInfo : Type := mkOrgInfo {
  oi_orgId : option string;
  oi_orgIds : list string;
  oi_orgRole : option string
}.

(** [getUserOrganizationsForToken]; a table that is [None] is one whose
    query throws. *)
Definition getUserOrganizationsForToken
    (table : option (list UserOrganization)) (userId : string) : OrgInfo :=
  match table with
  | None => mkOrgInfo None [] None
  | Some rows =>
      let userOrgs :=
        orderUserOrgs (List.filter (fun uo => String.eqb (uo_userId uo) userId) rows) in
      match userOrgs with
      | [] => mkOrgInfo None [] None
      | first :: _ =>
          let defaultOrg := default first (find uo_isDefault userOrgs) in
          mkOrgInfo (Some (uo_orgId defaultOrg)) (map uo_orgId userOrgs)
            (Some (uo_role defaultOrg))
      end
  end.

(** The columns of a [usuario] row that [generateAccessTokenWithOrg]
    reads. *)
Record TokenUser : Type := mkTokenUser {
  tu_id : string;
  tu_email : string;
  tu_fullName : option string;
  tu_roles : option (list string);
  tu_perfis : option (list string)
}.

(** The payload [generateAccessTokenWithOrg] signs, as the claims a
    verification of the token reads back. *)
Definition accessPayload (table : option (list UserOrganization))
    (user : TokenUser) : AuthMiddleware.LocalClaims :=
  let orgInfo := getUserOrganizationsForToken table (tu_id user) in
  {| AuthMiddleware.c_userId := None;
     AuthMiddleware.c_id := Some (tu_id user);
     AuthMiddleware.c_email := Some (tu_email user);
     AuthMiddleware.c_fullName := tu_fullName user;
     AuthMiddleware.c_name := None;
     AuthMiddleware.c_role := None;
     AuthMiddleware.c_roles := Some (default ["USER"] (tu_roles user));
     AuthMiddleware.c_perfis := Some (default [] (tu_perfis user));
     AuthMiddleware.c_orgId := oi_orgId orgInfo;
     AuthMiddleware.c_orgIds := Some (oi_orgIds orgInfo);
     AuthMiddleware.c_orgRole := oi_orgRole orgInfo |}.

(** [generateAccessTokenWithOrg], given [jwt.sign] with the secret and the
    expiration of the module. *)
Definition generateAccessTokenWithOrg
    (jwtSign : AuthMiddleware.LocalClaims -> string)
    (table : option (list UserOrganization)) (user : TokenUser) : string :=
  jwtSign (accessPayload table user).

(** A row of [refreshToken]. *)
Record RefreshToken : Type := mkRefreshToken {
  rt_id : string;
  rt_token : string;
  rt_userId : string;
  rt_expiresAt : Z
}.

(** What [verifyRefreshToken] resolves to: the stored row, or the object
    [{ token, userId: null, expiresAt }] of its [catch]. *)
Inductive Verified : Type :=
| Stored (row : RefreshToken)
| Unchecked (token : string) (expiresAt : Z).

(** [7 * 24 * 60 * 60 * 1000] *)
Definition sevenDays : Z := 7 * 24 * 60 * 60 * 1000.

(** [verifyRefreshToken], with [new Date()] read at [now] and [Date.now()]
    of the [catch] at [later]: the table it leaves and what it resolves
    to. A table that is [None] is one whose query throws. *)
Definition verifyRefreshToken (now later : Z)
    (table : option (list RefreshToken)) (token : string)
    : option (list RefreshToken) * Verified :=
  match table with
  | None => (None, Unchecked token (later + sevenDays))
  | Some rows =>
      match find (fun r => String.eqb (rt_token r) token) rows with
      | None => (table, Unchecked token (later + sevenDays))
      | Some refreshToken =>
          if (rt_expiresAt refreshToken <? now)%Z
          then (Some (List.filter
                        (fun r => negb (String.eqb (rt_id r) (rt_id refreshToken)))
                        rows),
                Unchecked token (later + sevenDays))
          else (table, Stored refreshToken)
      end
  end.

(** [revokeRefreshToken] on a table that is there. *)
Definition revokeRefreshToken (rows : list RefreshToken) (token : string)
    : list RefreshToken :=
  List.filter (fun r => negb (String.eqb (rt_token r) token)) rows.

(** [revokeAllRefreshTokens] on a table that is there. *)
Definition revokeAllRefreshTokens (rows : list RefreshToken) (userId : string)
    : list RefreshToken :=
  List.filter (fun r => negb (String.eqb (rt_userId r) userId)) rows.

(** [cleanupExpiredTokens] at the instant [now] on a table that is there:
    the table it leaves and the count it returns. *)
Definition cleanupExpiredTokens (now : Z) (rows : list RefreshToken)
    : list RefreshToken * nat :=
  (List.filter (fun r => negb (rt_expiresAt r <? now)%Z) rows,
   length (List.filter (fun r => (rt_expiresAt r <? now)%Z) rows)).

End JwtService.

Section IssuedTokens.
Import JwtService.
Local Open Scope Z_scope.

Lemma insertOrdered_In (x y : UserOrganization) (l : list UserOrganization) :
  In y (insertOrdered x l) <-> y = x \/ In y l.
Proof.
  induction l as [|z l IH]; simpl; [intuition congruence|].
  destruct (precedes x z); simpl; [intuition congruence|].
  rewrite IH. intuition congruence.
Qed.

Lemma orderUserOrgs_In (y : UserOrganization) (l : list UserOrganization) :
  In y (orderUserOrgs l) <-> In y l.
Proof.
  unfold orderUserOrgs. induction l as [|z l IH]; simpl; [tauto|].
  rewrite insertOrdered_In, IH. intuition congruence.
Qed.

(** The default rows come first: the head is a default row or no row
    is. *)
Definition defaultFirst (l : list UserOrganization) : Prop :=
  match l with
  | [] => True
  | h :: _ => uo_isDefault h = true
              \/ forall y, In y l -> uo_isDefault y = false
  end.

Lemma insertOrdered_defaultFirst (x : UserOrganization)
    (l : list UserOrganization) :
  defaultFirst l -> defaultFirst (insertOrdered x l).
Proof.
  destruct l as [|y rest]; simpl.
  - intros _. destruct (uo_isDefault x) eqn:E; [now left|right].
    intros z [<-|[]]. exact E.
  - intros H. unfold precedes.
    destruct (uo_isDefault x) eqn:Ex, (uo_isDefault y) eqn:Ey; cbn [Bool.eqb].
    + destruct (uo_createdAt x <=? uo_createdAt y); simpl; now left.
    + simpl. now left.
    + simpl. now left.
    + destruct H as [H|H]; [congruence|].
      destruct (uo_createdAt x <=? uo_createdAt y); simpl; right.
      * intros z [<-|Hz]; [exact Ex|]. now apply H.
      * intros z [<-|Hz]; [exact Ey|].
        apply insertOrdered_In in Hz as [->|Hz]; [exact Ex|].
        apply H. now right.
Qed.

Lemma orderUserOrgs_defaultFirst (l : list UserOrganization) :
  defaultFirst (orderUserOrgs l).
Proof.
  unfold orderUserOrgs. induction l as [|x l IH]; simpl; [exact I|].
  now apply insertOrdered_defaultFirst.
Qed.

Lemma defaultFirst_find (h : UserOrganization) (t : list UserOrganization) :
  defaultFirst (h :: t) -> default h (find uo_isDefault (h :: t)) = h.
Proof.
  intros [H|H]; simpl.
  - now rewrite H.
  - rewrite (H h (or_introl eq_refl)).
    assert (find uo_isDefault t = None) as ->; [|reflexivity].
    destruct (find uo_isDefault t) as [d|] eqn:E; [|reflexivity].
    apply find_some in E as [Hin Hd]. rewrite (H d (or_intror Hin)) in Hd.
    discriminate.
Qed.

Lemma orgInfo_head (table : option (list UserOrganization))
    (userId : string) :
  oi_orgId (getUserOrganizationsForToken table userId)
  = head (oi_orgIds (getUserOrganizationsForToken table userId)).
Proof.
  unfold getUserOrganizationsForToken. destruct table as [rows|];
    [|reflexivity].
  cbv zeta.
  pose proof (orderUserOrgs_defaultFirst
                (List.filter (fun uo => String.eqb (uo_userId uo) userId) rows))
    as Hdf.
  destruct (orderUserOrgs _) as [|h t]; [reflexivity|].
  now rewrite (defaultFirst_find h t Hdf).
Qed.

(** X27. The organizations [getUserOrganizationsForToken] puts in a token:
    [orgIds] holds exactly the organizations of the rows of the user;
    [orgId] is always the first entry of [orgIds], and is missing exactly
    when [orgIds] is empty; and when some row of the user is flagged as
    default, [orgId] and [orgRole] are those of a flagged row. *)
Theorem token_org_is_first :
  forall (table : option (list UserOrganization)) (userId : string),
    let info := getUserOrganizationsForToken table userId in
    oi_orgId info = head (oi_orgIds info)
    /\ (forall o, In o (oi_orgIds info) <->
                  exists rows uo, table = Some rows /\ In uo rows
                                  /\ uo_userId uo = userId /\ uo_orgId uo = o)
    /\ (forall rows uo, table = Some rows -> In uo rows ->
                        uo_userId uo = userId -> uo_isDefault uo = true ->
                        exists d, In d rows /\ uo_userId d = userId
                                  /\ uo_isDefault d = true
                                  /\ oi_orgId info = Some (uo_orgId d)
                                  /\ oi_orgRole info = Some (uo_role d)).
Proof.
  intros table userId info. subst info. unfold getUserOrganizationsForToken.
  destruct table as [rows|].
  2:{ cbn. repeat split; try tauto.
      - intros (rows & uo & H & _). discriminate.
      - intros rows uo H. discriminate. }
  cbv zeta.
  set (mine := List.filter (fun uo => String.eqb (uo_userId uo) userId) rows).
  assert (forall y, In y (orderUserOrgs mine) <->
                    In y rows /\ uo_userId y = userId) as Hin.
  { intros y. rewrite orderUserOrgs_In. subst mine. rewrite filter_In.
    now rewrite String.eqb_eq. }
  pose proof (orderUserOrgs_defaultFirst mine) as Hdf.
  destruct (orderUserOrgs mine) as [|h t] eqn:E.
  - cbn. split; [reflexivity|]. split.
    + intros o. split; [tauto|]. intros (rows' & uo & Hr & Huo & Hu & _).
      injection Hr as <-. apply (Hin uo). auto.
    + intros rows' uo Hr Huo Hu _. injection Hr as <-.
      exfalso. apply (Hin uo). auto.
  - rewrite (defaultFirst_find h t Hdf). cbn [oi_orgId oi_orgIds oi_orgRole].
    split; [reflexivity|]. split.
    + intros o. rewrite in_map_iff. split.
      * intros (y & <- & Hy). apply Hin in Hy as [Hy Hu]. eauto 6.
      * intros (rows' & uo & Hr & Huo & Hu & <-). injection Hr as <-.
        exists uo. split; [reflexivity|]. apply Hin. auto.
    + intros rows' uo Hr Huo Hu Hd. injection Hr as <-.
      assert (In h rows /\ uo_userId h = userId) as [Hh1 Hh2]
        by (apply Hin; now left).
      exists h. repeat split; auto.
      destruct Hdf as [Hdf|Hdf]; [exact Hdf|].
      assert (In uo (h :: t)) as Hx by (apply Hin; auto).
      rewrite (Hdf uo Hx) in Hd. discriminate.
Qed.

Variable jwtVerify : string -> string -> option AuthMiddleware.LocalClaims.
Variable env : AuthMiddleware.Env.

(** X28. The principal of an issued token. When [jwt.verify] reads back
    the payload that [generateAccessTokenWithOrg] signed for a user,
    [validateLocalToken] builds a principal of source ['local'] with the
    id and the roles of the user (['USER'] for a user without roles),
    whose [orgIds] are the organizations of the user and whose [orgId] is
    the first of them, unless that one is the empty string. *)
Theorem issued_token_principal :
  forall (jwtSign : AuthMiddleware.LocalClaims -> string)
         (table : option (list UserOrganization)) (user : TokenUser),
    let token := generateAccessTokenWithOrg jwtSign table user in
    jwtVerify token
      (Js.orDefault (AuthMiddleware.JWT_SECRET env) "your-secret-key")
    = Some (accessPayload table user) ->
    exists u,
      AuthMiddleware.validateLocalToken jwtVerify env token = inr u
      /\ Http.id u = Some (tu_id user)
      /\ Http.userId u = Some (tu_id user)
      /\ Http.authSource u = Some "local"
      /\ Http.roles u = default ["USER"] (tu_roles user)
      /\ Http.role u = Some (Js.orDefault (head (Http.roles u)) "USER")
      /\ Http.orgIds u
         = oi_orgIds (getUserOrganizationsForToken table (tu_id user))
      /\ (head (Http.orgIds u) <> Some "" ->
          Http.orgId u = head (Http.orgIds u)).
Proof.
  intros jwtSign table user token Hv.
  exists (AuthMiddleware.localUser (accessPayload table user)).
  split.
  { unfold AuthMiddleware.validateLocalToken, AuthMiddleware.verifyAccessToken.
    now rewrite Hv. }
  pose proof (orgInfo_head table (tu_id user)) as Hfirst.
  unfold AuthMiddleware.localUser, accessPayload.
  cbn [Http.id Http.userId Http.authSource Http.roles Http.role Http.orgIds
       Http.orgId AuthMiddleware.c_userId AuthMiddleware.c_id
       AuthMiddleware.c_roles AuthMiddleware.c_role AuthMiddleware.c_orgId
       AuthMiddleware.c_orgIds AuthMiddleware.firstRole default from_option].
  repeat split.
  unfold Datatypes.id. rewrite <- Hfirst. intros Hne.
  destruct (oi_orgId _) as [[|c o]|]; [congruence|reflexivity|reflexivity].
Qed.

End IssuedTokens.

(** A user with two organizations, the later one flagged as default. *)
Definition anaOrgs : list JwtService.UserOrganization :=
  [JwtService.mkUserOrganization "u-1" "org-a" "MEMBER" false 1;
   JwtService.mkUserOrganization "u-2" "org-z" "ADMIN" true 2;
   JwtService.mkUserOrganization "u-1" "org-b" "ADMIN" true 3].

Definition anaUser : JwtService.TokenUser :=
  JwtService.mkTokenUser "u-1" "ana@example.com" (Some "Ana") None None.

(** The token of ["u-1"] names ["org-b"], then ["org-a"]. *)
Lemma token_org_is_first_witness :
  let info := JwtService.getUserOrganizationsForToken (Some anaOrgs) "u-1" in
  JwtService.oi_orgIds info = ["org-b"; "org-a"]
  /\ JwtService.oi_orgId info = head (JwtService.oi_orgIds info).
Proof.
  cbv zeta. split; [vm_compute; reflexivity|].
  pose proof (token_org_is_first (Some anaOrgs) "u-1") as H.
  cbv zeta in H. destruct H as [H _]. exact H.
Defined.

(** The principal of the token issued for ["u-1"]. *)
Lemma issued_token_principal_witness :
  exists u,
    AuthMiddleware.validateLocalToken
      (fun _ _ => Some (JwtService.accessPayload (Some anaOrgs) anaUser))
      bypassEnv
      (JwtService.generateAccessTokenWithOrg (fun _ => "a.b.c")
         (Some anaOrgs) anaUser)
    = inr u
    /\ Http.roles u = ["USER"]
    /\ Http.orgId u = Some "org-b".
Proof.
  destruct (issued_token_principal
              (fun _ _ => Some (JwtService.accessPayload (Some anaOrgs) anaUser))
              bypassEnv (fun _ => "a.b.c") (Some anaOrgs) anaUser eq_refl)
    as (u & Hu & _ & _ & _ & Hroles & _ & Horgs & Horg).
  exists u. split; [exact Hu|]. split; [exact Hroles|].
  rewrite Horg; rewrite Horgs; [reflexivity|].
  vm_compute. discriminate.
Defined.

Section RefreshTokens.
Import JwtService.
Local Open Scope Z_scope.

(** X29. [verifyRefreshToken] never refuses a token. It resolves to a
    stored row only for a row of the table that holds the presented token
    and has not expired, and then leaves the table as it was. In every
    other case (no table, unknown token, expired token) it resolves to an
    object that carries the presented token, no user, and an expiry seven
    days after the instant of the fallback; so does it for a token that
    [revokeRefreshToken] has removed. From a table whose ids are
    unique the only rows it ever removes are expired ones, and after [cleanupExpiredTokens] at the same instant it
    removes none. *)
Theorem refresh_token_answers :
  forall (now later : Z) (table : option (list RefreshToken))
         (token : string),
    let r := verifyRefreshToken now later table token in
    (forall row, snd r = Stored row ->
                 fst r = table /\ rt_token row = token
                 /\ now <= rt_expiresAt row
                 /\ exists rows, table = Some rows /\ In row rows)
    /\ (forall tok e, snd r = Unchecked tok e ->
                      tok = token /\ e = later + 604800000)
    /\ (forall rows rows', table = Some rows -> fst r = Some rows' ->
          List.NoDup (map rt_id rows) ->
          forall row, In row rows ->
                      In row rows' \/ rt_expiresAt row < now)
    /\ (forall rows,
          snd (verifyRefreshToken now later
                 (Some (revokeRefreshToken rows token)) token)
          = Unchecked token (later + 604800000))
    /\ (forall rows,
          fst (verifyRefreshToken now later
                 (Some (fst (cleanupExpiredTokens now rows))) token)
          = Some (fst (cleanupExpiredTokens now rows))).
Proof.
  intros now later table token r. subst r.
  split; [|split; [|split; [|split]]].
  - intros row. unfold verifyRefreshToken. destruct table as [rows|]; [|discriminate].
    destruct (find _ rows) as [f|] eqn:Ef; [|discriminate].
    destruct (Z.ltb_spec (rt_expiresAt f) now) as [Hlt|Hge]; [discriminate|].
    cbn [fst snd]. intros H. injection H as <-.
    apply find_some in Ef as [Hin Ht]. apply String.eqb_eq in Ht. eauto 8.
  - intros tok e. unfold verifyRefreshToken. destruct table as [rows|].
    + destruct (find _ rows) as [f|]; [destruct (_ <? _)|]; cbn [snd];
        intros H; try discriminate; injection H as <- <-; split; reflexivity.
    + cbn [snd]. intros H. injection H as <- <-. split; reflexivity.
  - intros rows rows' -> Hr Hnd row Hin. unfold verifyRefreshToken in Hr.
    destruct (find _ rows) as [f|] eqn:Ef.
    + destruct (Z.ltb_spec (rt_expiresAt f) now) as [Hlt|Hge];
        cbn [fst] in Hr; injection Hr as <-; [|now left].
      destruct (String.eqb_spec (rt_id row) (rt_id f)) as [E|E].
      * apply find_some in Ef as [Hf _]. right.
        now rewrite (NoDup_map_eq rt_id rows row f Hnd Hin Hf E).
      * left. apply filter_In. split; [exact Hin|].
        apply negb_true_iff. now apply String.eqb_neq.
    + cbn [fst] in Hr. injection Hr as <-. now left.
  - intros rows. unfold verifyRefreshToken, revokeRefreshToken.
    assert (find (fun r => String.eqb (rt_token r) token)
              (List.filter (fun r => negb (String.eqb (rt_token r) token)) rows)
            = None) as ->; [|reflexivity].
    destruct (find _ _) as [f|] eqn:Ef; [|reflexivity].
    apply find_some in Ef as [Hin Ht]. apply filter_In in Hin as [_ Hn].
    rewrite Ht in Hn. discriminate.
  - intros rows. unfold verifyRefreshToken, cleanupExpiredTokens. cbn [fst].
    destruct (find _ _) as [f|] eqn:Ef; [|reflexivity].
    apply find_some in Ef as [Hin _]. apply filter_In in Hin as [_ Hn].
    apply negb_true_iff in Hn. now rewrite Hn.
Qed.

End RefreshTokens.

(** A table with a token that expired at the instant 5 and one that
    lasts until 50. *)
Definition twoTokens : list JwtService.RefreshToken :=
  [JwtService.mkRefreshToken "rt-1" "old" "u-1" 5;
   JwtService.mkRefreshToken "rt-2" "new" "u-1" 50].

(** At the instant 10 the expired token is answered with the fallback
    object and its row is gone; the other row stays. *)
Lemma refresh_token_answers_witness :
  JwtService.verifyRefreshToken 10 11 (Some twoTokens) "old"
  = (Some [JwtService.mkRefreshToken "rt-2" "new" "u-1" 50],
     JwtService.Unchecked "old" 604800011)
  /\ (In (JwtService.mkRefreshToken "rt-2" "new" "u-1" 50)
        [JwtService.mkRefreshToken "rt-2" "new" "u-1" 50]
      \/ (50 < 10)%Z).
Proof.
  assert (JwtService.verifyRefreshToken 10 11 (Some twoTokens) "old"
          = (Some [JwtService.mkRefreshToken "rt-2" "new" "u-1" 50],
             JwtService.Unchecked "old" 604800011)) as Hv
    by (vm_compute; reflexivity).
  split; [exact Hv|].
  pose proof (refresh_token_answers 10 11 (Some twoTokens) "old") as H.
  cbv zeta in H. destruct H as (_ & _ & H & _).
  apply (H twoTokens [JwtService.mkRefreshToken "rt-2" "new" "u-1" 50]
           eq_refl).
  - now rewrite Hv.
  - repeat constructor; simpl; intuition discriminate.
  - right. now left.
Defined.

Section OptionalAuthentication.
Variable jwtVerify : string -> string -> option AuthMiddleware.LocalClaims.
Variable jwtDecode : string -> TahAuth.Decoded.
Variable validateTahToken : string -> string + AuthMiddleware.TahUser.
Variable cfg : AuthConfig.Config.
Variable env : AuthMiddleware.Env.

(** X30. [optionalAuth] never answers a request itself. It attaches what
    [authenticate] attaches whenever [authenticate] lets the request
    through, and it lets every request that [authenticate] refuses through
    as it came, with no principal added. *)
Theorem optionalAuth_and_authenticate :
  forall (req : Http.Request),
    let auth :=
      AuthMiddleware.authenticate jwtVerify jwtDecode validateTahToken cfg env in
    let optional :=
      AuthMiddleware.optionalAuth jwtVerify jwtDecode validateTahToken cfg env in
    (exists c, optional req = Http.Next c)
    /\ (forall c, auth req = Http.Next c -> optional req = Http.Next c)
    /\ (forall status body, auth req = Http.Respond status body ->
                            optional req = Http.Next (Http.ctx req)).
Proof.
  intros req auth optional. subst auth optional.
  unfold AuthMiddleware.authenticate, AuthMiddleware.optionalAuth,
    AuthMiddleware.applyDevBypass, Http.reject.
  destruct (AuthMiddleware.extractToken req) as [[|c t]|].
  - destruct (AuthMiddleware.AUTH_BYPASS_ENABLED env); cbn [negb];
      repeat split; eauto; intros; congruence.
  - destruct (AuthMiddleware.validateToken _ _ _ _ _ _) as [msg|u];
      repeat split; eauto; intros; congruence.
  - destruct (AuthMiddleware.AUTH_BYPASS_ENABLED env); cbn [negb];
      repeat split; eauto; intros; congruence.
Qed.

End OptionalAuthentication.

(** A request with a token that does not verify is refused by
    [authenticate] and passes [optionalAuth] unchanged. *)
Lemma optionalAuth_and_authenticate_witness :
  AuthMiddleware.optionalAuth (fun _ _ => None) (fun _ => TahAuth.DecodeNull)
    (fun _ => inl "unused") localOnlyConfig bypassEnv (bearerRequest "a.b.c")
  = Http.Next (Http.ctx (bearerRequest "a.b.c")).
Proof.
  pose proof (optionalAuth_and_authenticate (fun _ _ => None) (fun _ => TahAuth.DecodeNull)
                (fun _ => inl "unused") localOnlyConfig bypassEnv
                (bearerRequest "a.b.c")) as H.
  cbv zeta in H. destruct H as (_ & _ & H).
  apply (H 401%nat (Http.mkErrorBody "Invalid or expired token" [])).
  vm_compute. reflexivity.
Defined.
